(** * Climate API (Flask + SQLAlchemy over hawaii.sqlite): the handlers of app.py

    A shallow embedding of [src/app.py].  The measurement table is a list of
    rows, the SQL queries are list functions, Python exceptions are an
    explicit error monad, and [datetime.strptime(_, "%Y-%m-%d")] is a parser
    over the UTF-8 encoding of a [str].  A stored REAL is given by its exact
    value, a rational; the average of [temp_stats] and the [round] of the
    pages are computed in IEEE 754 binary64, as SQLite and Python do. *)

From Stdlib Require Import ZArith QArith Qround Qabs List String Ascii Bool Lia.
From Stdlib Require Import Permutation Sorted.
Import ListNotations.

Local Open Scope Z_scope.

(** ** Python exceptions and control flow *)

Module Py.

(** The exception classes that app.py can meet: three built-in ones and the
    module's own [DataDateError]. *)
Inductive exn : Set :=
| ValueError
| TypeError
| IndexError
| DataDateError.

(** A Python computation either returns a value or raises. *)
Inductive outcome (A : Type) : Type :=
| Return (a : A)
| Raise (e : exn).
Arguments Return {A} a.
Arguments Raise {A} e.

Definition bind {A B : Type} (c : outcome A) (k : A -> outcome B) : outcome B :=
  match c with
  | Return a => k a
  | Raise e => Raise e
  end.

Definition exn_eqb (a b : exn) : bool :=
  match a, b with
  | ValueError, ValueError
  | TypeError, TypeError
  | IndexError, IndexError
  | DataDateError, DataDateError => true
  | _, _ => false
  end.

(** [try: body except e1: h1 except e2: h2]: the first clause whose class
    is the raised one runs; any other exception propagates. *)
Fixpoint try_except {A : Type} (body : outcome A)
         (handlers : list (exn * outcome A)) : outcome A :=
  match body with
  | Return a => Return a
  | Raise e =>
      match handlers with
      | [] => Raise e
      | (e', h) :: rest => if exn_eqb e e' then h else try_except body rest
      end
  end.

(** A value that is a [str] or [None]. *)
Definition pystr : Set := option string.

End Py.
Import Py.

Declare Scope py_scope.
Delimit Scope py_scope with py.
Notation "x <- c ;; k" := (bind c (fun x => k))
  (at level 61, c at next level, right associativity) : py_scope.

(** ** datetime values, their constructor and "%Y-%m-%d" parsing *)

Module Datetime.

(** A [datetime.datetime] built from a date only (the time is midnight). *)
Record datetime : Set := mk_datetime { year : Z; month : Z; day : Z }.

Definition is_leap (y : Z) : bool :=
  (y mod 4 =? 0) && (negb (y mod 100 =? 0) || (y mod 400 =? 0)).

Definition days_in_month (y m : Z) : Z :=
  if m =? 2 then (if is_leap y then 29 else 28)
  else if (m =? 4) || (m =? 6) || (m =? 9) || (m =? 11) then 30
  else 31.

Definition valid (d : datetime) : bool :=
  (1 <=? year d) && (year d <=? 9999) &&
  (1 <=? month d) && (month d <=? 12) &&
  (1 <=? day d) && (day d <=? days_in_month (year d) (month d)).

(** [dt.datetime(y, m, d)]: ValueError on a date that does not exist. *)
Definition new (y m d : Z) : outcome datetime :=
  let r := mk_datetime y m d in
  if valid r then Return r else Raise ValueError.

(** Chronological comparison of two datetimes. *)
Definition compare (a b : datetime) : comparison :=
  match year a ?= year b with
  | Eq => match month a ?= month b with
          | Eq => day a ?= day b
          | c => c
          end
  | c => c
  end.

Definition gtb (a b : datetime) : bool :=
  match compare a b with Gt => true | _ => false end.
Definition ltb (a b : datetime) : bool :=
  match compare a b with Lt => true | _ => false end.
Definition leb (a b : datetime) : bool := negb (gtb a b).

(** [lt a b]: [a] is chronologically before [b]. *)
Definition lt (a b : datetime) : Prop :=
  year a < year b \/
  (year a = year b /\
   (month a < month b \/ (month a = month b /\ day a < day b))).

(** *** The regular expression that [_strptime] builds for "%Y-%m-%d":
    [(\d\d\d\d)-(1[0-2]|0[1-9]|[1-9])-(3[0-1]|[1-2]\d|0[1-9]|[1-9]| [1-9])].
    Alternatives are tried in order; on these patterns the first
    alternative that matches is the one the regex engine keeps.

    A [str] is held as its UTF-8 encoding, the form in which SQLite stores
    and compares TEXT.  On a [str] pattern [\d] matches every Unicode
    decimal digit, and [int] reads the digits of every script, so the year
    and the second digit of a two-digit day may be written with them; a
    bracket class such as [[0-2]] is a range of ASCII code points. *)

Definition parser (A : Type) : Type := string -> option (A * string).

Definition pbind {A B : Type} (p : parser A) (k : A -> parser B) : parser B :=
  fun s => match p s with
           | Some (a, rest) => k a rest
           | None => None
           end.

Definition pret {A : Type} (a : A) : parser A := fun s => Some (a, s).

Definition pfail {A : Type} : parser A := fun _ => None.

Definition alt {A : Type} (p q : parser A) : parser A :=
  fun s => match p s with
           | Some r => Some r
           | None => q s
           end.

Definition byte (c : ascii) : Z := Z.of_N (N_of_ascii c).

(** A continuation byte [10xxxxxx] of a UTF-8 sequence, as its six bits. *)
Definition continuation : parser Z := fun s =>
  match s with
  | String c rest =>
      if (128 <=? byte c) && (byte c <=? 191) then Some (byte c - 128, rest)
      else None
  | EmptyString => None
  end.

(** The next character of the [str], as its code point: one to four
    bytes, in the shortest form and outside the surrogates, as every
    encoded [str] is. *)
Definition code_point : parser Z := fun s =>
  match s with
  | String c rest =>
      let b := byte c in
      if b <? 128 then Some (b, rest)
      else if b <? 192 then None
      else if b <? 224 then
        pbind continuation (fun x =>
          let cp := (b - 192) * 64 + x in
          if 128 <=? cp then pret cp else pfail) rest
      else if b <? 240 then
        pbind continuation (fun x =>
        pbind continuation (fun y =>
          let cp := (b - 224) * 4096 + x * 64 + y in
          if (2048 <=? cp) && negb ((55296 <=? cp) && (cp <=? 57343))
          then pret cp else pfail)) rest
      else if b <? 248 then
        pbind continuation (fun x =>
        pbind continuation (fun y =>
        pbind continuation (fun z =>
          let cp := (b - 240) * 262144 + x * 4096 + y * 64 + z in
          if (65536 <=? cp) && (cp <=? 1114111) then pret cp else pfail))) rest
      else None
  | EmptyString => None
  end.

(** The digit zero of every script with decimal digits (general category
    Nd) in Unicode 14.0, the database of CPython 3.11: the nine code points
    after each are its digits one to nine. *)
Definition decimal_zeros : list Z :=
  [ 48; 1632; 1776; 1984; 2406; 2534; 2662; 2790; 2918; 3046; 3174;
    3302; 3430; 3558; 3664; 3792; 3872; 4160; 4240; 6112; 6160; 6470;
    6608; 6784; 6800; 6992; 7088; 7232; 7248; 42528; 43216; 43264;
    43472; 43504; 43600; 44016; 65296; 66720; 68912; 69734; 69872;
    69942; 70096; 70384; 70736; 70864; 71248; 71360; 71472; 71904;
    72016; 72784; 73040; 73120; 92768; 92864; 93008; 120782; 120792;
    120802; 120812; 120822; 123200; 123632; 125264; 130032 ].

(** The value of a decimal digit, as [int] reads it. *)
Definition decimal (cp : Z) : option Z :=
  match find (fun z => (z <=? cp) && (cp <=? z + 9)) decimal_zeros with
  | Some z => Some (cp - z)
  | None => None
  end.

(** [\d] *)
Definition re_digit : parser Z :=
  pbind code_point (fun cp =>
    match decimal cp with
    | Some v => pret v
    | None => pfail
    end).

(** One character of the class [[lo-hi]] of ASCII digits. *)
Definition digit_in (lo hi : Z) : parser Z := fun s =>
  match s with
  | String c rest =>
      let v := byte c - 48 in
      if (lo <=? v) && (v <=? hi) then Some (v, rest) else None
  | EmptyString => None
  end.

Definition lit (c : ascii) : parser unit := fun s =>
  match s with
  | String c' rest => if Ascii.eqb c c' then Some (tt, rest) else None
  | EmptyString => None
  end.

(** [\d\d\d\d] *)
Definition re_Y : parser Z :=
  pbind re_digit (fun a =>
  pbind re_digit (fun b =>
  pbind re_digit (fun c =>
  pbind re_digit (fun d =>
  pret (1000 * a + 100 * b + 10 * c + d))))).

(** [1[0-2]|0[1-9]|[1-9]] *)
Definition re_m : parser Z :=
  alt (pbind (digit_in 1 1) (fun _ => pbind (digit_in 0 2) (fun b => pret (10 + b))))
 (alt (pbind (digit_in 0 0) (fun _ => digit_in 1 9))
      (digit_in 1 9)).

(** [3[0-1]|[1-2]\d|0[1-9]|[1-9]| [1-9]] *)
Definition re_d : parser Z :=
  alt (pbind (digit_in 3 3) (fun _ => pbind (digit_in 0 1) (fun b => pret (30 + b))))
 (alt (pbind (digit_in 1 2) (fun a => pbind re_digit (fun b => pret (10 * a + b))))
 (alt (pbind (digit_in 0 0) (fun _ => digit_in 1 9))
 (alt (digit_in 1 9)
      (pbind (lit " ") (fun _ => digit_in 1 9))))).

Definition re_Ymd : parser (Z * Z * Z) :=
  pbind re_Y (fun y =>
  pbind (lit "-") (fun _ =>
  pbind re_m (fun m =>
  pbind (lit "-") (fun _ =>
  pbind re_d (fun d =>
  pret (y, m, d)))))).

(** [dt.datetime.strptime(s, "%Y-%m-%d")] on a [str]: ValueError when the
    pattern does not match, when unconverted data remains, or when the
    fields are not a date of the calendar. *)
Definition strptime_str (s : string) : outcome datetime :=
  match re_Ymd s with
  | Some ((y, m, d), EmptyString) => new y m d
  | Some (_, String _ _) => Raise ValueError
  | None => Raise ValueError
  end.

(** The same call on a value that may be [None] (TypeError: argument 1 must
    be str). *)
Definition strptime (v : pystr) : outcome datetime :=
  match v with
  | Some s => strptime_str s
  | None => Raise TypeError
  end.

(** *** Text form of a datetime *)

Definition digit_char (v : Z) : ascii := ascii_of_N (Z.to_N (48 + v)).

(** ["%02d"] and ["%04d"]. *)
Definition pad2 (n : Z) : string :=
  String (digit_char (n / 10)) (String (digit_char (n mod 10)) EmptyString).

Definition pad4 (n : Z) : string :=
  String (digit_char (n / 1000))
    (String (digit_char (n / 100 mod 10))
       (String (digit_char (n / 10 mod 10))
          (String (digit_char (n mod 10)) EmptyString))).

(** "YYYY-MM-DD", the form in which the table stores its dates. *)
Definition isoformat_date (d : datetime) : string :=
  (pad4 (year d) ++ "-" ++ pad2 (month d) ++ "-" ++ pad2 (day d))%string.

(** The text that SQLAlchemy's SQLite dialect binds for a datetime
    parameter: "YYYY-MM-DD HH:MM:SS.ffffff". *)
Definition bind_param (d : datetime) : string :=
  (isoformat_date d ++ " 00:00:00.000000")%string.

End Datetime.

(** ** IEEE 754 binary64: the [double] of SQLite and the [float] of Python

    A finite number is given by its exact value.  An operation returns the
    exact result rounded to the nearest binary64 number, ties to the even
    significand, with the signed zeros, the infinities and NaN of the
    standard. *)

Module Binary64.

Inductive double : Set :=
| Fin (q : Q)
| NegZero
| Inf (negative : bool)
| NaN.

(** The nearest integer, ties to the even one. *)
Definition round_half_even (q : Q) : Z :=
  let f := Qfloor q in
  let r := (q - inject_Z f)%Q in
  match (r ?= 1 # 2)%Q with
  | Lt => f
  | Gt => f + 1
  | Eq => if Z.even f then f else f + 1
  end.

(** The exponent of the leading bit of a positive rational:
    [2 ^ ilog2 a <= a < 2 ^ (ilog2 a + 1)]. *)
Definition ilog2 (a : Q) : Z :=
  let e := Z.log2 (Qnum a) - Z.log2 (Zpos (Qden a)) in
  if Qle_bool (2 ^ e) a then e else e - 1.

Definition zero (negative : bool) : double := if negative then NegZero else Fin 0.

(** Rounding to binary64: 53 significant bits, the smallest spacing
    [2 ^ -1074] of the subnormals, and overflow to an infinity from
    [2 ^ 1024].  A result that rounds to zero keeps the sign. *)
Definition rnd64 (q : Q) : double :=
  let q := Qred q in
  match (q ?= 0)%Q with
  | Eq => Fin 0
  | c =>
      let negative := match c with Lt => true | _ => false end in
      let a := Qabs q in
      let e := Z.max (ilog2 a - 52) (-1074) in
      let m := round_half_even (a / 2 ^ e) in
      let v := (inject_Z m * 2 ^ e)%Q in
      if m =? 0 then zero negative
      else if Qle_bool (2 ^ 1024) v then Inf negative
      else Fin (Qred (if negative then - v else v))
  end.

(** The value of a finite number (of a zero of either sign: 0). *)
Definition value (x : double) : Q :=
  match x with
  | Fin q => q
  | _ => 0%Q
  end.

(** The sign bit. *)
Definition sign (x : double) : bool :=
  match x with
  | Fin q => match (q ?= 0)%Q with Lt => true | _ => false end
  | NegZero => true
  | Inf negative => negative
  | NaN => false
  end.

(** [x + y] *)
Definition fadd (x y : double) : double :=
  match x, y with
  | NaN, _ | _, NaN => NaN
  | Inf a, Inf b => if Bool.eqb a b then Inf a else NaN
  | Inf a, _ => Inf a
  | _, Inf b => Inf b
  | NegZero, NegZero => NegZero
  | _, _ => rnd64 (value x + value y)
  end.

(** [x / y] *)
Definition fdiv (x y : double) : double :=
  let s := xorb (sign x) (sign y) in
  match x, y with
  | NaN, _ | _, NaN => NaN
  | Inf _, Inf _ => NaN
  | Inf _, _ => Inf s
  | _, Inf _ => zero s
  | _, _ =>
      if Qeq_bool (value y) 0 then
        if Qeq_bool (value x) 0 then NaN else Inf s
      else if Qeq_bool (value x) 0 then zero s
      else rnd64 (value x / value y)
  end.

(** [(double)n] for an integer. *)
Definition of_int (n : Z) : double := rnd64 (inject_Z n).

(** [float.__round__(x, 1)]: the exact value is rounded to one decimal
    place, ties to the even digit, and the decimal is then read back as the
    nearest [float].  A zero result keeps the sign; the infinities and NaN
    round to themselves.  (A [float] of magnitude [2 ^ 52] or more is an
    integer and rounds to itself, so the conversion back never overflows.) *)
Definition fround1 (x : double) : double :=
  match x with
  | Fin q =>
      let n := round_half_even (q * 10) in
      if n =? 0 then zero (sign x) else rnd64 (inject_Z n / 10)
  | _ => x
  end.

End Binary64.
Import Binary64.

(** ** The measurement table and the SQL that the handlers issue *)

Module Sql.

(** One row of [measurement]: station and date are TEXT, prcp and tobs are
    nullable REALs, each given by the exact value of the number stored. *)
Record Measurement : Set := mk_measurement {
  station : string;
  date : string;
  prcp : option Q;
  tobs : option Q
}.

Definition table : Set := list Measurement.

(** SQLite compares TEXT with the BINARY collation: byte by byte. *)
Definition text_le (a b : string) : bool := String.leb a b.
Definition text_lt (a b : string) : bool := String.ltb a b.

(** [func.min] / [func.max] over a TEXT column: NULL on no rows. *)
Definition text_min (a b : string) : string := if text_le a b then a else b.
Definition text_max (a b : string) : string := if text_le a b then b else a.

Fixpoint reduce {A : Type} (f : A -> A -> A) (l : list A) : option A :=
  match l with
  | [] => None
  | x :: rest => match reduce f rest with
                 | None => Some x
                 | Some y => Some (f x y)
                 end
  end.

Definition min_text (col : list string) : pystr := reduce text_min col.
Definition max_text (col : list string) : pystr := reduce text_max col.

(** Aggregates over a numeric column skip NULLs and are NULL when no value
    is left. *)
Fixpoint non_null {A : Type} (col : list (option A)) : list A :=
  match col with
  | [] => []
  | Some v :: rest => v :: non_null rest
  | None :: rest => non_null rest
  end.

Definition q_min (a b : Q) : Q := if Qle_bool a b then a else b.
Definition q_max (a b : Q) : Q := if Qle_bool a b then b else a.

Definition func_min (col : list (option Q)) : option Q := reduce q_min (non_null col).
Definition func_max (col : list (option Q)) : option Q := reduce q_max (non_null col).

(** [func.avg]: SQLite's [avg] (func.c, before the compensated summation
    of 3.44).  [sumStep] adds every non-NULL value, in the order of the
    rows, to a [double] that starts at 0.0 and counts it; [avgFinalize]
    divides the sum by the count, and gives NULL when nothing was counted. *)
Record SumCtx : Set := mk_SumCtx { rSum : double; cnt : Z }.

Definition sumStep (p : SumCtx) (v : option Q) : SumCtx :=
  match v with
  | Some x => mk_SumCtx (fadd (rSum p) (Fin x)) (cnt p + 1)
  | None => p
  end.

Definition avgFinalize (p : SumCtx) : option double :=
  if 0 <? cnt p then Some (fdiv (rSum p) (of_int (cnt p))) else None.

Definition func_avg (col : list (option Q)) : option double :=
  avgFinalize (fold_left sumStep col (mk_SumCtx (Fin 0) 0)).

(** [col BETWEEN lo AND hi] on TEXT; a NULL bound matches no row. *)
Definition between (lo hi : pystr) (x : string) : bool :=
  match lo, hi with
  | Some l, Some h => text_le l x && text_le x h
  | _, _ => false
  end.

(** [ORDER BY]: a stable insertion sort on the given order (SQL leaves the
    order of rows with equal keys to the engine). *)
Fixpoint insert {A : Type} (le : A -> A -> bool) (x : A) (l : list A) : list A :=
  match l with
  | [] => [x]
  | y :: rest => if le x y then x :: y :: rest else y :: insert le x rest
  end.

Fixpoint order_by {A : Type} (le : A -> A -> bool) (l : list A) : list A :=
  match l with
  | [] => []
  | x :: rest => insert le x (order_by le rest)
  end.

Definition by_date (a b : Measurement) : bool := text_le (date a) (date b).

(** [GROUP BY station] with [count(station)]: one row per distinct
    station.  SQLite groups by sorting, and gives the sorter of a GROUP BY
    term the direction of the ORDER BY term of the query, here DESC: the
    groups come out in descending station order. *)
Definition count_rows (s : string) (db : table) : nat :=
  List.length (filter (fun m => String.eqb (station m) s) db).

Definition group_keys (db : table) : list string :=
  rev (order_by text_le (nodup string_dec (map station db))).

Definition group_by_station (db : table) : list (string * nat) :=
  map (fun s => (s, count_rows s db)) (group_keys db).

(** [ORDER BY count(station) DESC]: the sort is stable, so stations with
    equal counts stay in the order of the groups. *)
Definition by_count_desc (a b : string * nat) : bool := Nat.leb (snd b) (snd a).

End Sql.
Import Sql.

(** ** app.py *)

Module App.
Import Datetime.
Local Open Scope py_scope.

(** [temp_stats(session, start_date, end_date)]: the one-row result of the
    aggregate query. *)
Definition temp_stats (db : table) (start_date end_date : pystr)
  : list (option Q * option double * option Q) :=
  let col := map Sql.tobs (filter (fun m => between start_date end_date (date m)) db) in
  [(func_min col, func_avg col, func_max col)].

(** The response bodies of the two date routes, one constructor per
    f-string of the source. *)
Inductive body : Type :=
| StatsPage (start end_ : pystr) (TMin TMax : option Q) (TAvg1 : double)
| InvalidFormatPage
| LaterThanDataPage (d_latest : pystr)
| OutsideRangePage (d_earliest d_latest : pystr).

(** [[x] = rows]: unpacking a list that must have exactly one element. *)
Definition unpack1 {A : Type} (rows : list A) : outcome A :=
  match rows with
  | [x] => Return x
  | _ => Raise ValueError
  end.

(** [rows[0]] *)
Definition index0 {A : Type} (rows : list A) : outcome A :=
  match rows with
  | x :: _ => Return x
  | [] => Raise IndexError
  end.

(** [round(x, 1)]: the rounding of a [float]; TypeError on None. *)
Definition round1 (v : option double) : outcome double :=
  match v with
  | Some x => Return (fround1 x)
  | None => Raise TypeError
  end.

(** [a and b] evaluates [b] only when [a] is true. *)
Definition py_and (a b : outcome bool) : outcome bool :=
  x <- a ;; if x then b else Return false.

(** [strptime(a, fmt) > strptime(b, fmt)] and [... < ...]. *)
Definition dt_gt (a b : pystr) : outcome bool :=
  x <- strptime a ;; y <- strptime b ;; Return (gtb x y).
Definition dt_lt (a b : pystr) : outcome bool :=
  x <- strptime a ;; y <- strptime b ;; Return (ltb x y).

(** The last lines of both date handlers: run the query, unpack its row and
    fill the page. *)
Definition stats_page (db : table) (start end_ : pystr) : outcome body :=
  row <- unpack1 (temp_stats db start end_) ;;
  let '(TMin, TAvg, TMax) := row in
  avg <- round1 TAvg ;;
  Return (StatsPage start end_ TMin TMax avg).

(** [@app.route("/api/v1.0/<start>")]: the [try] block, then the handler
    with its two [except] clauses. *)
Definition tobs_start_try (db : table) (d_latest : pystr) (start : string)
  : outcome body :=
  later <- dt_gt (Some start) d_latest ;;
  if later then Raise DataDateError
  else stats_page db (Some start) d_latest.

Definition tobs_start (db : table) (start : string) : outcome body :=
  let d_latest := max_text (map date db) in
  try_except (tobs_start_try db d_latest start)
    [(ValueError, Return InvalidFormatPage);
     (DataDateError, Return (LaterThanDataPage d_latest))].

(** [@app.route("/api/v1.0/<start>/<end>")] *)
Definition tobs_start_end_try (db : table) (d_earliest d_latest : pystr)
           (start end_ : string) : outcome body :=
  swap <- dt_gt (Some start) (Some end_) ;;
  let '(start, end_) :=
    if swap then (Some end_, Some start) else (Some start, Some end_) in
  outside <- py_and (dt_gt start d_latest) (dt_lt end_ d_earliest) ;;
  if outside then Raise DataDateError
  else
    early <- dt_lt start d_earliest ;;
    let start := if early then d_earliest else start in
    late <- dt_gt end_ d_latest ;;
    let end_ := if late then d_latest else end_ in
    stats_page db start end_.

Definition tobs_start_end (db : table) (start end_ : string) : outcome body :=
  let d_earliest := min_text (map date db) in
  let d_latest := max_text (map date db) in
  try_except (tobs_start_end_try db d_earliest d_latest start end_)
    [(ValueError, Return InvalidFormatPage);
     (DataDateError, Return (OutsideRangePage d_earliest d_latest))].

(** The date one calendar year before: [dt.datetime(d.year - 1, d.month, d.day)]. *)
Definition one_year_before (d : datetime) : outcome datetime :=
  new (year d - 1) (month d) (day d).

(** [Measurement.date > d_1yr]: the TEXT column against the bound datetime. *)
Definition after (d_1yr : datetime) (m : Measurement) : bool :=
  text_lt (bind_param d_1yr) (date m).

(** [@app.route("/api/v1.0/precipitation")] *)
Definition precip (db : table) : outcome (list (string * option Q)) :=
  let d_latest := max_text (map date db) in
  d_latest <- strptime d_latest ;;
  d_1yr <- one_year_before d_latest ;;
  let results := order_by by_date (filter (after d_1yr) db) in
  Return (map (fun m => (date m, prcp m)) results).

(** The first query of [tobs]: the stations by decreasing number of rows. *)
Definition n_station (db : table) : list (string * nat) :=
  order_by by_count_desc (group_by_station db).

(** [station_id = n_station[0][0]] *)
Definition busiest (db : table) : outcome string :=
  first <- index0 (n_station db) ;;
  Return (fst first).

(** [Measurement.station == station_id] *)
Definition of_station (s : string) (m : Measurement) : bool :=
  String.eqb (station m) s.

(** [@app.route("/api/v1.0/tobs")] *)
Definition tobs (db : table) : outcome (list (string * string * option Q)) :=
  station_id <- busiest db ;;
  let d_latest := max_text (map date (filter (of_station station_id) db)) in
  d_latest <- strptime d_latest ;;
  d_1yr <- one_year_before d_latest ;;
  let results :=
    order_by by_date
      (filter (after d_1yr) (filter (of_station station_id) db)) in
  Return (map (fun m => (station m, date m, Sql.tobs m)) results).

End App.
Import App.

(** ** Datasets for the scenarios *)

Definition row (s d : string) (p t : option Q) : Measurement := mk_measurement s d p t.

(** A table that spans 2010-01-01 to 2017-08-23. *)
Definition hawaii : table :=
  [ row "USC00519397" "2010-01-01" (Some (8 # 100)) (Some 65);
    row "USC00519281" "2010-01-01" (Some (15 # 100)) (Some 70);
    row "USC00519281" "2016-08-23" (Some (177 # 100)) (Some 77);
    row "USC00519281" "2016-08-24" (Some (215 # 100)) (Some 77);
    row "USC00519397" "2017-01-01" None (Some 62);
    row "USC00519281" "2017-08-18" (Some (6 # 100)) (Some 79);
    row "USC00519397" "2017-08-23" (Some 0) (Some 81) ]%Q.

(** A table whose latest date is a leap day. *)
Definition leap_table : table :=
  [ row "USC00519281" "2015-12-31" None (Some 70%Q);
    row "USC00519281" "2016-02-29" (Some 0%Q) (Some 71%Q) ].

(** ** Vocabulary of the statements *)

(** [quiet c]: the computation does not raise [DataDateError]. *)
Definition quiet {A : Type} (c : outcome A) : Prop := c <> Raise DataDateError.

(** The dataset's span is in order when its earliest date, once parsed, is
    not after its latest one. *)
Definition span_ordered (db : table) : Prop :=
  forall e l : Datetime.datetime,
    Datetime.strptime (min_text (map date db)) = Return e ->
    Datetime.strptime (max_text (map date db)) = Return l ->
    Datetime.leb e l = true.

(** The stored text is the zero-padded form of the date it denotes. *)
Definition iso_date (s : string) : bool :=
  match Datetime.strptime_str s with
  | Return d => String.eqb s (Datetime.isoformat_date d)
  | Raise _ => false
  end.

(** The measurement was taken on a day chronologically after [d]. *)
Definition later_than (d : Datetime.datetime) (m : Measurement) : bool :=
  match Datetime.strptime_str (date m) with
  | Return x => Datetime.gtb x d
  | Raise _ => false
  end.

(** Chronological order on stored dates. *)
Definition chron_le (a b : string) : Prop :=
  exists x y, Datetime.strptime_str a = Return x /\
              Datetime.strptime_str b = Return y /\
              Datetime.leb x y = true.

(** The measurement's date is chronologically between the two dates. *)
Definition within (lo hi : string) (m : Measurement) : bool :=
  match Datetime.strptime_str lo, Datetime.strptime_str (date m),
        Datetime.strptime_str hi with
  | Return a, Return x, Return b => Datetime.leb a x && Datetime.leb x b
  | _, _, _ => false
  end.

(** A table whose dates are all stored as zero-padded text. *)
Definition iso_table (db : table) : Prop :=
  forall m, In m db -> iso_date (date m) = true.

(** The rational is a binary64 number: rounding leaves it as it is. *)
Definition binary64 (q : Q) : Prop := rnd64 q = Fin (Qred q).

(** The binary64 mean of readings: their sum, taken from 0.0 in the order
    of the list with a rounding at every step, divided by their number. *)
Definition mean64 (readings : list Q) : double :=
  fdiv (fold_left (fun sum t => fadd sum (Fin t)) readings (Fin 0))
       (of_int (Z.of_nat (List.length readings))).

(** The number that the literal 0.1 denotes, and the one of 60.2. *)
Definition tenth : Q := 3602879701896397 # 36028797018963968.
Definition sixty_point_two : Q := 4236198399495373 # 70368744177664.

(** Three readings of 0.1 on three days, and six readings of 60.2 on one. *)
Definition tenths : table :=
  [ mk_measurement "USC00519281" "2017-01-01" None (Some tenth);
    mk_measurement "USC00519281" "2017-01-02" None (Some tenth);
    mk_measurement "USC00519281" "2017-01-03" None (Some tenth) ].

Definition six_readings : table :=
  repeat (mk_measurement "USC00519281" "2017-01-01" None (Some sixty_point_two)) 6.

(** ** The handlers with their sessions

    The same handlers, now with the [Session(engine)] and [session.close()]
    calls of the source.  The state of a request records how many sessions
    were created, which of them are not closed, and the handler's variable
    [session]. *)

Module Io.

Record state : Set := mk_state {
  created : nat;
  open_sessions : list nat;
  session : nat
}.

Definition io (A : Type) : Type := state -> outcome A * state.

Definition ret {A : Type} (a : A) : io A := fun st => (Return a, st).

(** A computation that does not touch the sessions. *)
Definition lift {A : Type} (c : outcome A) : io A := fun st => (c, st).

Definition bind_io {A B : Type} (c : io A) (k : A -> io B) : io B :=
  fun st => match c st with
            | (Return a, st') => k a st'
            | (Raise e, st') => (Raise e, st')
            end.

(** [session = Session(engine)]: a new session, bound to the variable. *)
Definition Session_engine : io unit := fun st =>
  (Return tt,
   mk_state (S (created st)) (created st :: open_sessions st) (created st)).

(** [session.close()]: closes the session the variable holds. *)
Definition session_close : io unit := fun st =>
  (Return tt,
   mk_state (created st)
            (remove Nat.eq_dec (session st) (open_sessions st))
            (session st)).

Fixpoint handler_for {A : Type} (e : exn) (handlers : list (exn * A)) : option A :=
  match handlers with
  | [] => None
  | (e', h) :: rest => if exn_eqb e e' then Some h else handler_for e rest
  end.

(** [try ... except ...] around a body that uses sessions: the clause runs
    in the state the body left. *)
Definition try_except_io {A : Type} (body : io A)
           (handlers : list (exn * io A)) : io A :=
  fun st => match body st with
            | (Return a, st') => (Return a, st')
            | (Raise e, st') =>
                match handler_for e handlers with
                | Some h => h st'
                | None => (Raise e, st')
                end
            end.

End Io.

Declare Scope io_scope.
Delimit Scope io_scope with io.
Notation "x <- c ;; k" := (Io.bind_io c (fun x => k))
  (at level 61, c at next level, right associativity) : io_scope.
Notation "c ;; k" := (Io.bind_io c (fun _ => k))
  (at level 61, right associativity) : io_scope.

(** The [station] table. *)
Module Stations.

Record Station : Set := mk_station {
  id : Z;
  station : string;
  name : string;
  latitude : Q;
  longitude : Q;
  elevation : Q
}.

End Stations.

Module Web.
Import Datetime Io.
Local Open Scope io_scope.

(** The index page of [home], with the two dates it shows. *)
Inductive index_page : Set :=
| IndexPage (d_earliest d_latest : pystr).

(** [@app.route("/")] *)
Definition home (db : table) : io index_page :=
  Session_engine ;;
  let '(d_earliest, d_latest) :=
    (min_text (map date db), max_text (map date db)) in
  session_close ;;
  ret (IndexPage d_earliest d_latest).

(** [@app.route("/api/v1.0/precipitation")] *)
Definition precip (db : table) : io (list (string * option Q)) :=
  Session_engine ;;
  let d_latest := max_text (map date db) in
  d_latest <- lift (strptime d_latest) ;;
  d_1yr <- lift (one_year_before d_latest) ;;
  let results := order_by by_date (filter (after d_1yr) db) in
  session_close ;;
  ret (map (fun m => (date m, prcp m)) results).

(** [@app.route("/api/v1.0/stations")]: one record per row, with the six
    fields of the row. *)
Definition station (stations : list Stations.Station) : io (list Stations.Station) :=
  Session_engine ;;
  let results := stations in
  session_close ;;
  ret (map (fun item =>
              Stations.mk_station (Stations.id item) (Stations.station item)
                (Stations.name item) (Stations.latitude item)
                (Stations.longitude item) (Stations.elevation item))
           results).

(** [@app.route("/api/v1.0/tobs")] *)
Definition tobs (db : table) : io (list (string * string * option Q)) :=
  Session_engine ;;
  station_id <- lift (busiest db) ;;
  let d_latest := max_text (map date (filter (of_station station_id) db)) in
  d_latest <- lift (strptime d_latest) ;;
  d_1yr <- lift (one_year_before d_latest) ;;
  let results :=
    order_by by_date
      (filter (after d_1yr) (filter (of_station station_id) db)) in
  session_close ;;
  ret (map (fun m => (Sql.station m, date m, Sql.tobs m)) results).

(** The common end of the [try] blocks: a second session, the query, its
    close, then the page. *)
Definition stats_page (db : table) (start end_ : pystr) : io body :=
  Session_engine ;;
  row <- lift (unpack1 (temp_stats db start end_)) ;;
  let '(TMin, TAvg, TMax) := row in
  session_close ;;
  avg <- lift (round1 TAvg) ;;
  ret (StatsPage start end_ TMin TMax avg).

(** [@app.route("/api/v1.0/<start>")] *)
Definition tobs_start (db : table) (start : string) : io body :=
  Session_engine ;;
  let d_latest := max_text (map date db) in
  try_except_io
    (later <- lift (dt_gt (Some start) d_latest) ;;
     if later then lift (Raise DataDateError)
     else stats_page db (Some start) d_latest)
    [(ValueError, session_close ;; ret InvalidFormatPage);
     (DataDateError, session_close ;; ret (LaterThanDataPage d_latest))].

(** [@app.route("/api/v1.0/<start>/<end>")] *)
Definition tobs_start_end (db : table) (start end_ : string) : io body :=
  Session_engine ;;
  let d_earliest := min_text (map date db) in
  let d_latest := max_text (map date db) in
  try_except_io
    (swap <- lift (dt_gt (Some start) (Some end_)) ;;
     let '(start, end_) :=
       if swap then (Some end_, Some start) else (Some start, Some end_) in
     outside <- lift (py_and (dt_gt start d_latest) (dt_lt end_ d_earliest)) ;;
     if outside then lift (Raise DataDateError)
     else
       early <- lift (dt_lt start d_earliest) ;;
       let start := if early then d_earliest else start in
       late <- lift (dt_gt end_ d_latest) ;;
       let end_ := if late then d_latest else end_ in
       stats_page db start end_)
    [(ValueError, session_close ;; ret InvalidFormatPage);
     (DataDateError, session_close ;; ret (OutsideRangePage d_earliest d_latest))].

End Web.

(** Session numbers are given in order: those not closed are below the
    number of sessions created. *)
Definition fresh (st : Io.state) : Prop :=
  forall i, In i (Io.open_sessions st) -> (i < Io.created st)%nat.

(** A request that starts with no session. *)
Definition request_start : Io.state := Io.mk_state 0 [] 0.

(** The answers of a date route that are messages, not statistics. *)
Definition is_message (r : outcome body) : bool :=
  match r with
  | Return InvalidFormatPage
  | Return (LaterThanDataPage _)
  | Return (OutsideRangePage _ _) => true
  | _ => false
  end.

(** What a run of a date route must satisfy, from the state [st] of the
    request: it gives the answer [pure]; after a message no session more is
    open than before, after anything else the first session created is; and
    a statistics page means that two sessions were created. *)
Definition date_route_sessions (st : Io.state) (run : outcome body * Io.state)
           (pure : outcome body) : Prop :=
  fst run = pure /\
  Io.open_sessions (snd run) =
    (if is_message pure then Io.open_sessions st
     else Io.created st :: Io.open_sessions st) /\
  (forall a b mn mx av,
     pure = Return (StatsPage a b mn mx av) ->
     Io.created (snd run) = S (S (Io.created st))).

(** ** The model on the scenarios of the service *)

Example strptime_ok :
  Datetime.strptime_str "2017-08-23" = Return (Datetime.mk_datetime 2017 8 23).
Proof. reflexivity. Qed.

Example strptime_unpadded :
  Datetime.strptime_str "2017-8-3" = Return (Datetime.mk_datetime 2017 8 3).
Proof. reflexivity. Qed.

Example strptime_not_a_date : Datetime.strptime_str "not-a-date" = Raise ValueError.
Proof. reflexivity. Qed.

Example strptime_feb30 : Datetime.strptime_str "2017-02-30" = Raise ValueError.
Proof. reflexivity. Qed.

Example strptime_trailing : Datetime.strptime_str "2017-01-311" = Raise ValueError.
Proof. reflexivity. Qed.

Example strptime_space_padded_day :
  Datetime.strptime_str "2017-01- 5" = Return (Datetime.mk_datetime 2017 1 5).
Proof. reflexivity. Qed.

Example strptime_year_zero : Datetime.strptime_str "0000-01-01" = Raise ValueError.
Proof. reflexivity. Qed.

Example strptime_none : Datetime.strptime None = Raise TypeError.
Proof. reflexivity. Qed.

Example datetime_no_leap_day : Datetime.new 2015 2 29 = Raise ValueError.
Proof. reflexivity. Qed.

Example bind_param_text :
  Datetime.bind_param (Datetime.mk_datetime 2016 8 23)
  = "2016-08-23 00:00:00.000000"%string.
Proof. reflexivity. Qed.

Example tobs_start_not_a_date : tobs_start hawaii "not-a-date" = Return InvalidFormatPage.
Proof. reflexivity. Qed.

Example tobs_start_2018 :
  tobs_start hawaii "2018-01-01" = Return (LaterThanDataPage (Some "2017-08-23"%string)).
Proof. reflexivity. Qed.

Example precip_hawaii :
  precip hawaii =
  Return [ ("2016-08-24", Some (215 # 100)); ("2017-01-01", None);
           ("2017-08-18", Some (6 # 100)); ("2017-08-23", Some 0) ]%string%Q.
Proof. reflexivity. Qed.

Example n_station_hawaii :
  n_station hawaii = [("USC00519281", 4%nat); ("USC00519397", 3%nat)]%string.
Proof. reflexivity. Qed.

(** Stations with the same count: the one later in text order is first,
    however the rows are stored. *)
Example n_station_tie :
  n_station [row "A" "2017-01-01" None None; row "B" "2017-01-01" None None]
    = [("B", 1%nat); ("A", 1%nat)]%string /\
  n_station [row "B" "2017-01-01" None None; row "A" "2017-01-01" None None]
    = [("B", 1%nat); ("A", 1%nat)]%string /\
  n_station [row "C" "2017-01-01" None None; row "A" "2017-01-01" None None;
              row "B" "2017-01-01" None None; row "A" "2017-01-02" None None;
              row "B" "2017-01-02" None None]
    = [("B", 2%nat); ("A", 2%nat); ("C", 1%nat)]%string.
Proof. repeat split. Qed.

(** Digits of other scripts: an Arabic-Indic seven in the year, a
    mathematical bold seven as the second digit of the day; the month and
    a one-digit day take ASCII digits only. *)
Example strptime_arabic_indic_year :
  Datetime.strptime_str "201٧-01-01" = Return (Datetime.mk_datetime 2017 1 1).
Proof. reflexivity. Qed.

Example strptime_fullwidth_year :
  Datetime.strptime_str "２０１７-01-01" = Return (Datetime.mk_datetime 2017 1 1).
Proof. reflexivity. Qed.

Example strptime_bold_day :
  Datetime.strptime_str "2017-01-1𝟕" = Return (Datetime.mk_datetime 2017 1 17).
Proof. reflexivity. Qed.

Example strptime_arabic_indic_month :
  Datetime.strptime_str "2017-1٠-01" = Raise ValueError.
Proof. reflexivity. Qed.

Example strptime_arabic_indic_day :
  Datetime.strptime_str "2017-01-١" = Raise ValueError.
Proof. reflexivity. Qed.

Example strptime_arabic_indic_thirty :
  Datetime.strptime_str "2017-01-3٠" = Raise ValueError.
Proof. reflexivity. Qed.

(** Binary64 arithmetic on the values of the service. *)
Example tenth_is_the_double_of_one_tenth : rnd64 (1 # 10) = Fin tenth.
Proof. vm_compute. reflexivity. Qed.

Example sixty_point_two_is_a_double : rnd64 (602 # 10) = Fin sixty_point_two.
Proof. vm_compute. reflexivity. Qed.

(** avg of 0.1, 0.1, 0.1 is 0.10000000000000002. *)
Example avg_three_tenths :
  func_avg [Some tenth; Some tenth; Some tenth]
  = Some (Fin (7205759403792795 # 72057594037927936)).
Proof. vm_compute. reflexivity. Qed.

(** Thirteen readings of 70 and seven of 71 have the mean 70.35, whose
    [double] is below 70.35: the page shows 70.3. *)
Example round1_seventy_point_three :
  round1 (func_avg (repeat (Some 70%Q) 13 ++ repeat (Some 71%Q) 7))
  = Return (rnd64 (703 # 10)).
Proof. vm_compute. reflexivity. Qed.

Example round1_ties_to_even :
  round1 (Some (Fin (1 # 4))) = Return (rnd64 (2 # 10)) /\
  round1 (Some (Fin (3 # 4))) = Return (rnd64 (8 # 10)).
Proof. split; vm_compute; reflexivity. Qed.

Example round1_negative_zero :
  round1 (Some (rnd64 (- (4 # 100)))) = Return NegZero.
Proof. vm_compute. reflexivity. Qed.

Example round1_none : round1 None = Raise TypeError.
Proof. reflexivity. Qed.

(** Two readings of the largest [double]: the sum overflows and the
    average is inf. *)
Example avg_overflow :
  func_avg [Some (inject_Z (2 ^ 1024 - 2 ^ 971)); Some (inject_Z (2 ^ 1024 - 2 ^ 971))]
  = Some (Inf false).
Proof. vm_compute. reflexivity. Qed.

Example tobs_start_hawaii_2017 :
  tobs_start hawaii "2017-01-01"
  = Return (StatsPage (Some "2017-01-01"%string) (Some "2017-08-23"%string)
              (Some 62%Q) (Some 81%Q) (Fin 74)).
Proof. vm_compute. reflexivity. Qed.

Example tobs_empty_table : tobs [] = Raise IndexError.
Proof. reflexivity. Qed.

(** ** Chronological order on datetimes *)

Module DatetimeFacts.
Import Datetime.

Lemma compare_lt (a b : datetime) : compare a b = Lt <-> lt a b.
Proof.
  unfold compare, lt.
  destruct (Z.compare_spec (year a) (year b));
    destruct (Z.compare_spec (month a) (month b));
    destruct (Z.compare_spec (day a) (day b));
    split; intros; try discriminate; try reflexivity; lia.
Qed.

Lemma compare_gt (a b : datetime) : compare a b = Gt <-> lt b a.
Proof.
  unfold compare, lt.
  destruct (Z.compare_spec (year a) (year b));
    destruct (Z.compare_spec (month a) (month b));
    destruct (Z.compare_spec (day a) (day b));
    split; intros; try discriminate; try reflexivity; lia.
Qed.

Lemma ltb_lt (a b : datetime) : ltb a b = true <-> lt a b.
Proof.
  rewrite <- compare_lt. unfold ltb.
  destruct (compare a b); split; intros; congruence.
Qed.

Lemma gtb_lt (a b : datetime) : gtb a b = true <-> lt b a.
Proof.
  rewrite <- compare_gt. unfold gtb.
  destruct (compare a b); split; intros; congruence.
Qed.

Lemma ltb_nlt (a b : datetime) : ltb a b = false <-> ~ lt a b.
Proof.
  rewrite <- ltb_lt. destruct (ltb a b); split; intros; congruence.
Qed.

Lemma gtb_nlt (a b : datetime) : gtb a b = false <-> ~ lt b a.
Proof.
  rewrite <- gtb_lt. destruct (gtb a b); split; intros; congruence.
Qed.

Lemma leb_nlt (a b : datetime) : leb a b = true <-> ~ lt b a.
Proof.
  unfold leb. rewrite negb_true_iff. apply gtb_nlt.
Qed.

Lemma gtb_ltb (a b : datetime) : gtb a b = ltb b a.
Proof.
  destruct (ltb b a) eqn:E.
  - apply gtb_lt, ltb_lt, E.
  - apply gtb_nlt. apply ltb_nlt, E.
Qed.

(** A date cannot be both after and before another. *)
Lemma gtb_asym (a b : datetime) : gtb a b = true -> gtb b a = false.
Proof.
  rewrite gtb_lt, gtb_nlt. unfold lt. lia.
Qed.

(** What the constructor accepts is a date of the calendar. *)
Lemma new_valid (y m d : Z) (r : datetime) :
  new y m d = Return r -> r = mk_datetime y m d /\ valid r = true.
Proof.
  unfold new. destruct (valid (mk_datetime y m d)) eqn:V; intros E.
  - inversion E. subst. split; [reflexivity | exact V].
  - discriminate.
Qed.

Lemma strptime_str_valid (s : string) (d : datetime) :
  strptime_str s = Return d -> valid d = true.
Proof.
  unfold strptime_str.
  destruct (re_Ymd s) as [[[[y m] d0] [|c rest]]|]; try discriminate.
  intros E. apply new_valid in E. apply E.
Qed.

(** The year before a leap year is not a leap year. *)
Lemma leap_pred (y : Z) : is_leap y = true -> is_leap (y - 1) = false.
Proof.
  unfold is_leap. intros L.
  apply andb_true_iff in L. destruct L as [L4 _].
  apply Z.eqb_eq in L4.
  apply andb_false_iff. left. apply Z.eqb_neq.
  intros C. revert L4 C. Z.div_mod_to_equations. lia.
Qed.

(** The fields of a calendar date fit their columns. *)
Lemma valid_bounds (d : datetime) :
  valid d = true ->
  1 <= year d <= 9999 /\ 1 <= month d <= 12 /\ 1 <= day d <= 31.
Proof.
  unfold valid, days_in_month. intros V.
  repeat (apply andb_true_iff in V; destruct V as [V ?]).
  repeat match goal with H : (_ <=? _) = true |- _ => apply Z.leb_le in H end.
  repeat split; try assumption.
  match goal with H : day d <= _ |- _ => revert H end.
  destruct (month d =? 2); [destruct (is_leap (year d))|]; try lia.
  destruct (_ || _); lia.
Qed.

End DatetimeFacts.

(** ** Dates stored as "YYYY-MM-DD": text order is chronological order *)

Module TextOrder.
Import Datetime.

Lemma digit_char_compare (x y : Z) :
  0 <= x <= 9 -> 0 <= y <= 9 ->
  Ascii.compare (digit_char x) (digit_char y) = (x ?= y).
Proof.
  intros Hx Hy. unfold Ascii.compare, digit_char.
  rewrite !N_ascii_embedding by lia.
  rewrite Z2N.inj_compare by lia.
  apply Z.add_compare_mono_l.
Qed.

(** Comparison goes through equally long prefixes first. *)
Lemma compare_app (a b s t : string) :
  String.length a = String.length b ->
  String.compare (a ++ s) (b ++ t) =
  match String.compare a b with
  | Eq => String.compare s t
  | c => c
  end.
Proof.
  revert b. induction a as [|c a IH]; intros [|c' b] L; try discriminate.
  - reflexivity.
  - simpl in L. injection L as L. simpl.
    destruct (Ascii.compare c c'); auto.
Qed.

Lemma append_empty_r (s : string) : (s ++ "")%string = s.
Proof. induction s as [|c s IH]; simpl; congruence. Qed.

Lemma pad2_compare (m n : Z) :
  0 <= m <= 99 -> 0 <= n <= 99 ->
  String.compare (pad2 m) (pad2 n) = (m ?= n).
Proof.
  intros Hm Hn. unfold pad2. cbn [String.compare].
  rewrite !digit_char_compare
    by (split; first [apply Z.div_pos; lia | apply Z.mod_pos_bound; lia
                     | Z.div_mod_to_equations; lia]).
  destruct (Z.compare_spec (m / 10) (n / 10)) as [E|E|E];
    destruct (Z.compare_spec (m mod 10) (n mod 10)) as [F|F|F];
    symmetry;
    first [ apply Z.compare_eq_iff | apply Z.compare_lt_iff | apply Z.compare_gt_iff ];
    revert E F; Z.div_mod_to_equations; lia.
Qed.

Lemma pad4_split (n : Z) :
  pad4 n = (pad2 (n / 100) ++ pad2 (n mod 100))%string.
Proof.
  unfold pad4, pad2. cbn [String.append].
  replace (n / 100 / 10) with (n / 1000) by (Z.div_mod_to_equations; lia).
  replace (n mod 100 / 10) with (n / 10 mod 10) by (Z.div_mod_to_equations; lia).
  replace ((n mod 100) mod 10) with (n mod 10) by (Z.div_mod_to_equations; lia).
  reflexivity.
Qed.

Lemma pad4_compare (m n : Z) :
  0 <= m <= 9999 -> 0 <= n <= 9999 ->
  String.compare (pad4 m) (pad4 n) = (m ?= n).
Proof.
  intros Hm Hn. rewrite !pad4_split.
  rewrite compare_app by reflexivity.
  rewrite !pad2_compare by (Z.div_mod_to_equations; lia).
  destruct (Z.compare_spec (m / 100) (n / 100)) as [E|E|E];
    destruct (Z.compare_spec (m mod 100) (n mod 100)) as [F|F|F];
    symmetry;
    first [ apply Z.compare_eq_iff | apply Z.compare_lt_iff | apply Z.compare_gt_iff ];
    revert E F; Z.div_mod_to_equations; lia.
Qed.

Theorem isoformat_compare (a b : datetime) :
  valid a = true -> valid b = true ->
  String.compare (isoformat_date a) (isoformat_date b) = compare a b.
Proof.
  intros Va Vb.
  apply DatetimeFacts.valid_bounds in Va. apply DatetimeFacts.valid_bounds in Vb.
  unfold isoformat_date, compare.
  rewrite compare_app by reflexivity.
  rewrite pad4_compare by lia.
  destruct (year a ?= year b); try reflexivity.
  change ("-" ++ ?x)%string with (String "-" x). cbn [String.compare].
  replace (Ascii.compare "-" "-") with Eq by reflexivity.
  rewrite compare_app by reflexivity.
  rewrite pad2_compare by lia.
  destruct (month a ?= month b); try reflexivity.
  cbn [String.append String.compare].
  replace (Ascii.compare "-" "-") with Eq by reflexivity.
  apply pad2_compare; lia.
Qed.

(** Against the bound datetime "YYYY-MM-DD 00:00:00.000000", a stored date
    is greater exactly when it is a later day. *)
Theorem bind_param_lt (a b : datetime) :
  valid a = true -> valid b = true ->
  text_lt (bind_param a) (isoformat_date b) = ltb a b.
Proof.
  intros Va Vb. unfold text_lt, String.ltb, bind_param, ltb.
  rewrite <- (isoformat_compare a b Va Vb).
  rewrite <- (append_empty_r (isoformat_date b)) at 1.
  rewrite compare_app by reflexivity.
  destruct (String.compare (isoformat_date a) (isoformat_date b)); reflexivity.
Qed.

Theorem text_le_chronological (a b : datetime) :
  valid a = true -> valid b = true ->
  text_le (isoformat_date a) (isoformat_date b) = leb a b.
Proof.
  intros Va Vb. unfold text_le, String.leb, leb, gtb.
  rewrite (isoformat_compare a b Va Vb).
  destruct (compare a b); reflexivity.
Qed.

Lemma text_le_trans (a b c : string) :
  text_le a b = true -> text_le b c = true -> text_le a c = true.
Proof.
  unfold text_le, String.leb.
  revert b c. induction a as [|x a IH]; intros [|y b] [|z c];
    simpl; try congruence.
  unfold Ascii.compare.
  destruct (N.compare_spec (N_of_ascii x) (N_of_ascii y)) as [E|E|E];
    destruct (N.compare_spec (N_of_ascii y) (N_of_ascii z)) as [F|F|F];
    destruct (N.compare_spec (N_of_ascii x) (N_of_ascii z)) as [G|G|G];
    try congruence; try lia.
  apply IH.
Qed.

Lemma text_le_total (a b : string) : text_le a b = true \/ text_le b a = true.
Proof. apply String.leb_total. Qed.

Lemma iso_date_inv (s : string) :
  iso_date s = true ->
  exists d, strptime_str s = Return d /\ valid d = true /\ s = isoformat_date d.
Proof.
  unfold iso_date. destruct (strptime_str s) as [d|x] eqn:E; [|discriminate].
  intros H. apply String.eqb_eq in H.
  exists d. repeat split; [|assumption].
  now apply DatetimeFacts.strptime_str_valid in E.
Qed.

Lemma after_later_than (d : datetime) (m : Measurement) :
  valid d = true -> iso_date (date m) = true ->
  after d m = later_than d m.
Proof.
  intros Vd Hm. apply iso_date_inv in Hm as (x & Hx & Vx & E).
  unfold after, later_than. rewrite Hx, E.
  rewrite bind_param_lt by assumption.
  symmetry. apply DatetimeFacts.gtb_ltb.
Qed.

Lemma text_le_chron_le (a b : string) :
  iso_date a = true -> iso_date b = true ->
  text_le a b = true -> chron_le a b.
Proof.
  intros Ha Hb H.
  apply iso_date_inv in Ha as (x & Hx & Vx & Ea).
  apply iso_date_inv in Hb as (y & Hy & Vy & Eb).
  exists x, y. repeat split; try assumption.
  rewrite Ea, Eb in H. now rewrite text_le_chronological in H.
Qed.

End TextOrder.

(** ** Parsing the stored form gives the date back *)

Module RoundTrip.
Import Datetime.

Lemma byte_digit_char (x : Z) : 0 <= x <= 9 -> byte (digit_char x) = 48 + x.
Proof.
  intros Hx. unfold byte, digit_char.
  rewrite N_ascii_embedding by lia. apply Z2N.id. lia.
Qed.

Lemma digit_in_char (lo hi x : Z) (rest : string) :
  0 <= x <= 9 -> lo <= x <= hi ->
  digit_in lo hi (String (digit_char x) rest) = Some (x, rest).
Proof.
  intros Hx Hr. unfold digit_in. rewrite byte_digit_char by assumption.
  replace (48 + x - 48) with x by lia.
  replace ((lo <=? x) && (x <=? hi)) with true
    by (symmetry; apply andb_true_iff; split; apply Z.leb_le; lia).
  reflexivity.
Qed.

(** An ASCII digit is a decimal digit, of its own value. *)
Lemma re_digit_char (x : Z) (rest : string) :
  0 <= x <= 9 -> re_digit (String (digit_char x) rest) = Some (x, rest).
Proof.
  intros Hx. rewrite <- (Z2Nat.id x) by lia.
  assert (Hn : (Z.to_nat x <= 9)%nat) by lia.
  destruct (Z.to_nat x) as [|n]; [reflexivity|].
  do 9 (destruct n as [|n]; [reflexivity|]). lia.
Qed.

Lemma re_Y_pad4 (y : Z) (rest : string) :
  0 <= y <= 9999 -> re_Y (pad4 y ++ rest)%string = Some (y, rest).
Proof.
  intros Hy. unfold re_Y, pad4, pbind, pret. cbn [String.append].
  rewrite !re_digit_char by (Z.div_mod_to_equations; lia).
  do 2 f_equal. Z.div_mod_to_equations. lia.
Qed.

Lemma re_m_pad2 (m : Z) (rest : string) :
  1 <= m <= 12 -> re_m (pad2 m ++ rest)%string = Some (m, rest).
Proof.
  intros Hm. rewrite <- (Z2Nat.id m) by lia.
  assert (Hn : (1 <= Z.to_nat m <= 12)%nat) by lia.
  destruct (Z.to_nat m) as [|n]; [lia|].
  do 12 (destruct n as [|n]; [reflexivity|]). lia.
Qed.

Lemma re_d_pad2 (d : Z) (rest : string) :
  1 <= d <= 31 -> re_d (pad2 d ++ rest)%string = Some (d, rest).
Proof.
  intros Hd. rewrite <- (Z2Nat.id d) by lia.
  assert (Hn : (1 <= Z.to_nat d <= 31)%nat) by lia.
  destruct (Z.to_nat d) as [|n]; [lia|].
  do 31 (destruct n as [|n]; [reflexivity|]). lia.
Qed.

(** [strptime] of the text form of a calendar date is that date. *)
Theorem strptime_isoformat (d : datetime) :
  valid d = true -> strptime_str (isoformat_date d) = Return d.
Proof.
  intros V. pose proof (DatetimeFacts.valid_bounds d V) as (Hy & Hm & Hd).
  unfold strptime_str, re_Ymd, isoformat_date.
  unfold pbind at 1. rewrite re_Y_pad4 by lia.
  unfold pbind at 1. cbn [String.append lit Ascii.eqb Bool.eqb].
  unfold pbind at 1. rewrite re_m_pad2 by lia.
  unfold pbind at 1. cbn [String.append lit Ascii.eqb Bool.eqb].
  unfold pbind at 1.
  rewrite <- (TextOrder.append_empty_r (pad2 (day d))).
  rewrite re_d_pad2 by lia.
  unfold pret, new. destruct d as [y m dd]. simpl in *. now rewrite V.
Qed.

(** Every calendar date has a stored form, and it is zero padded. *)
Theorem iso_date_isoformat (d : datetime) :
  valid d = true -> iso_date (isoformat_date d) = true.
Proof.
  intros V. unfold iso_date. rewrite strptime_isoformat by assumption.
  apply String.eqb_refl.
Qed.

End RoundTrip.

(** ** ORDER BY: the result is a sorted rearrangement of the rows *)

Section OrderBy.
Context {A : Type}.
Variable le : A -> A -> bool.
Hypothesis le_total : forall a b, le a b = true \/ le b a = true.

Lemma insert_perm (x : A) (l : list A) : Permutation (insert le x l) (x :: l).
Proof.
  induction l as [|y l IH]; simpl.
  - apply Permutation_refl.
  - destruct (le x y).
    + apply Permutation_refl.
    + apply perm_trans with (y :: x :: l).
      * now apply perm_skip.
      * apply perm_swap.
Qed.

Lemma order_by_perm (l : list A) : Permutation (order_by le l) l.
Proof.
  induction l as [|x l IH]; simpl.
  - apply perm_nil.
  - apply perm_trans with (x :: order_by le l).
    + apply insert_perm.
    + now apply perm_skip.
Qed.

Lemma insert_hd (a x : A) (l : list A) :
  le a x = true ->
  HdRel (fun u v => le u v = true) a l ->
  HdRel (fun u v => le u v = true) a (insert le x l).
Proof.
  intros Hax Hal. destruct l as [|y l]; simpl.
  - now constructor.
  - destruct (le x y); constructor; [assumption | now inversion Hal].
Qed.

Lemma insert_sorted (x : A) (l : list A) :
  Sorted (fun u v => le u v = true) l ->
  Sorted (fun u v => le u v = true) (insert le x l).
Proof.
  induction l as [|y l IH]; simpl; intros S.
  - repeat constructor.
  - destruct (le x y) eqn:E.
    + constructor; [assumption | now constructor].
    + inversion S as [|? ? S' H]. subst.
      constructor; [now apply IH|].
      apply insert_hd; [|assumption].
      destruct (le_total x y) as [C|C]; [congruence | exact C].
Qed.

Lemma order_by_sorted (l : list A) :
  Sorted (fun u v => le u v = true) (order_by le l).
Proof.
  induction l as [|x l IH]; simpl.
  - constructor.
  - now apply insert_sorted.
Qed.

End OrderBy.

Lemma Sorted_map_in {A B : Type} (R : A -> A -> Prop) (R' : B -> B -> Prop)
      (f : A -> B) (l : list A) :
  (forall a b, In a l -> In b l -> R a b -> R' (f a) (f b)) ->
  Sorted R l -> Sorted R' (map f l).
Proof.
  induction l as [|x l IH]; simpl; intros H S.
  - constructor.
  - inversion S as [|? ? S' Hd]. subst. constructor.
    + apply IH; [|assumption]. intros a b Ha Hb. apply H; now right.
    + destruct l as [|y l]; simpl; constructor.
      inversion Hd. subst. apply H; [now left | right; now left | assumption].
Qed.

(** Two lists of texts that are sorted and have the same elements are the
    same list. *)
Lemma sorted_unique (l1 l2 : list string) :
  Sorted (fun a b => text_le a b = true) l1 ->
  Sorted (fun a b => text_le a b = true) l2 ->
  Permutation l1 l2 -> l1 = l2.
Proof.
  assert (T : Relations_1.Transitive (fun a b => text_le a b = true))
    by (intros a b c; apply TextOrder.text_le_trans).
  intros S1 S2. apply (Sorted_StronglySorted T) in S1.
  apply (Sorted_StronglySorted T) in S2.
  revert l2 S2. induction S1 as [|x l1 S1 IH H1]; intros l2 S2 P.
  - apply Permutation_nil in P. now subst.
  - destruct S2 as [|y l2 S2 H2].
    + apply Permutation_sym, Permutation_nil in P. discriminate.
    + assert (x = y).
      { assert (Hx : In x (y :: l2)) by (apply (Permutation_in _ P); now left).
        assert (Hy : In y (x :: l1))
          by (apply (Permutation_in _ (Permutation_sym P)); now left).
        destruct Hx as [->|Hx]; [reflexivity|].
        destruct Hy as [->|Hy]; [reflexivity|].
        rewrite Forall_forall in H1, H2.
        apply String.leb_antisym; [now apply H1 | now apply H2]. }
      subst y. f_equal. apply IH; [assumption|].
      now apply Permutation_cons_inv in P.
Qed.

Lemma by_date_total (a b : Measurement) : by_date a b = true \/ by_date b a = true.
Proof. unfold by_date, text_le. apply String.leb_total. Qed.

(** ** Aggregates of [temp_stats] *)

Section Aggregates.
Local Open Scope Q_scope.

Lemma q_min_le_l (a b : Q) : q_min a b <= a.
Proof.
  unfold q_min. destruct (Qle_bool a b) eqn:E.
  - apply Qle_refl.
  - apply Qlt_le_weak, Qnot_le_lt. intros C.
    apply Qle_bool_iff in C. congruence.
Qed.

Lemma q_min_le_r (a b : Q) : q_min a b <= b.
Proof.
  unfold q_min. destruct (Qle_bool a b) eqn:E.
  - now apply Qle_bool_iff.
  - apply Qle_refl.
Qed.

Lemma q_max_ge_l (a b : Q) : a <= q_max a b.
Proof.
  unfold q_max. destruct (Qle_bool a b) eqn:E.
  - now apply Qle_bool_iff.
  - apply Qle_refl.
Qed.

Lemma q_max_ge_r (a b : Q) : b <= q_max a b.
Proof.
  unfold q_max. destruct (Qle_bool a b) eqn:E.
  - apply Qle_refl.
  - apply Qlt_le_weak, Qnot_le_lt. intros C.
    apply Qle_bool_iff in C. congruence.
Qed.

Lemma reduce_nonempty {A : Type} (f : A -> A -> A) (l : list A) :
  l <> [] -> exists v, reduce f l = Some v.
Proof.
  destruct l as [|x l]; [congruence|]. intros _. simpl.
  destruct (reduce f l); eauto.
Qed.

(** An aggregate that picks one of its two arguments returns an element of
    the column. *)
Lemma reduce_choice {A : Type} (f : A -> A -> A) (l : list A) (v : A) :
  (forall a b, f a b = a \/ f a b = b) ->
  reduce f l = Some v -> In v l.
Proof.
  intros Hf. revert v. induction l as [|x l IH]; simpl; intros v E.
  - discriminate.
  - destruct (reduce f l) as [y|].
    + inversion E. destruct (Hf x y) as [->| ->]; [now left | right; now apply IH].
    + inversion E. now left.
Qed.

Lemma func_min_lower (l : list Q) (mn : Q) :
  reduce q_min l = Some mn -> forall t, In t l -> mn <= t.
Proof.
  revert mn. induction l as [|x l IH]; simpl; intros mn E t Ht.
  - contradiction.
  - destruct (reduce q_min l) as [y|] eqn:R; inversion E; subst; clear E.
    + destruct Ht as [<-|Ht].
      * apply q_min_le_l.
      * apply Qle_trans with y; [apply q_min_le_r | now apply IH].
    + destruct Ht as [<-|Ht]; [apply Qle_refl|].
      destruct l; [contradiction | simpl in R; destruct (reduce q_min l); discriminate].
Qed.

Lemma func_max_upper (l : list Q) (mx : Q) :
  reduce q_max l = Some mx -> forall t, In t l -> t <= mx.
Proof.
  revert mx. induction l as [|x l IH]; simpl; intros mx E t Ht.
  - contradiction.
  - destruct (reduce q_max l) as [y|] eqn:R; inversion E; subst; clear E.
    + destruct Ht as [<-|Ht].
      * apply q_max_ge_l.
      * apply Qle_trans with y; [now apply IH | apply q_max_ge_r].
    + destruct Ht as [<-|Ht]; [apply Qle_refl|].
      destruct l; [contradiction | simpl in R; destruct (reduce q_max l); discriminate].
Qed.

(** *** The average in binary64 *)

(** Rounding depends on the number only, not on the fraction that
    denotes it. *)
Lemma rnd64_Qeq (q q' : Q) : q == q' -> rnd64 q = rnd64 q'.
Proof.
  intros E. unfold rnd64. now rewrite (Qred_complete q q' E).
Qed.

Lemma rnd64_not_nan (q : Q) : rnd64 q <> NaN.
Proof.
  unfold rnd64, zero.
  destruct (Qred q ?= 0); try discriminate;
    destruct (_ =? 0); try discriminate;
    destruct (Qle_bool _ _); discriminate.
Qed.

(** What [sumStep] has accumulated after the rows of a column: the sum of
    its non-NULL values, taken in their order, and their number. *)
Lemma fold_sumStep (col : list (option Q)) (sum : double) (n : Z) :
  fold_left sumStep col (mk_SumCtx sum n) =
  mk_SumCtx (fold_left (fun sum t => fadd sum (Fin t)) (non_null col) sum)
            (n + Z.of_nat (List.length (non_null col))).
Proof.
  revert sum n. induction col as [|[x|] col IH]; intros sum n.
  - simpl. f_equal. lia.
  - cbn [fold_left sumStep rSum cnt non_null List.length].
    rewrite IH. f_equal. lia.
  - cbn [fold_left sumStep non_null]. apply IH.
Qed.

(** [func.avg] is NULL on a column without values and the binary64 mean
    of the values otherwise. *)
Lemma func_avg_mean (col : list (option Q)) :
  func_avg col =
  match non_null col with
  | [] => None
  | _ :: _ => Some (mean64 (non_null col))
  end.
Proof.
  unfold func_avg, avgFinalize, mean64. rewrite fold_sumStep.
  cbn [rSum cnt]. destruct (non_null col) as [|x l]; [reflexivity|].
  replace (0 <? 0 + Z.of_nat (List.length (x :: l)))%Z with true
    by (symmetry; apply Z.ltb_lt; cbn [List.length]; lia).
  reflexivity.
Qed.

Lemma func_avg_some (col : list (option Q)) :
  non_null col <> [] -> func_avg col = Some (mean64 (non_null col)).
Proof.
  intros H. rewrite func_avg_mean.
  destruct (non_null col); [congruence | reflexivity].
Qed.

(** One reading that is a binary64 number is its own mean. *)
Lemma mean64_single (t : Q) : binary64 t -> mean64 [t] = Fin (Qred t).
Proof.
  unfold binary64, mean64. intros B.
  cbn [fold_left List.length fadd value].
  replace (of_int (Z.of_nat 1)) with (Fin 1) by (vm_compute; reflexivity).
  rewrite (rnd64_Qeq (0 + t) t) by ring. rewrite B.
  unfold fdiv. cbn [value sign].
  replace (Qeq_bool 1 0) with false by reflexivity.
  destruct (Qeq_bool (Qred t) 0) eqn:Z.
  - apply Qeq_bool_iff in Z.
    assert (E : Qred t = 0).
    { apply (Qred_complete t 0). now rewrite <- (Qred_correct t). }
    rewrite E. reflexivity.
  - rewrite (rnd64_Qeq (Qred t / 1) t).
    + exact B.
    + rewrite Qred_correct. field.
Qed.

End Aggregates.

(** With no reading in the range the three aggregates are NULL. *)
Lemma temp_stats_no_reading (db : table) (start_date end_date : pystr) :
  non_null (map Sql.tobs
              (filter (fun m => between start_date end_date (date m)) db)) = [] ->
  temp_stats db start_date end_date = [(None, None, None)].
Proof.
  intros E. unfold temp_stats. rewrite func_avg_mean.
  unfold func_min, func_max. now rewrite E.
Qed.

(** ** What the [try] blocks of the date routes return and raise *)

Section DateRoutes.
Import Datetime.

Lemma bind_return {A B : Type} (c : outcome A) (k : A -> outcome B) (b : B) :
  bind c k = Return b -> exists a, c = Return a /\ k a = Return b.
Proof.
  destruct c as [a|x]; simpl; intros E; [eauto | discriminate].
Qed.

Lemma quiet_bind {A B : Type} (c : outcome A) (k : A -> outcome B) :
  quiet c -> (forall a, c = Return a -> quiet (k a)) -> quiet (bind c k).
Proof.
  unfold quiet. destruct c as [a|x]; simpl; intros Hc Hk.
  - now apply Hk.
  - intros E. apply Hc. inversion E. reflexivity.
Qed.

Lemma quiet_strptime (v : pystr) : quiet (strptime v).
Proof.
  unfold quiet, strptime, strptime_str, new.
  destruct v as [s|]; [|discriminate].
  destruct (re_Ymd s) as [[[[y m] d] [|c rest]]|]; try discriminate.
  destruct (valid _); discriminate.
Qed.

Lemma quiet_dt_gt (a b : pystr) : quiet (dt_gt a b).
Proof.
  unfold dt_gt. apply quiet_bind; [apply quiet_strptime | intros x _].
  apply quiet_bind; [apply quiet_strptime | intros y _]. discriminate.
Qed.

Lemma quiet_dt_lt (a b : pystr) : quiet (dt_lt a b).
Proof.
  unfold dt_lt. apply quiet_bind; [apply quiet_strptime | intros x _].
  apply quiet_bind; [apply quiet_strptime | intros y _]. discriminate.
Qed.

Lemma quiet_py_and (a b : outcome bool) : quiet a -> quiet b -> quiet (py_and a b).
Proof.
  intros Ha Hb. unfold py_and. apply quiet_bind; [exact Ha | intros x _].
  destruct x; [exact Hb | discriminate].
Qed.

Lemma dt_gt_return (a b : pystr) (r : bool) :
  dt_gt a b = Return r ->
  exists x y, strptime a = Return x /\ strptime b = Return y /\ r = gtb x y.
Proof.
  unfold dt_gt. intros E.
  apply bind_return in E as (x & Hx & E).
  apply bind_return in E as (y & Hy & E).
  inversion E. eauto.
Qed.

Variable db : table.

(** The query and the page never raise what the handlers catch: the only
    failure left is [round(None, 1)]. *)
Lemma stats_page_eq (a b : pystr) :
  stats_page db a b =
  let col := map Sql.tobs (filter (fun m => between a b (date m)) db) in
  match func_avg col with
  | Some av => Return (StatsPage a b (func_min col) (func_max col) (fround1 av))
  | None => Raise TypeError
  end.
Proof.
  unfold stats_page, temp_stats. simpl.
  destruct (func_avg _); reflexivity.
Qed.

Lemma stats_page_uncaught (a b : pystr) (h1 h2 : outcome body) :
  try_except (stats_page db a b) [(ValueError, h1); (DataDateError, h2)] =
  stats_page db a b.
Proof.
  rewrite stats_page_eq. simpl.
  destruct (func_avg _); reflexivity.
Qed.

Lemma stats_page_return (a b : pystr) (p : body) :
  stats_page db a b = Return p ->
  exists mn mx av, p = StatsPage a b mn mx av.
Proof.
  rewrite stats_page_eq. simpl.
  destruct (func_avg _); intros E; inversion E. eauto.
Qed.

Lemma quiet_stats_page (a b : pystr) : quiet (stats_page db a b).
Proof.
  unfold quiet. rewrite stats_page_eq. cbv zeta.
  destruct (func_avg _); discriminate.
Qed.

(** What the query and the page are made of: the readings of the range.
    Without a reading the aggregates are NULL and [round] raises; with
    readings the minimum and the maximum are readings that bound the
    others, the average is their binary64 mean, and the page shows the
    three, the mean rounded to one decimal. *)
Lemma stats_page_readings (lo hi : string) :
  let in_range := fun m => text_le lo (date m) && text_le (date m) hi in
  let readings := non_null (map Sql.tobs (filter in_range db)) in
  (readings = [] ->
     temp_stats db (Some lo) (Some hi) = [(None, None, None)] /\
     stats_page db (Some lo) (Some hi) = Raise TypeError) /\
  (readings <> [] ->
     exists mn mx,
       temp_stats db (Some lo) (Some hi)
         = [(Some mn, Some (mean64 readings), Some mx)] /\
       In mn readings /\ In mx readings /\
       (forall t, In t readings -> mn <= t /\ t <= mx)%Q /\
       stats_page db (Some lo) (Some hi) =
         Return (StatsPage (Some lo) (Some hi) (Some mn) (Some mx)
                   (fround1 (mean64 readings)))).
Proof.
  intros in_range readings.
  assert (T : temp_stats db (Some lo) (Some hi) =
              [(reduce q_min readings,
                match readings with [] => None | _ :: _ => Some (mean64 readings) end,
                reduce q_max readings)]).
  { unfold temp_stats. rewrite func_avg_mean. reflexivity. }
  split.
  - intros E. split.
    + rewrite T, E. reflexivity.
    + unfold stats_page. rewrite T, E. reflexivity.
  - intros Hne.
    destruct (reduce_nonempty q_min readings Hne) as [mn Hmn].
    destruct (reduce_nonempty q_max readings Hne) as [mx Hmx].
    assert (A : match readings with [] => None | _ :: _ => Some (mean64 readings) end
                = Some (mean64 readings)).
    { destruct readings; [congruence | reflexivity]. }
    exists mn, mx. split; [|split; [|split; [|split]]].
    + rewrite T, Hmn, Hmx, A. reflexivity.
    + apply (reduce_choice q_min); [|assumption].
      intros a b. unfold q_min. destruct (Qle_bool a b); auto.
    + apply (reduce_choice q_max); [|assumption].
      intros a b. unfold q_max. destruct (Qle_bool a b); auto.
    + intros t Ht. split;
        [now apply (func_min_lower _ _ Hmn) | now apply (func_max_upper _ _ Hmx)].
    + unfold stats_page. rewrite T, Hmn, Hmx, A. reflexivity.
Qed.

(** The guard of the two-date route, on dates already put in order. *)
Lemma guard_never_holds (d_earliest d_latest lo hi : pystr) (s e : datetime) :
  (forall f l, strptime d_earliest = Return f ->
               strptime d_latest = Return l ->
               leb f l = true) ->
  strptime lo = Return s ->
  strptime hi = Return e ->
  leb s e = true ->
  py_and (dt_gt lo d_latest) (dt_lt hi d_earliest) <> Return true.
Proof.
  intros Hspan Hs He Hle.
  unfold py_and, dt_gt, dt_lt. rewrite Hs, He. cbn [bind].
  destruct (strptime d_latest) as [l|] eqn:Hl; cbn [bind]; [|discriminate].
  destruct (gtb s l) eqn:Hgt; [|discriminate].
  destruct (strptime d_earliest) as [f|] eqn:Hf; cbn [bind]; [|discriminate].
  destruct (ltb e f) eqn:Hlt; [|discriminate].
  exfalso.
  specialize (Hspan f l eq_refl eq_refl).
  apply DatetimeFacts.gtb_lt in Hgt. apply DatetimeFacts.ltb_lt in Hlt.
  apply DatetimeFacts.leb_nlt in Hle. apply DatetimeFacts.leb_nlt in Hspan.
  unfold lt in *. lia.
Qed.

(** The swap leaves the two parameters in chronological order. *)
Lemma swap_orders (start end_ : string) (s e : datetime) :
  strptime_str start = Return s ->
  strptime_str end_ = Return e ->
  exists lo hi s' e',
    (if gtb s e then (Some end_, Some start)
     else (Some start, Some end_)) = (Some lo, Some hi) /\
    strptime_str lo = Return s' /\
    strptime_str hi = Return e' /\
    leb s' e' = true.
Proof.
  intros Hs He. destruct (gtb s e) eqn:Hgt.
  - exists end_, start, e, s. repeat split; try assumption.
    unfold leb. now rewrite (DatetimeFacts.gtb_asym _ _ Hgt).
  - exists start, end_, s, e. repeat split; try assumption.
    unfold leb. now rewrite Hgt.
Qed.

Lemma tobs_start_end_try_quiet (start end_ : string) :
  span_ordered db ->
  quiet (tobs_start_end_try db (min_text (map date db)) (max_text (map date db))
                            start end_).
Proof.
  intros Hspan. unfold tobs_start_end_try.
  apply quiet_bind; [apply quiet_dt_gt | intros swap Hswap].
  apply dt_gt_return in Hswap as (s & e & Hs & He & ->).
  destruct (swap_orders start end_ s e Hs He)
    as (lo & hi & s' & e' & Eq & Hlo & Hhi & Hle).
  rewrite Eq.
  apply quiet_bind;
    [apply quiet_py_and; [apply quiet_dt_gt | apply quiet_dt_lt] | intros outside Hout].
  destruct outside.
  - exfalso. revert Hout.
    apply (guard_never_holds _ _ (Some lo) (Some hi) s' e'); assumption.
  - apply quiet_bind; [apply quiet_dt_lt | intros early _].
    apply quiet_bind; [apply quiet_dt_gt | intros late _].
    apply quiet_stats_page.
Qed.

Lemma tobs_start_end_try_page (d_e d_l : pystr) (start end_ : string) (p : body) :
  tobs_start_end_try db d_e d_l start end_ = Return p ->
  exists a b mn mx av, p = StatsPage a b mn mx av.
Proof.
  unfold tobs_start_end_try. intros E.
  apply bind_return in E as (swap & _ & E).
  destruct (if swap then _ else _) as [lo hi].
  apply bind_return in E as (outside & _ & E).
  destruct outside; [discriminate|].
  apply bind_return in E as (early & _ & E).
  apply bind_return in E as (late & _ & E).
  apply stats_page_return in E as (mn & mx & av & ->). eauto 6.
Qed.

End DateRoutes.

(** On zero-padded dates the range of BETWEEN, a range of texts, is the
    chronological one. *)
Lemma in_range_chronological (lo hi : string) (m : Measurement) :
  iso_date lo = true -> iso_date hi = true -> iso_date (date m) = true ->
  text_le lo (date m) && text_le (date m) hi = within lo hi m.
Proof.
  intros Hs He Hm. unfold within.
  apply TextOrder.iso_date_inv in Hs as (a & Pa & Va & Ea).
  apply TextOrder.iso_date_inv in He as (b & Pb & Vb & Eb).
  apply TextOrder.iso_date_inv in Hm as (x & Px & Vx & Ex).
  rewrite Pa, Pb, Px. rewrite Ea at 1. rewrite Eb at 1. rewrite Ex.
  now rewrite !TextOrder.text_le_chronological.
Qed.

(** The single-date route on a start date that parses. *)
Lemma tobs_start_parsed
      (db : table) (start latest : string) (s l : Datetime.datetime) :
  max_text (map date db) = Some latest ->
  Datetime.strptime_str start = Return s ->
  Datetime.strptime_str latest = Return l ->
  tobs_start db start =
    if Datetime.gtb s l then Return (LaterThanDataPage (Some latest))
    else stats_page db (Some start) (Some latest).
Proof.
  intros Hmax Hs Hl.
  unfold tobs_start, tobs_start_try, dt_gt. rewrite Hmax.
  unfold Datetime.strptime. rewrite Hs, Hl. cbn [bind].
  destruct (Datetime.gtb s l).
  - reflexivity.
  - apply stats_page_uncaught.
Qed.

(** The two-date route on two dates that parse: the swap, the guard, the
    two clamps and the page. *)
Lemma tobs_start_end_parsed
      (db : table) (start end_ earliest latest : string)
      (s e de dl : Datetime.datetime) :
  min_text (map date db) = Some earliest ->
  max_text (map date db) = Some latest ->
  Datetime.strptime_str earliest = Return de ->
  Datetime.strptime_str latest = Return dl ->
  Datetime.strptime_str start = Return s ->
  Datetime.strptime_str end_ = Return e ->
  let swap := Datetime.gtb s e in
  let first := if swap then end_ else start in
  let last := if swap then start else end_ in
  let f := if swap then e else s in
  let t := if swap then s else e in
  tobs_start_end db start end_ =
    if Datetime.gtb f dl && Datetime.ltb t de
    then Return (OutsideRangePage (Some earliest) (Some latest))
    else stats_page db (Some (if Datetime.ltb f de then earliest else first))
                       (Some (if Datetime.gtb t dl then latest else last)).
Proof.
  intros Hmin Hmax Hde Hdl Hs He. cbv zeta.
  unfold tobs_start_end, tobs_start_end_try. rewrite Hmin, Hmax.
  unfold py_and, dt_gt, dt_lt, Datetime.strptime.
  rewrite Hs, He. cbn [bind].
  destruct (Datetime.gtb s e); rewrite ?Hs, ?He, Hde, Hdl; cbn [bind].
  - destruct (Datetime.gtb e dl); cbn [bind andb].
    + destruct (Datetime.ltb s de); cbn [bind]; [reflexivity|].
      destruct (Datetime.ltb e de), (Datetime.gtb s dl); apply stats_page_uncaught.
    + destruct (Datetime.ltb e de), (Datetime.gtb s dl); apply stats_page_uncaught.
  - destruct (Datetime.gtb s dl); cbn [bind andb].
    + destruct (Datetime.ltb e de); cbn [bind]; [reflexivity|].
      destruct (Datetime.ltb s de), (Datetime.gtb e dl); apply stats_page_uncaught.
    + destruct (Datetime.ltb s de), (Datetime.gtb e dl); apply stats_page_uncaught.
Qed.

(** ** The two-date route *)

(** C1. The request /api/v1.0/2020-01-01/2021-01-01 on a dataset that spans
    2010-01-01 to 2017-08-23: the guard does not fire, the end date is
    clamped, the query runs over the empty range from 2020-01-01 to
    2017-08-23 and [round(None, 1)] raises TypeError; the out-of-range
    message is not produced. *)
Theorem range_after_latest_not_reported :
  tobs_start_end_try hawaii (Some "2010-01-01"%string) (Some "2017-08-23"%string)
                     "2020-01-01" "2021-01-01" <> Raise DataDateError /\
  temp_stats hawaii (Some "2020-01-01"%string) (Some "2017-08-23"%string) =
    [(None, None, None)] /\
  tobs_start_end hawaii "2020-01-01" "2021-01-01" = Raise TypeError.
Proof.
  repeat split; try reflexivity. vm_compute. discriminate.
Qed.

(** C2. Requests that make a date handler raise an exception that it does
    not catch: a day of the span without measurements on the two-date
    route, a start date written without zero padding on the single-date
    route, and a start date whose only readings are NULL. *)
Theorem date_routes_uncaught_type_error :
  tobs_start_end hawaii "2012-01-01" "2012-01-01" = Raise TypeError /\
  tobs_start hawaii "2017-8-23" = Raise TypeError /\
  tobs_start [row "USC00519397" "2017-08-23" (Some 0%Q) None] "2017-08-23"
    = Raise TypeError.
Proof.
  repeat split; reflexivity.
Qed.

(** C3. On the single-date route, a well-formed start date that is
    chronologically after the latest measurement date is answered with the
    message that names the latest date.  For any other well-formed start
    date the statistics of the measurements dated from start to the latest
    date (both included, in the text order of BETWEEN) are computed: with no
    reading there the three aggregates are NULL and the handler raises
    TypeError; otherwise the page shows the smallest and the largest
    reading and the binary64 mean of the readings rounded to one decimal.
    For zero-padded dates the range is the chronological one. *)
Theorem tobs_start_latest_check
        (db : table) (start latest : string) (s l : Datetime.datetime) :
  max_text (map date db) = Some latest ->
  Datetime.strptime_str start = Return s ->
  Datetime.strptime_str latest = Return l ->
  let in_range := fun m => text_le start (date m) && text_le (date m) latest in
  let readings := non_null (map Sql.tobs (filter in_range db)) in
  (Datetime.gtb s l = true ->
     tobs_start db start = Return (LaterThanDataPage (Some latest))) /\
  (Datetime.gtb s l = false ->
     (readings = [] ->
        temp_stats db (Some start) (Some latest) = [(None, None, None)] /\
        tobs_start db start = Raise TypeError) /\
     (readings <> [] ->
        exists mn mx,
          temp_stats db (Some start) (Some latest)
            = [(Some mn, Some (mean64 readings), Some mx)] /\
          In mn readings /\ In mx readings /\
          (forall t, In t readings -> mn <= t /\ t <= mx)%Q /\
          tobs_start db start =
            Return (StatsPage (Some start) (Some latest) (Some mn) (Some mx)
                      (fround1 (mean64 readings))))) /\
  (iso_date start = true -> iso_date latest = true ->
   forall m, iso_date (date m) = true -> in_range m = within start latest m).
Proof.
  intros Hmax Hs Hl in_range readings.
  pose proof (tobs_start_parsed db start latest s l Hmax Hs Hl) as E.
  destruct (stats_page_readings db start latest) as [None_ Some_].
  split; [|split].
  - intros G. now rewrite G in E.
  - intros G. rewrite G in E. split.
    + intros R. destruct (None_ R) as [T P]. split; [exact T | now rewrite E].
    + intros R. destruct (Some_ R) as (mn & mx & T & Imn & Imx & B & P).
      exists mn, mx. repeat split; try assumption; try (now apply B).
      rewrite E. exact P.
  - intros Is Il m Im. now apply in_range_chronological.
Qed.

Lemma tobs_start_latest_check_witness :
  tobs_start hawaii "2018-01-01" = Return (LaterThanDataPage (Some "2017-08-23"%string)) /\
  tobs_start hawaii "2017-01-01" =
    Return (StatsPage (Some "2017-01-01"%string) (Some "2017-08-23"%string)
              (Some 62%Q) (Some 81%Q) (Fin 74)) /\
  tobs_start hawaii "2017-8-23" = Raise TypeError.
Proof.
  split; [|split].
  - apply (tobs_start_latest_check hawaii "2018-01-01" "2017-08-23"
             (Datetime.mk_datetime 2018 1 1) (Datetime.mk_datetime 2017 8 23));
      reflexivity.
  - destruct (tobs_start_latest_check hawaii "2017-01-01" "2017-08-23"
                (Datetime.mk_datetime 2017 1 1) (Datetime.mk_datetime 2017 8 23))
      as (_ & H & _); [reflexivity | reflexivity | reflexivity |].
    destruct (H eq_refl) as [_ R].
    destruct R as (mn & mx & T & _ & _ & _ & P); [discriminate|].
    vm_compute in T. injection T as <- <-. rewrite P. vm_compute. reflexivity.
  - destruct (tobs_start_latest_check hawaii "2017-8-23" "2017-08-23"
                (Datetime.mk_datetime 2017 8 23) (Datetime.mk_datetime 2017 8 23))
      as (_ & H & _); [reflexivity | reflexivity | reflexivity |].
    destruct (H eq_refl) as [R _]. now apply R.
Defined.

(** C4. On the two-date route, for two well-formed dates: once the two are
    in order (they are exchanged when start is after end), a start date
    before the earliest measurement date is replaced by the earliest date
    and an end date after the latest measurement date by the latest date,
    and the statistics of the measurements dated in the clamped range (both
    ends included, in the text order of BETWEEN) are computed: with no
    reading there the aggregates are NULL and the handler raises TypeError;
    otherwise the page shows the clamped dates, the smallest and the largest
    reading and the binary64 mean of the readings rounded to one decimal.
    The only other answer is the out-of-range message, when the guard
    holds, and it never holds when the earliest date is not after the
    latest.  For zero-padded dates the range is the chronological one. *)
Theorem tobs_start_end_clamps
        (db : table) (start end_ earliest latest : string)
        (s e de dl : Datetime.datetime) :
  min_text (map date db) = Some earliest ->
  max_text (map date db) = Some latest ->
  Datetime.strptime_str earliest = Return de ->
  Datetime.strptime_str latest = Return dl ->
  Datetime.strptime_str start = Return s ->
  Datetime.strptime_str end_ = Return e ->
  let swap := Datetime.gtb s e in
  let first := if swap then end_ else start in
  let last := if swap then start else end_ in
  let f := if swap then e else s in
  let t := if swap then s else e in
  let outside := Datetime.gtb f dl && Datetime.ltb t de in
  let lo := if Datetime.ltb f de then earliest else first in
  let hi := if Datetime.gtb t dl then latest else last in
  let in_range := fun m => text_le lo (date m) && text_le (date m) hi in
  let readings := non_null (map Sql.tobs (filter in_range db)) in
  (Datetime.leb de dl = true -> outside = false) /\
  (outside = true ->
     tobs_start_end db start end_
       = Return (OutsideRangePage (Some earliest) (Some latest))) /\
  (outside = false ->
     (readings = [] ->
        temp_stats db (Some lo) (Some hi) = [(None, None, None)] /\
        tobs_start_end db start end_ = Raise TypeError) /\
     (readings <> [] ->
        exists mn mx,
          temp_stats db (Some lo) (Some hi)
            = [(Some mn, Some (mean64 readings), Some mx)] /\
          In mn readings /\ In mx readings /\
          (forall r, In r readings -> mn <= r /\ r <= mx)%Q /\
          tobs_start_end db start end_ =
            Return (StatsPage (Some lo) (Some hi) (Some mn) (Some mx)
                      (fround1 (mean64 readings))))) /\
  (iso_date lo = true -> iso_date hi = true ->
   forall m, iso_date (date m) = true -> in_range m = within lo hi m).
Proof.
  intros Hmin Hmax Hde Hdl Hs He swap first last f t outside lo hi in_range readings.
  pose proof (tobs_start_end_parsed db start end_ earliest latest s e de dl
                Hmin Hmax Hde Hdl Hs He) as E.
  cbv zeta in E. fold swap in E. fold first last f t in E.
  fold outside lo hi in E.
  destruct (stats_page_readings db lo hi) as [None_ Some_].
  split; [|split; [|split]].
  - intros Hspan. unfold outside.
    destruct (Datetime.gtb f dl) eqn:Hgt; [|reflexivity].
    destruct (Datetime.ltb t de) eqn:Hlt; [|reflexivity].
    exfalso.
    assert (Hft : Datetime.gtb f t = false).
    { unfold f, t, swap. destruct (Datetime.gtb s e) eqn:G; [|exact G].
      now apply DatetimeFacts.gtb_asym. }
    apply DatetimeFacts.gtb_lt in Hgt. apply DatetimeFacts.ltb_lt in Hlt.
    apply DatetimeFacts.gtb_nlt in Hft. apply DatetimeFacts.leb_nlt in Hspan.
    unfold Datetime.lt in *. lia.
  - intros G. now rewrite G in E.
  - intros G. rewrite G in E. split.
    + intros R. destruct (None_ R) as [T P]. split; [exact T | now rewrite E].
    + intros R. destruct (Some_ R) as (mn & mx & T & Imn & Imx & B & P).
      exists mn, mx. repeat split; try assumption; try (now apply B).
      rewrite E. exact P.
  - intros Is Il m Im. now apply in_range_chronological.
Qed.

Lemma tobs_start_end_clamps_witness :
  tobs_start_end hawaii "2017-01-01" "2017-12-31" =
    Return (StatsPage (Some "2017-01-01"%string) (Some "2017-08-23"%string)
              (Some 62%Q) (Some 81%Q) (Fin 74)) /\
  tobs_start_end hawaii "2009-06-30" "2010-01-01" =
    Return (StatsPage (Some "2010-01-01"%string) (Some "2010-01-01"%string)
              (Some 65%Q) (Some 70%Q) (Fin (135 # 2))).
Proof.
  split.
  - destruct (tobs_start_end_clamps hawaii "2017-01-01" "2017-12-31"
                "2010-01-01" "2017-08-23"
                (Datetime.mk_datetime 2017 1 1) (Datetime.mk_datetime 2017 12 31)
                (Datetime.mk_datetime 2010 1 1) (Datetime.mk_datetime 2017 8 23))
      as (_ & _ & H & _); [reflexivity .. |].
    destruct (H eq_refl) as [_ R].
    destruct R as (mn & mx & T & _ & _ & _ & P); [discriminate|].
    vm_compute in T. injection T as <- <-. rewrite P. vm_compute. reflexivity.
  - destruct (tobs_start_end_clamps hawaii "2009-06-30" "2010-01-01"
                "2010-01-01" "2017-08-23"
                (Datetime.mk_datetime 2009 6 30) (Datetime.mk_datetime 2010 1 1)
                (Datetime.mk_datetime 2010 1 1) (Datetime.mk_datetime 2017 8 23))
      as (_ & _ & H & _); [reflexivity .. |].
    destruct (H eq_refl) as [_ R].
    destruct R as (mn & mx & T & _ & _ & _ & P); [discriminate|].
    vm_compute in T. injection T as <- <-. rewrite P. vm_compute. reflexivity.
Defined.

(** C5. On the two-date route, when both dates are well formed and start is
    chronologically after end, the request is answered exactly as the
    request with the two dates exchanged. *)
Theorem tobs_start_end_swap
        (db : table) (start end_ : string) (s e : Datetime.datetime) :
  Datetime.strptime_str start = Return s ->
  Datetime.strptime_str end_ = Return e ->
  Datetime.gtb s e = true ->
  tobs_start_end db start end_ = tobs_start_end db end_ start.
Proof.
  intros Hs He Hgt.
  unfold tobs_start_end, tobs_start_end_try.
  assert (Hswap : dt_gt (Some start) (Some end_) = Return true).
  { unfold dt_gt, Datetime.strptime. rewrite Hs, He. cbn [bind]. now rewrite Hgt. }
  assert (Hkeep : dt_gt (Some end_) (Some start) = Return false).
  { unfold dt_gt, Datetime.strptime. rewrite Hs, He. cbn [bind].
    now rewrite (DatetimeFacts.gtb_asym _ _ Hgt). }
  rewrite Hswap, Hkeep. reflexivity.
Qed.

Lemma tobs_start_end_swap_witness :
  tobs_start_end hawaii "2017-12-31" "2017-01-01" =
  tobs_start_end hawaii "2017-01-01" "2017-12-31".
Proof.
  apply (tobs_start_end_swap hawaii "2017-12-31" "2017-01-01"
           (Datetime.mk_datetime 2017 12 31) (Datetime.mk_datetime 2017 1 1));
    reflexivity.
Defined.

(** Two spellings of one day are not exchanged: the swap is for dates that
    differ chronologically. *)
Example same_day_two_spellings :
  tobs_start_end hawaii "2017-1-01" "2017-01-01" = Raise TypeError /\
  tobs_start_end hawaii "2017-01-01" "2017-1-01" =
    stats_page hawaii (Some "2017-01-01"%string) (Some "2017-1-01"%string).
Proof. split; reflexivity. Qed.

(** ** Precipitation of the last year *)

(** C6. For a table whose dates are stored as zero-padded text and whose
    latest date has a same-day date one year before, the precipitation
    handler returns one (date, prcp) pair for each measurement taken
    chronologically after that earlier date and no other, in ascending
    date order; a measurement with a NULL prcp is returned with None. *)
Theorem precip_last_year
        (db : table) (d_latest d_1yr : Datetime.datetime) :
  (forall m, In m db -> iso_date (date m) = true) ->
  Datetime.strptime (max_text (map date db)) = Return d_latest ->
  one_year_before d_latest = Return d_1yr ->
  exists rows,
    precip db = Return rows /\
    Permutation rows
      (map (fun m => (date m, prcp m)) (filter (later_than d_1yr) db)) /\
    Sorted (fun a b => chron_le (fst a) (fst b)) rows /\
    (forall m, In m db -> later_than d_1yr m = true -> prcp m = None ->
               In (date m, None) rows).
Proof.
  intros Hiso Hl H1.
  unfold precip. rewrite Hl. cbn [bind]. rewrite H1. cbn [bind].
  assert (V1 : Datetime.valid d_1yr = true).
  { unfold one_year_before in H1. now apply DatetimeFacts.new_valid in H1. }
  assert (F : filter (after d_1yr) db = filter (later_than d_1yr) db).
  { apply filter_ext_in. intros m Hm. apply TextOrder.after_later_than; auto. }
  rewrite F.
  set (sel := filter (later_than d_1yr) db).
  assert (P : Permutation (order_by by_date sel) sel) by apply order_by_perm.
  assert (PM : Permutation
                 (map (fun m => (date m, prcp m)) (order_by by_date sel))
                 (map (fun m => (date m, prcp m)) sel))
    by now apply Permutation_map.
  eexists. split; [reflexivity|]. split; [exact PM|]. split.
  - apply Sorted_map_in with (R := fun a b => by_date a b = true).
    + intros a b Ha Hb Hab. simpl.
      assert (Hin : forall m, In m (order_by by_date sel) -> iso_date (date m) = true).
      { intros m Hm. apply Hiso.
        apply (Permutation_in _ P) in Hm. unfold sel in Hm.
        now apply filter_In in Hm. }
      apply TextOrder.text_le_chron_le; auto.
    + apply order_by_sorted. exact by_date_total.
  - intros m Hm Hlater Hnull.
    apply (Permutation_in _ (Permutation_sym PM)).
    rewrite <- Hnull.
    apply (in_map (fun m => (date m, prcp m))).
    unfold sel. apply filter_In. now split.
Qed.

Lemma precip_last_year_witness :
  exists rows,
    precip hawaii = Return rows /\
    Permutation rows
      (map (fun m => (date m, prcp m))
           (filter (later_than (Datetime.mk_datetime 2016 8 23)) hawaii)) /\
    Sorted (fun a b => chron_le (fst a) (fst b)) rows /\
    (forall m, In m hawaii ->
               later_than (Datetime.mk_datetime 2016 8 23) m = true ->
               prcp m = None -> In (date m, None) rows).
Proof.
  apply (precip_last_year hawaii (Datetime.mk_datetime 2017 8 23)
           (Datetime.mk_datetime 2016 8 23)).
  - intros m Hm. simpl in Hm.
    repeat (destruct Hm as [<-|Hm]; [reflexivity|]). contradiction.
  - reflexivity.
  - reflexivity.
Defined.

(** ** Temperature statistics *)

(** [temp_stats] on three readings of 0.1 and on six readings of 60.2,
    all of them binary64 numbers: the average of the first is above the
    maximum (0.10000000000000002 against 0.1), the average of the second is
    below the minimum (60.199999999999996 against 60.2). *)
Lemma temp_stats_avg_outside_min_max :
  binary64 tenth /\ binary64 sixty_point_two /\
  (exists mn av mx,
     temp_stats tenths (Some "2017-01-01"%string) (Some "2017-01-03"%string)
       = [(Some mn, Some (Fin av), Some mx)] /\
     ~ (mn <= av /\ av <= mx)%Q) /\
  (exists mn av mx,
     temp_stats six_readings (Some "2017-01-01"%string) (Some "2017-01-01"%string)
       = [(Some mn, Some (Fin av), Some mx)] /\
     ~ (mn <= av /\ av <= mx)%Q).
Proof.
  split; [vm_compute; reflexivity|]. split; [vm_compute; reflexivity|]. split.
  - exists tenth, (7205759403792795 # 72057594037927936)%Q, tenth.
    split; [vm_compute; reflexivity|].
    intros [_ H]. vm_compute in H. now apply H.
  - exists sixty_point_two, (8472396798990745 # 140737488355328)%Q, sixty_point_two.
    split; [vm_compute; reflexivity|].
    intros [H _]. vm_compute in H. now apply H.
Qed.

(** C7. [temp_stats(start, end)] aggregates the non-NULL temperatures of
    exactly the measurements whose date is between start and end, both
    included (in the table's text order, which for zero-padded dates is the
    chronological one).  When there is at least one such reading, the
    minimum and the maximum are readings of the range that bound all the
    others, so min <= max; the average is the binary64 mean of the
    readings; with exactly one reading min and max are that reading, and
    so is the average when the reading is a binary64 number. *)
Theorem temp_stats_over_range (db : table) (start end_ : string) :
  let in_range := fun m => text_le start (date m) && text_le (date m) end_ in
  let readings := non_null (map Sql.tobs (filter in_range db)) in
  readings <> [] ->
  exists (mn : Q) (av : double) (mx : Q),
    temp_stats db (Some start) (Some end_) = [(Some mn, Some av, Some mx)] /\
    In mn readings /\ In mx readings /\
    (forall t, In t readings -> mn <= t /\ t <= mx)%Q /\
    (mn <= mx)%Q /\
    av = mean64 readings /\
    (forall t, readings = [t] ->
       mn = t /\ mx = t /\
       (binary64 t -> exists a, av = Fin a /\ (a == t)%Q /\ (mn <= a /\ a <= mx)%Q)) /\
    (iso_date start = true -> iso_date end_ = true ->
     forall m, iso_date (date m) = true -> in_range m = within start end_ m).
Proof.
  intros in_range readings Hne.
  destruct (stats_page_readings db start end_) as [_ Some_].
  destruct (Some_ Hne) as (mn & mx & T & Imn & Imx & B & _).
  fold in_range in T, Imn, Imx, B. fold readings in T, Imn, Imx, B.
  exists mn, (mean64 readings), mx.
  split; [exact T|]. split; [exact Imn|]. split; [exact Imx|].
  split; [exact B|]. split; [now apply B|]. split; [reflexivity|]. split.
  - intros t E. rewrite E in Imn, Imx.
    destruct Imn as [Imn|[]]. destruct Imx as [Imx|[]]. subst mn mx.
    split; [reflexivity|]. split; [reflexivity|].
    intros Bt. exists (Qred t). rewrite E. split; [now apply mean64_single|].
    split; [apply Qred_correct|].
    rewrite Qred_correct. split; apply Qle_refl.
  - intros Is Ie m Im. now apply in_range_chronological.
Qed.

Lemma temp_stats_over_range_witness :
  exists (mn : Q) (av : double) (mx : Q),
    temp_stats hawaii (Some "2017-01-01"%string) (Some "2017-08-23"%string)
      = [(Some mn, Some av, Some mx)] /\
    (mn <= mx)%Q /\ av = Fin 74.
Proof.
  destruct (temp_stats_over_range hawaii "2017-01-01" "2017-08-23")
    as (mn & av & mx & H & _ & _ & _ & B & A & _).
  - simpl. discriminate.
  - exists mn, av, mx. split; [exact H|]. split; [exact B|].
    rewrite A. vm_compute. reflexivity.
Defined.

(** ** The most active station *)

Section Busiest.

Lemma count_rows_perm (s : string) (db db' : table) :
  Permutation db db' -> count_rows s db = count_rows s db'.
Proof.
  intros P. unfold count_rows. apply Permutation_length.
  induction P; simpl.
  - constructor.
  - destruct (String.eqb (station x) s); [now constructor | assumption].
  - destruct (String.eqb (station x) s), (String.eqb (station y) s);
      try apply Permutation_refl. apply perm_swap.
  - now apply perm_trans with (filter (fun m => String.eqb (station m) s) l').
Qed.

Lemma count_rows_absent (s : string) (db : table) :
  ~ In s (map station db) -> count_rows s db = 0%nat.
Proof.
  unfold count_rows. induction db as [|m db IH]; simpl; intros H.
  - reflexivity.
  - destruct (String.eqb_spec (station m) s) as [E|E].
    + elim H. now left.
    + apply IH. intros C. apply H. now right.
Qed.

Lemma group_keys_in (db : table) (s : string) :
  In s (group_keys db) <-> In s (map station db).
Proof.
  unfold group_keys. rewrite <- in_rev. split; intros H.
  - apply (nodup_In string_dec).
    revert H. apply Permutation_in, order_by_perm.
  - apply (nodup_In string_dec) in H.
    revert H. apply Permutation_in, Permutation_sym, order_by_perm.
Qed.

(** The groups do not depend on the order in which the rows are stored. *)
Lemma group_keys_perm (db db' : table) :
  Permutation db db' -> group_keys db = group_keys db'.
Proof.
  intros P. unfold group_keys. f_equal.
  apply sorted_unique; try (apply order_by_sorted; exact TextOrder.text_le_total).
  apply perm_trans with (nodup string_dec (map station db));
    [apply order_by_perm|].
  apply perm_trans with (nodup string_dec (map station db'));
    [|apply Permutation_sym, order_by_perm].
  apply NoDup_Permutation; try apply NoDup_nodup.
  intros s. rewrite !nodup_In. split; apply Permutation_in.
  - now apply Permutation_map.
  - now apply Permutation_map, Permutation_sym.
Qed.

Lemma group_by_station_perm (db db' : table) :
  Permutation db db' -> group_by_station db = group_by_station db'.
Proof.
  intros P. unfold group_by_station.
  rewrite (group_keys_perm db db' P).
  apply map_ext. intros s. f_equal. now apply count_rows_perm.
Qed.

Lemma group_by_station_in (db : table) (s : string) (n : nat) :
  In (s, n) (group_by_station db) <->
  In s (map station db) /\ n = count_rows s db.
Proof.
  unfold group_by_station. rewrite in_map_iff. split.
  - intros (k & E & Hk). inversion E. subst.
    split; [now apply group_keys_in | reflexivity].
  - intros [Hs ->]. exists s. split; [reflexivity | now apply group_keys_in].
Qed.

Lemma by_count_desc_total (a b : string * nat) :
  by_count_desc a b = true \/ by_count_desc b a = true.
Proof.
  unfold by_count_desc.
  destruct (Nat.leb_spec (snd b) (snd a)); [now left | right].
  apply Nat.leb_le. lia.
Qed.

Lemma n_station_in (db : table) (p : string * nat) :
  In p (n_station db) <-> In p (group_by_station db).
Proof.
  unfold n_station. split.
  - apply Permutation_in, order_by_perm.
  - apply Permutation_in, Permutation_sym, order_by_perm.
Qed.

(** The first row of the ordered counts has the highest count. *)
Lemma n_station_head (db : table) (s : string) (n : nat) (rest : list (string * nat)) :
  n_station db = (s, n) :: rest ->
  forall p, In p (n_station db) -> (snd p <= n)%nat.
Proof.
  intros E p Hp.
  assert (S : Sorted (fun a b => by_count_desc a b = true) (n_station db))
    by (apply order_by_sorted; exact by_count_desc_total).
  apply Sorted_StronglySorted in S.
  - rewrite E in S, Hp. destruct Hp as [<-|Hp]; [simpl; lia|].
    inversion S as [|? ? _ F]. subst. rewrite Forall_forall in F.
    specialize (F p Hp). unfold by_count_desc in F. simpl in F.
    now apply Nat.leb_le in F.
  - intros a b c. unfold by_count_desc. rewrite !Nat.leb_le. lia.
Qed.

End Busiest.

(** C8. On a non-empty table the busiest-station query returns a station
    of the table whose number of rows is the highest: no station has more
    rows, and when no other station has as many, every other station has
    strictly fewer.  The answer is a function of the dataset alone: the same
    rows stored in any other order give the same station, ties included. *)
Theorem busiest_has_highest_count (db : table) :
  db <> [] ->
  exists s,
    busiest db = Return s /\
    In s (map station db) /\
    (forall s', count_rows s' db <= count_rows s db)%nat /\
    ((forall s', s' <> s -> count_rows s' db <> count_rows s db) ->
     forall s', s' <> s -> (count_rows s' db < count_rows s db)%nat) /\
    (forall db', Permutation db db' -> busiest db' = Return s).
Proof.
  intros Hne.
  destruct (n_station db) as [|[s n] rest] eqn:E.
  - exfalso. destruct db as [|m db]; [congruence|].
    assert (H : In (station m, count_rows (station m) (m :: db)) (n_station (m :: db))).
    { apply n_station_in, group_by_station_in. split; [now left | reflexivity]. }
    rewrite E in H. contradiction.
  - assert (Hs : In (s, n) (group_by_station db)).
    { apply n_station_in. rewrite E. now left. }
    apply group_by_station_in in Hs as [Hs ->].
    assert (Hmax : forall s', (count_rows s' db <= count_rows s db)%nat).
    { intros s'. destruct (in_dec string_dec s' (map station db)) as [I|I].
      - apply (n_station_head db s _ rest E (s', count_rows s' db)).
        apply n_station_in, group_by_station_in. now split.
      - rewrite (count_rows_absent s' db I). lia. }
    exists s. split; [|split; [|split; [|split]]].
    + unfold busiest. rewrite E. reflexivity.
    + exact Hs.
    + exact Hmax.
    + intros U s' D. specialize (U s' D). specialize (Hmax s'). lia.
    + intros db' P. unfold busiest, n_station.
      rewrite <- (group_by_station_perm db db' P).
      fold (n_station db). rewrite E. reflexivity.
Qed.

Lemma busiest_has_highest_count_witness :
  exists s,
    busiest hawaii = Return s /\
    (forall s', count_rows s' hawaii <= count_rows s hawaii)%nat /\
    busiest (rev hawaii) = Return s.
Proof.
  destruct (busiest_has_highest_count hawaii) as (s & B & _ & M & _ & D).
  - discriminate.
  - exists s. split; [exact B|]. split; [exact M|].
    apply D. apply Permutation_rev.
Defined.

(** ** The unreachable branch and the leap day *)

(** C9. Whenever the dataset's earliest date is not after its latest one,
    the two-date route never raises [DataDateError] and never answers with
    the out-of-range message, whatever the two path parameters are. *)
Theorem out_of_range_branch_unreachable (db : table) (start end_ : string) :
  span_ordered db ->
  tobs_start_end_try db (min_text (map date db)) (max_text (map date db))
                     start end_ <> Raise DataDateError /\
  forall a b : pystr, tobs_start_end db start end_ <> Return (OutsideRangePage a b).
Proof.
  intros Hspan.
  pose proof (tobs_start_end_try_quiet db start end_ Hspan) as Hq.
  split; [exact Hq|].
  intros a b. unfold tobs_start_end.
  destruct (tobs_start_end_try _ _ _ _ _) as [p|x] eqn:E.
  - apply tobs_start_end_try_page in E as (a' & b' & mn & mx & av & ->).
    simpl. discriminate.
  - destruct x; simpl; try discriminate. now elim Hq.
Qed.

Lemma out_of_range_branch_unreachable_witness :
  span_ordered hawaii /\
  tobs_start_end hawaii "2020-01-01" "2021-01-01" <>
    Return (OutsideRangePage (Some "2010-01-01"%string) (Some "2017-08-23"%string)).
Proof.
  assert (H : span_ordered hawaii).
  { intros e l He Hl. vm_compute in He, Hl.
    inversion He. inversion Hl. reflexivity. }
  split; [exact H|].
  apply (out_of_range_branch_unreachable hawaii "2020-01-01" "2021-01-01" H).
Defined.

(** C10. When the latest date read by the precipitation handler (or, for
    the tobs handler, the latest date of the busiest station) is a February
    29, the date one year before does not exist: the constructor raises
    ValueError and the handler, which has no [except], raises it too. *)
Theorem leap_day_latest_raises
        (db : table) (station_id : string) (y y' : Z) :
  (Datetime.strptime (max_text (map date db)) = Return (Datetime.mk_datetime y 2 29) ->
   precip db = Raise ValueError) /\
  (busiest db = Return station_id ->
   Datetime.strptime (max_text (map date (filter (of_station station_id) db)))
     = Return (Datetime.mk_datetime y' 2 29) ->
   tobs db = Raise ValueError).
Proof.
  assert (Hnew : forall v z, Datetime.strptime v = Return (Datetime.mk_datetime z 2 29) ->
                 one_year_before (Datetime.mk_datetime z 2 29) = Raise ValueError).
  { intros v z Hv. destruct v as [s|]; [|discriminate].
    apply DatetimeFacts.strptime_str_valid in Hv.
    unfold Datetime.valid in Hv. cbn [Datetime.year Datetime.month Datetime.day] in Hv.
    unfold Datetime.days_in_month in Hv. cbn [Z.eqb Pos.eqb] in Hv.
    destruct (Datetime.is_leap z) eqn:L.
    - unfold one_year_before, Datetime.new, Datetime.valid.
      cbn [Datetime.year Datetime.month Datetime.day].
      unfold Datetime.days_in_month. cbn [Z.eqb Pos.eqb].
      rewrite (DatetimeFacts.leap_pred z L).
      replace (29 <=? 28) with false by reflexivity.
      now rewrite andb_false_r.
    - replace (29 <=? 28) with false in Hv by reflexivity.
      rewrite andb_false_r in Hv. discriminate. }
  split.
  - intros H. unfold precip. rewrite H. cbn [bind].
    now rewrite (Hnew _ _ H).
  - intros Hb H. unfold tobs. rewrite Hb. cbn [bind]. rewrite H. cbn [bind].
    now rewrite (Hnew _ _ H).
Qed.

Lemma leap_day_latest_raises_witness :
  precip leap_table = Raise ValueError /\ tobs leap_table = Raise ValueError.
Proof.
  split.
  - apply (leap_day_latest_raises leap_table "USC00519281" 2016 2016).
    reflexivity.
  - apply (leap_day_latest_raises leap_table "USC00519281" 2016 2016);
      reflexivity.
Defined.

(** * More of app.py: answers, failures and sessions *)

(** ** More on the date routes: malformed input and the possible answers *)

Section Answers.
Import Datetime.

(** The parser raises nothing but ValueError. *)
Lemma strptime_str_raises (s : string) (e : exn) :
  strptime_str s = Raise e -> e = ValueError.
Proof.
  unfold strptime_str, new.
  destruct (re_Ymd s) as [[[[y m] d] [|c rest]]|]; try congruence.
  destruct (valid _); congruence.
Qed.

Lemma strptime_raises (v : pystr) (e : exn) :
  strptime v = Raise e -> e = ValueError \/ (e = TypeError /\ v = None).
Proof.
  destruct v as [s|]; simpl.
  - intros H. left. now apply strptime_str_raises in H.
  - intros H. inversion H. now right.
Qed.

(** The aggregates are NULL together. *)
Lemma func_avg_none (col : list (option Q)) :
  func_avg col = None <-> non_null col = [].
Proof.
  rewrite func_avg_mean. destruct (non_null col); split; congruence.
Qed.

Lemma func_min_none (col : list (option Q)) :
  func_min col = None <-> non_null col = [].
Proof.
  unfold func_min. destruct (non_null col) as [|x l]; simpl.
  - split; congruence.
  - destruct (reduce q_min l); split; congruence.
Qed.

Lemma func_max_none (col : list (option Q)) :
  func_max col = None <-> non_null col = [].
Proof.
  unfold func_max. destruct (non_null col) as [|x l]; simpl.
  - split; congruence.
  - destruct (reduce q_max l); split; congruence.
Qed.

(** What the last lines of a date handler can do. *)
Lemma stats_page_cases (db : table) (a b : pystr) :
  stats_page db a b = Raise TypeError \/
  exists mn mx av, stats_page db a b = Return (StatsPage a b (Some mn) (Some mx) av).
Proof.
  rewrite stats_page_eq. cbv zeta.
  set (col := map Sql.tobs (filter (fun m => between a b (date m)) db)).
  destruct (func_avg col) as [q|] eqn:A; [right | now left].
  assert (N : non_null col <> []).
  { intros C. apply func_avg_none in C. congruence. }
  destruct (func_min col) as [mn|] eqn:Mn;
    [|apply func_min_none in Mn; contradiction].
  destruct (func_max col) as [mx|] eqn:Mx;
    [|apply func_max_none in Mx; contradiction].
  eauto.
Qed.

End Answers.

(** X1. A start date that [strptime] rejects is answered with the
    format message on the single-date route, whatever the table holds (an
    empty table included). *)
Theorem tobs_start_malformed (db : table) (start : string) (e : exn) :
  Datetime.strptime_str start = Raise e ->
  tobs_start db start = Return InvalidFormatPage.
Proof.
  intros H. pose proof (strptime_str_raises _ _ H) as ->.
  unfold tobs_start, tobs_start_try, dt_gt, Datetime.strptime.
  rewrite H. reflexivity.
Qed.

Lemma tobs_start_malformed_witness :
  tobs_start hawaii "2017/08/23" = Return InvalidFormatPage /\
  tobs_start [] "23-08-2017" = Return InvalidFormatPage.
Proof.
  split.
  - apply (tobs_start_malformed hawaii "2017/08/23" ValueError). reflexivity.
  - apply (tobs_start_malformed [] "23-08-2017" ValueError). reflexivity.
Defined.

(** X2. On the two-date route, if either date is rejected by [strptime]
    the answer is the format message, whatever the table holds. *)
Theorem tobs_start_end_malformed (db : table) (start end_ : string) :
  (exists e, Datetime.strptime_str start = Raise e) \/
  (exists e, Datetime.strptime_str end_ = Raise e) ->
  tobs_start_end db start end_ = Return InvalidFormatPage.
Proof.
  intros H. unfold tobs_start_end, tobs_start_end_try, dt_gt at 1.
  unfold Datetime.strptime at 1 2.
  destruct (Datetime.strptime_str start) as [s|x] eqn:Hs.
  - destruct H as [[e H]|[e H]]; [discriminate|].
    pose proof (strptime_str_raises _ _ H) as ->.
    rewrite H. reflexivity.
  - pose proof (strptime_str_raises _ _ Hs) as ->. reflexivity.
Qed.

Lemma tobs_start_end_malformed_witness :
  tobs_start_end hawaii "2017-13-01" "2017-08-23" = Return InvalidFormatPage /\
  tobs_start_end hawaii "2017-01-01" "tomorrow" = Return InvalidFormatPage.
Proof.
  split.
  - apply (tobs_start_end_malformed hawaii "2017-13-01" "2017-08-23").
    left. exists ValueError. reflexivity.
  - apply (tobs_start_end_malformed hawaii "2017-01-01" "tomorrow").
    right. exists ValueError. reflexivity.
Defined.

(** X3. The single-date route has four possible results and no other: the
    format message, the message naming the latest date, a statistics page
    from the start date to the latest date with a minimum and a maximum, or
    an uncaught TypeError.  It raises nothing else and never answers with
    the out-of-range message. *)
Theorem tobs_start_results (db : table) (start : string) :
  let d_latest := max_text (map date db) in
  tobs_start db start = Return InvalidFormatPage \/
  tobs_start db start = Return (LaterThanDataPage d_latest) \/
  (exists mn mx av,
     tobs_start db start =
     Return (StatsPage (Some start) d_latest (Some mn) (Some mx) av)) \/
  tobs_start db start = Raise TypeError.
Proof.
  intros d_latest. unfold tobs_start, tobs_start_try, dt_gt. fold d_latest.
  destruct (Datetime.strptime (Some start)) as [s|x] eqn:Hs; cbn [bind].
  - destruct (Datetime.strptime d_latest) as [l|x] eqn:Hl; cbn [bind].
    + destruct (Datetime.gtb s l); [right; left; reflexivity|].
      rewrite stats_page_uncaught.
      destruct (stats_page_cases db (Some start) d_latest) as [E|E]; auto.
    + apply strptime_raises in Hl as [->|[-> _]]; [left | right; right; right];
        reflexivity.
  - apply strptime_raises in Hs as [->|[_ C]]; [left; reflexivity | discriminate].
Qed.

(** X4. The two-date route has four possible results and no other: the
    format message, the out-of-range message, a statistics page with a
    minimum and a maximum, or an uncaught TypeError. *)
Theorem tobs_start_end_results (db : table) (start end_ : string) :
  tobs_start_end db start end_ = Return InvalidFormatPage \/
  tobs_start_end db start end_ =
    Return (OutsideRangePage (min_text (map date db)) (max_text (map date db))) \/
  (exists a b mn mx av,
     tobs_start_end db start end_ = Return (StatsPage a b (Some mn) (Some mx) av)) \/
  tobs_start_end db start end_ = Raise TypeError.
Proof.
  unfold tobs_start_end.
  set (d_e := min_text (map date db)). set (d_l := max_text (map date db)).
  assert (H : forall (c : outcome bool) (k : bool -> outcome body),
             (forall x, c = Raise x -> x = ValueError \/ x = TypeError) ->
             (forall r,
                k r = Raise ValueError \/ k r = Raise DataDateError \/
                k r = Raise TypeError \/
                exists a b mn mx av, k r = Return (StatsPage a b (Some mn) (Some mx) av)) ->
             bind c k = Raise ValueError \/ bind c k = Raise DataDateError \/
             bind c k = Raise TypeError \/
             exists a b mn mx av, bind c k = Return (StatsPage a b (Some mn) (Some mx) av)).
  { intros c k Hc Hk. destruct c as [r|x]; cbn [bind]; [apply Hk|].
    destruct (Hc x eq_refl) as [->| ->]; auto. }
  assert (G : forall a b x, dt_gt a b = Raise x -> x = ValueError \/ x = TypeError).
  { intros a b x. unfold dt_gt.
    destruct (Datetime.strptime a) as [u|y] eqn:Ha; cbn [bind].
    - destruct (Datetime.strptime b) as [v|y] eqn:Hb; cbn [bind]; [discriminate|].
      intros E. inversion E. subst. apply strptime_raises in Hb. tauto.
    - intros E. inversion E. subst. apply strptime_raises in Ha. tauto. }
  assert (L : forall a b x, dt_lt a b = Raise x -> x = ValueError \/ x = TypeError).
  { intros a b x. unfold dt_lt.
    destruct (Datetime.strptime a) as [u|y] eqn:Ha; cbn [bind].
    - destruct (Datetime.strptime b) as [v|y] eqn:Hb; cbn [bind]; [discriminate|].
      intros E. inversion E. subst. apply strptime_raises in Hb. tauto.
    - intros E. inversion E. subst. apply strptime_raises in Ha. tauto. }
  assert (B : tobs_start_end_try db d_e d_l start end_ = Raise ValueError \/
              tobs_start_end_try db d_e d_l start end_ = Raise DataDateError \/
              tobs_start_end_try db d_e d_l start end_ = Raise TypeError \/
              exists a b mn mx av,
                tobs_start_end_try db d_e d_l start end_ =
                Return (StatsPage a b (Some mn) (Some mx) av)).
  { unfold tobs_start_end_try.
    apply H; [apply G | intros swap].
    destruct (if swap then _ else _) as [lo hi].
    apply H.
    - intros x. unfold py_and.
      destruct (dt_gt lo d_l) as [[|]|y] eqn:E1; cbn [bind].
      + apply L.
      + discriminate.
      + intros E. inversion E. subst. now apply G in E1.
    - intros outside. destruct outside; [auto|].
      apply H; [apply L | intros early].
      apply H; [apply G | intros late].
      destruct (stats_page_cases db (if early then d_e else lo)
                                 (if late then d_l else hi)) as [E|E].
      + auto.
      + destruct E as (mn & mx & av & E). do 3 right. eauto 6. }
  destruct B as [E|[E|[E|(a & b & mn & mx & av & E)]]]; rewrite E; simpl; eauto 10.
Qed.

(** ** The span of the data *)

Section Span.
Import Datetime.

Lemma text_le_refl (a : string) : text_le a a = true.
Proof. destruct (TextOrder.text_le_total a a); assumption. Qed.

Lemma min_text_spec (col : list string) (m : string) :
  min_text col = Some m ->
  In m col /\ forall x, In x col -> text_le m x = true.
Proof.
  unfold min_text. revert m. induction col as [|a col IH]; simpl; intros m E.
  - discriminate.
  - destruct (reduce text_min col) as [y|] eqn:R.
    + inversion E. subst. destruct (IH y eq_refl) as [Hy Hle].
      unfold text_min. destruct (text_le a y) eqn:C.
      * split; [now left|]. intros x [<-|Hx]; [apply text_le_refl|].
        apply TextOrder.text_le_trans with y; auto.
      * split; [now right|]. intros x [<-|Hx]; [|auto].
        destruct (TextOrder.text_le_total a y); congruence.
    + inversion E. subst. split; [now left|].
      intros x [<-|Hx]; [apply text_le_refl|].
      destruct col; [contradiction | simpl in R; destruct (reduce text_min col); discriminate].
Qed.

Lemma max_text_spec (col : list string) (m : string) :
  max_text col = Some m ->
  In m col /\ forall x, In x col -> text_le x m = true.
Proof.
  unfold max_text. revert m. induction col as [|a col IH]; simpl; intros m E.
  - discriminate.
  - destruct (reduce text_max col) as [y|] eqn:R.
    + inversion E. subst. destruct (IH y eq_refl) as [Hy Hle].
      unfold text_max. destruct (text_le a y) eqn:C.
      * split; [now right|]. intros x [<-|Hx]; auto.
      * split; [now left|]. intros x [<-|Hx]; [apply text_le_refl|].
        apply TextOrder.text_le_trans with y; auto.
        destruct (TextOrder.text_le_total a y); congruence.
    + inversion E. subst. split; [now left|].
      intros x [<-|Hx]; [apply text_le_refl|].
      destruct col; [contradiction | simpl in R; destruct (reduce text_max col); discriminate].
Qed.

Lemma reduce_none {A : Type} (f : A -> A -> A) (l : list A) :
  reduce f l = None <-> l = [].
Proof.
  destruct l as [|x l]; simpl; [tauto|].
  destruct (reduce f l); split; congruence.
Qed.

(** On zero-padded dates, text order and chronological order agree. *)
Lemma iso_text_le (a b : string) (x y : datetime) :
  iso_date a = true -> iso_date b = true ->
  strptime_str a = Return x -> strptime_str b = Return y ->
  text_le a b = leb x y.
Proof.
  intros Ia Ib Ha Hb.
  apply TextOrder.iso_date_inv in Ia as (x' & Hx & Vx & Ea).
  apply TextOrder.iso_date_inv in Ib as (y' & Hy & Vy & Eb).
  assert (x' = x) by congruence. assert (y' = y) by congruence. subst x' y'.
  rewrite Ea, Eb. now apply TextOrder.text_le_chronological.
Qed.

Lemma iso_date_parses (a : string) :
  iso_date a = true -> exists x, strptime_str a = Return x.
Proof.
  intros H. apply TextOrder.iso_date_inv in H as (x & Hx & _). eauto.
Qed.

End Span.

(** The span of a table of zero-padded dates. *)
Lemma iso_span (db : table) :
  iso_table db -> db <> [] ->
  exists earliest latest de dl,
    min_text (map date db) = Some earliest /\
    max_text (map date db) = Some latest /\
    In earliest (map date db) /\ In latest (map date db) /\
    Datetime.strptime_str earliest = Return de /\
    Datetime.strptime_str latest = Return dl /\
    (forall m, In m db ->
       exists x, Datetime.strptime_str (date m) = Return x /\
                 Datetime.leb de x = true /\ Datetime.leb x dl = true) /\
    Datetime.leb de dl = true.
Proof.
  intros Hiso Hne.
  destruct (min_text (map date db)) as [earliest|] eqn:Hmin.
  2:{ apply reduce_none in Hmin. destruct db; [congruence | discriminate]. }
  destruct (max_text (map date db)) as [latest|] eqn:Hmax.
  2:{ apply reduce_none in Hmax. destruct db; [congruence | discriminate]. }
  destruct (min_text_spec _ _ Hmin) as [Ie Le].
  destruct (max_text_spec _ _ Hmax) as [Il Ll].
  assert (Hcol : forall s, In s (map date db) -> iso_date s = true).
  { intros s Hs. apply in_map_iff in Hs as (m & <- & Hm). now apply Hiso. }
  destruct (iso_date_parses earliest (Hcol _ Ie)) as [de Hde].
  destruct (iso_date_parses latest (Hcol _ Il)) as [dl Hdl].
  assert (Hall : forall m, In m db ->
            exists x, Datetime.strptime_str (date m) = Return x /\
                      Datetime.leb de x = true /\ Datetime.leb x dl = true).
  { intros m Hm.
    destruct (iso_date_parses (date m) (Hiso m Hm)) as [x Hx].
    exists x. split; [assumption|].
    assert (Hd : In (date m) (map date db)) by now apply in_map.
    rewrite <- (iso_text_le earliest (date m) de x), <- (iso_text_le (date m) latest x dl);
      auto. }
  exists earliest, latest, de, dl.
  repeat split; try assumption.
  rewrite <- (iso_text_le earliest latest de dl); auto.
Qed.


(** X5. On a non-empty table of zero-padded dates, the earliest and latest
    dates that the handlers read with func.min and func.max are dates of
    measurements, they parse, every measurement was taken chronologically
    between them, and so the earliest is never after the latest. *)
Theorem date_span_is_chronological (db : table) :
  iso_table db -> db <> [] ->
  exists earliest latest de dl,
    min_text (map date db) = Some earliest /\
    max_text (map date db) = Some latest /\
    In earliest (map date db) /\ In latest (map date db) /\
    Datetime.strptime_str earliest = Return de /\
    Datetime.strptime_str latest = Return dl /\
    (forall m, In m db ->
       exists x, Datetime.strptime_str (date m) = Return x /\
                 Datetime.leb de x = true /\ Datetime.leb x dl = true) /\
    span_ordered db.
Proof.
  intros Hiso Hne.
  destruct (iso_span db Hiso Hne)
    as (earliest & latest & de & dl & Hmin & Hmax & Ie & Il & Pe & Pl & Hall & Hord).
  exists earliest, latest, de, dl. repeat split; try assumption.
  intros e l He Hl. rewrite Hmin in He. rewrite Hmax in Hl. simpl in He, Hl.
  assert (e = de) by congruence. assert (l = dl) by congruence. subst e l.
  exact Hord.
Qed.

Lemma date_span_is_chronological_witness :
  exists earliest latest,
    min_text (map date hawaii) = Some earliest /\
    max_text (map date hawaii) = Some latest /\
    span_ordered hawaii.
Proof.
  destruct (date_span_is_chronological hawaii)
    as (e & l & de & dl & H1 & H2 & _ & _ & _ & _ & _ & H3).
  - intros m Hm. simpl in Hm.
    repeat (destruct Hm as [<-|Hm]; [reflexivity|]). contradiction.
  - discriminate.
  - exists e, l. repeat split; assumption.
Defined.

(** ** The two-date route, evaluated *)

Section TwoDates.
Import Datetime.

Lemma in_non_null {A : Type} (col : list (option A)) (v : A) :
  In v (non_null col) <-> In (Some v) col.
Proof.
  induction col as [|[x|] col IH]; simpl.
  - tauto.
  - rewrite IH. split; intros [H|H]; auto; left; congruence.
  - rewrite IH. split; [auto | intros [H|H]; [discriminate | assumption]].
Qed.

(** The readings of a range are the temperatures of its measurements. *)
Lemma in_readings (db : table) (P : Measurement -> bool) (t : Q) :
  In t (non_null (map Sql.tobs (filter P db))) <->
  exists m, In m db /\ P m = true /\ Sql.tobs m = Some t.
Proof.
  rewrite in_non_null, in_map_iff. split.
  - intros (m & E & Hm). apply filter_In in Hm. exists m. tauto.
  - intros (m & Hm & HP & E). exists m. split; [assumption|].
    apply filter_In. tauto.
Qed.

Lemma stats_page_no_reading (db : table) (a b : pystr) :
  (forall m, In m db -> between a b (date m) = true -> Sql.tobs m = None) ->
  stats_page db a b = Raise TypeError.
Proof.
  intros H. rewrite stats_page_eq. cbv zeta.
  set (col := map Sql.tobs (filter (fun m => between a b (date m)) db)).
  assert (E : non_null col = []).
  { destruct (non_null col) as [|t l] eqn:N; [reflexivity|].
    assert (I : In t (non_null col)) by (rewrite N; now left).
    apply in_readings in I as (m & Hm & HP & Ht).
    rewrite (H m Hm HP) in Ht. discriminate. }
  apply func_avg_none in E. now rewrite E.
Qed.

Lemma stats_page_reading (db : table) (a b : pystr) (m : Measurement) (t : Q) :
  In m db -> between a b (date m) = true -> Sql.tobs m = Some t ->
  exists mn mx av,
    stats_page db a b = Return (StatsPage a b (Some mn) (Some mx) av) /\
    (mn <= t)%Q /\ (t <= mx)%Q.
Proof.
  intros Hm HP Ht. rewrite stats_page_eq. cbv zeta.
  set (col := map Sql.tobs (filter (fun m => between a b (date m)) db)).
  assert (I : In t (non_null col)).
  { apply in_readings. exists m. auto. }
  assert (N : non_null col <> []) by (intros C; rewrite C in I; contradiction).
  destruct (reduce_nonempty q_min _ N) as [mn Hmn].
  destruct (reduce_nonempty q_max _ N) as [mx Hmx].
  destruct (func_avg col) as [q|] eqn:A;
    [|apply func_avg_none in A; contradiction].
  unfold func_min, func_max. rewrite Hmn, Hmx.
  exists mn, mx. eexists. split; [reflexivity|]. split.
  - now apply (func_min_lower _ _ Hmn).
  - now apply (func_max_upper _ _ Hmx).
Qed.

Variable db : table.
Variables earliest latest : string.
Variables de dl : datetime.
Hypothesis Hmin : min_text (map date db) = Some earliest.
Hypothesis Hmax : max_text (map date db) = Some latest.
Hypothesis Hde : strptime_str earliest = Return de.
Hypothesis Hdl : strptime_str latest = Return dl.
Hypothesis Hspan : leb de dl = true.

(** Dates in order: no swap, no exception, both bounds clamped. *)
Lemma tobs_start_end_ordered (start end_ : string) (s e : datetime) :
  strptime_str start = Return s ->
  strptime_str end_ = Return e ->
  gtb s e = false ->
  tobs_start_end db start end_ =
    stats_page db
      (Some (if ltb s de then earliest else start))
      (Some (if gtb e dl then latest else end_)).
Proof.
  intros Hs He Hle.
  unfold tobs_start_end, tobs_start_end_try. rewrite Hmin, Hmax.
  unfold py_and, dt_gt, dt_lt, strptime.
  rewrite Hs, He. cbn [bind]. rewrite Hle.
  rewrite Hs, He, Hde, Hdl. cbn [bind].
  assert (G : (if gtb s dl then Return (ltb e de) else Return false)
              = Return false).
  { destruct (gtb s dl) eqn:Hgt; [|reflexivity].
    destruct (ltb e de) eqn:Hlt; [|reflexivity].
    exfalso.
    apply DatetimeFacts.gtb_lt in Hgt. apply DatetimeFacts.ltb_lt in Hlt.
    apply DatetimeFacts.gtb_nlt in Hle. apply DatetimeFacts.leb_nlt in Hspan.
    unfold lt in *. lia. }
  destruct (gtb s dl) eqn:Hgt.
  - destruct (ltb e de) eqn:Hlt; [discriminate G|].
    cbn [bind].
    destruct (ltb s de), (gtb e dl); apply stats_page_uncaught.
  - cbn [bind].
    destruct (ltb s de), (gtb e dl); apply stats_page_uncaught.
Qed.

Lemma tobs_start_end_exchange (start end_ : string) (s e : datetime) :
  strptime_str start = Return s ->
  strptime_str end_ = Return e ->
  gtb s e = true ->
  tobs_start_end db start end_ = tobs_start_end db end_ start.
Proof.
  intros Hs He Hgt.
  unfold tobs_start_end, tobs_start_end_try.
  assert (Hswap : dt_gt (Some start) (Some end_) = Return true).
  { unfold dt_gt, strptime. rewrite Hs, He. cbn [bind]. now rewrite Hgt. }
  assert (Hkeep : dt_gt (Some end_) (Some start) = Return false).
  { unfold dt_gt, strptime. rewrite Hs, He. cbn [bind].
    now rewrite (DatetimeFacts.gtb_asym _ _ Hgt). }
  rewrite Hswap, Hkeep. reflexivity.
Qed.

(** Any two well-formed dates: the earlier one is the start. *)
Lemma tobs_start_end_eval (start end_ : string) (s e : datetime) :
  strptime_str start = Return s ->
  strptime_str end_ = Return e ->
  tobs_start_end db start end_ =
    if gtb s e
    then stats_page db (Some (if ltb e de then earliest else end_))
                       (Some (if gtb s dl then latest else start))
    else stats_page db (Some (if ltb s de then earliest else start))
                       (Some (if gtb e dl then latest else end_)).
Proof.
  intros Hs He. destruct (gtb s e) eqn:Hgt.
  - rewrite (tobs_start_end_exchange start end_ s e Hs He Hgt).
    apply (tobs_start_end_ordered end_ start e s He Hs).
    now apply DatetimeFacts.gtb_asym.
  - now apply tobs_start_end_ordered.
Qed.

End TwoDates.

Section DateRouteFacts.
Import Datetime.

(** No reading on or after a date that is after every measurement. *)
Lemma no_reading_from (db : table) (lo : string) (l : datetime) (b : pystr) :
  iso_table db -> iso_date lo = true -> strptime_str lo = Return l ->
  (forall m x, In m db -> strptime_str (date m) = Return x -> lt x l) ->
  stats_page db (Some lo) b = Raise TypeError.
Proof.
  intros Hiso Ilo Hlo Hall. apply stats_page_no_reading.
  intros m Hm Hb. exfalso.
  destruct (iso_date_parses _ (Hiso m Hm)) as [x Hx].
  specialize (Hall m x Hm Hx).
  destruct b as [h|]; simpl in Hb; [|discriminate].
  apply andb_true_iff in Hb as [Hb _].
  rewrite (iso_text_le lo (date m) l x) in Hb by auto.
  apply DatetimeFacts.leb_nlt in Hb. contradiction.
Qed.

(** No reading up to a date that is before every measurement. *)
Lemma no_reading_until (db : table) (hi : string) (h : datetime) (a : pystr) :
  iso_table db -> iso_date hi = true -> strptime_str hi = Return h ->
  (forall m x, In m db -> strptime_str (date m) = Return x -> lt h x) ->
  stats_page db a (Some hi) = Raise TypeError.
Proof.
  intros Hiso Ihi Hhi Hall. apply stats_page_no_reading.
  intros m Hm Hb. exfalso.
  destruct (iso_date_parses _ (Hiso m Hm)) as [x Hx].
  specialize (Hall m x Hm Hx).
  destruct a as [l|]; simpl in Hb; [|discriminate].
  apply andb_true_iff in Hb as [_ Hb].
  rewrite (iso_text_le (date m) hi x h) in Hb by auto.
  apply DatetimeFacts.leb_nlt in Hb. contradiction.
Qed.

End DateRouteFacts.

(** X6. On a table of zero-padded dates, a request for two zero-padded
    dates that are both after the latest measurement date, or both before
    the earliest one, is not answered: the handler raises TypeError. *)
Theorem range_outside_span_raises
        (db : table) (start end_ : string) (s e de dl : Datetime.datetime) :
  iso_table db ->
  iso_date start = true -> iso_date end_ = true ->
  Datetime.strptime_str start = Return s ->
  Datetime.strptime_str end_ = Return e ->
  Datetime.strptime (min_text (map date db)) = Return de ->
  Datetime.strptime (max_text (map date db)) = Return dl ->
  (Datetime.lt dl s /\ Datetime.lt dl e) \/ (Datetime.lt s de /\ Datetime.lt e de) ->
  tobs_start_end db start end_ = Raise TypeError.
Proof.
  intros Hiso Is Ie Hs He Hde Hdl Hout.
  assert (Hne : db <> []) by (intros ->; discriminate).
  destruct (iso_span db Hiso Hne)
    as (earliest & latest & de' & dl' & Hmin & Hmax & Ime & Iml & Pe & Pl & Hall & Hspan).
  rewrite Hmin in Hde. rewrite Hmax in Hdl. simpl in Hde, Hdl.
  assert (de' = de) by congruence. assert (dl' = dl) by congruence. subst de' dl'.
  pose proof Hspan as Hord.
  assert (Iearliest : iso_date earliest = true).
  { apply in_map_iff in Ime as (m & <- & Hm). now apply Hiso. }
  assert (Ilatest : iso_date latest = true).
  { apply in_map_iff in Iml as (m & <- & Hm). now apply Hiso. }
  pose proof Hord as Hord'. apply DatetimeFacts.leb_nlt in Hord'.
  rewrite (tobs_start_end_eval db earliest latest de dl Hmin Hmax Pe Pl Hord
             start end_ s e Hs He).
  assert (After : forall lo l b, iso_date lo = true ->
            Datetime.strptime_str lo = Return l -> Datetime.lt dl l ->
            stats_page db (Some lo) b = Raise TypeError).
  { intros lo l b Ilo Hlo Hl. apply (no_reading_from db lo l b); auto.
    intros m x Hm Hx. destruct (Hall m Hm) as (x' & Hx' & _ & Hle).
    assert (x' = x) by congruence. subst x'.
    apply DatetimeFacts.leb_nlt in Hle. unfold Datetime.lt in *. lia. }
  assert (Before : forall hi h a, iso_date hi = true ->
            Datetime.strptime_str hi = Return h -> Datetime.lt h de ->
            stats_page db a (Some hi) = Raise TypeError).
  { intros hi h a Ihi Hhi Hh. apply (no_reading_until db hi h a); auto.
    intros m x Hm Hx. destruct (Hall m Hm) as (x' & Hx' & Hle & _).
    assert (x' = x) by congruence. subst x'.
    apply DatetimeFacts.leb_nlt in Hle. unfold Datetime.lt in *. lia. }
  destruct Hout as [[Ls Le]|[Ls Le]].
  - assert (E1 : Datetime.ltb e de = false).
    { apply DatetimeFacts.ltb_nlt. unfold Datetime.lt in *. lia. }
    assert (E2 : Datetime.ltb s de = false).
    { apply DatetimeFacts.ltb_nlt. unfold Datetime.lt in *. lia. }
    rewrite E1, E2.
    destruct (Datetime.gtb s e); [apply (After end_ e) | apply (After start s)]; auto.
  - assert (E1 : Datetime.gtb s dl = false).
    { apply DatetimeFacts.gtb_nlt. unfold Datetime.lt in *. lia. }
    assert (E2 : Datetime.gtb e dl = false).
    { apply DatetimeFacts.gtb_nlt. unfold Datetime.lt in *. lia. }
    rewrite E1, E2.
    destruct (Datetime.gtb s e); [apply (Before start s) | apply (Before end_ e)]; auto.
Qed.

Lemma range_outside_span_raises_witness :
  tobs_start_end hawaii "2009-01-01" "2009-06-30" = Raise TypeError /\
  tobs_start_end hawaii "2019-06-30" "2018-01-01" = Raise TypeError.
Proof.
  assert (I : iso_table hawaii).
  { intros m Hm. simpl in Hm.
    repeat (destruct Hm as [<-|Hm]; [reflexivity|]). contradiction. }
  split.
  - apply (range_outside_span_raises hawaii "2009-01-01" "2009-06-30"
             (Datetime.mk_datetime 2009 1 1) (Datetime.mk_datetime 2009 6 30)
             (Datetime.mk_datetime 2010 1 1) (Datetime.mk_datetime 2017 8 23));
      try reflexivity; try exact I.
    right. unfold Datetime.lt. simpl. lia.
  - apply (range_outside_span_raises hawaii "2019-06-30" "2018-01-01"
             (Datetime.mk_datetime 2019 6 30) (Datetime.mk_datetime 2018 1 1)
             (Datetime.mk_datetime 2010 1 1) (Datetime.mk_datetime 2017 8 23));
      try reflexivity; try exact I.
    left. unfold Datetime.lt. simpl. lia.
Defined.

(** X7. With a well-formed start date inside the span of the data and a
    well-formed end date after the latest measurement date, the two-date
    route gives exactly the result of the single-date route for that start
    date. *)
Theorem end_after_latest_is_single_date_route
        (db : table) (start end_ earliest latest : string)
        (s e de dl : Datetime.datetime) :
  min_text (map date db) = Some earliest ->
  max_text (map date db) = Some latest ->
  Datetime.strptime_str earliest = Return de ->
  Datetime.strptime_str latest = Return dl ->
  Datetime.strptime_str start = Return s ->
  Datetime.strptime_str end_ = Return e ->
  Datetime.leb de s = true -> Datetime.leb s dl = true -> Datetime.lt dl e ->
  tobs_start_end db start end_ = tobs_start db start.
Proof.
  intros Hmin Hmax Hde Hdl Hs He L1 L2 L3.
  pose proof L1 as L1'. pose proof L2 as L2'.
  apply DatetimeFacts.leb_nlt in L1'. apply DatetimeFacts.leb_nlt in L2'.
  assert (Hord : Datetime.leb de dl = true).
  { apply DatetimeFacts.leb_nlt. unfold Datetime.lt in *. lia. }
  rewrite (tobs_start_end_eval db earliest latest de dl Hmin Hmax Hde Hdl Hord
             start end_ s e Hs He).
  rewrite (tobs_start_parsed db start latest s dl Hmax Hs Hdl).
  assert (E1 : Datetime.gtb s e = false).
  { apply DatetimeFacts.gtb_nlt. unfold Datetime.lt in *. lia. }
  assert (E2 : Datetime.ltb s de = false) by now apply DatetimeFacts.ltb_nlt.
  assert (E3 : Datetime.gtb e dl = true) by now apply DatetimeFacts.gtb_lt.
  assert (E4 : Datetime.gtb s dl = false) by now apply DatetimeFacts.gtb_nlt.
  now rewrite E1, E2, E3, E4.
Qed.

Lemma end_after_latest_is_single_date_route_witness :
  tobs_start_end hawaii "2016-08-24" "2020-12-31" = tobs_start hawaii "2016-08-24".
Proof.
  apply (end_after_latest_is_single_date_route hawaii
           "2016-08-24" "2020-12-31" "2010-01-01" "2017-08-23"
           (Datetime.mk_datetime 2016 8 24) (Datetime.mk_datetime 2020 12 31)
           (Datetime.mk_datetime 2010 1 1) (Datetime.mk_datetime 2017 8 23));
    try reflexivity.
  unfold Datetime.lt. simpl. lia.
Defined.

(** X8. Clamping is idempotent: for well-formed dates in order whose range
    meets the span of the data, asking again with the clamped dates gives
    the same result. *)
Theorem clamped_request_same_result
        (db : table) (start end_ earliest latest : string)
        (s e de dl : Datetime.datetime) :
  min_text (map date db) = Some earliest ->
  max_text (map date db) = Some latest ->
  Datetime.strptime_str earliest = Return de ->
  Datetime.strptime_str latest = Return dl ->
  Datetime.strptime_str start = Return s ->
  Datetime.strptime_str end_ = Return e ->
  Datetime.leb de dl = true ->
  Datetime.leb s e = true -> Datetime.leb s dl = true -> Datetime.leb de e = true ->
  tobs_start_end db (if Datetime.ltb s de then earliest else start)
                    (if Datetime.gtb e dl then latest else end_)
  = tobs_start_end db start end_.
Proof.
  intros Hmin Hmax Hde Hdl Hs He Hord L1 L2 L3.
  pose proof Hord as Hord'.
  apply DatetimeFacts.leb_nlt in Hord'. apply DatetimeFacts.leb_nlt in L1.
  apply DatetimeFacts.leb_nlt in L2. apply DatetimeFacts.leb_nlt in L3.
  assert (E0 : Datetime.gtb s e = false) by now apply DatetimeFacts.gtb_nlt.
  rewrite (tobs_start_end_eval db earliest latest de dl Hmin Hmax Hde Hdl Hord
             start end_ s e Hs He), E0.
  destruct (Datetime.ltb s de) eqn:A, (Datetime.gtb e dl) eqn:B.
  - rewrite (tobs_start_end_eval db earliest latest de dl Hmin Hmax Hde Hdl Hord
               earliest latest de dl Hde Hdl).
    replace (Datetime.gtb de dl) with false
      by (symmetry; now apply DatetimeFacts.gtb_nlt).
    replace (Datetime.ltb de de) with false
      by (symmetry; apply DatetimeFacts.ltb_nlt; unfold Datetime.lt; lia).
    replace (Datetime.gtb dl dl) with false
      by (symmetry; apply DatetimeFacts.gtb_nlt; unfold Datetime.lt; lia).
    reflexivity.
  - rewrite (tobs_start_end_eval db earliest latest de dl Hmin Hmax Hde Hdl Hord
               earliest end_ de e Hde He).
    replace (Datetime.gtb de e) with false
      by (symmetry; now apply DatetimeFacts.gtb_nlt).
    replace (Datetime.ltb de de) with false
      by (symmetry; apply DatetimeFacts.ltb_nlt; unfold Datetime.lt; lia).
    now rewrite B.
  - rewrite (tobs_start_end_eval db earliest latest de dl Hmin Hmax Hde Hdl Hord
               start latest s dl Hs Hdl).
    replace (Datetime.gtb s dl) with false
      by (symmetry; now apply DatetimeFacts.gtb_nlt).
    replace (Datetime.gtb dl dl) with false
      by (symmetry; apply DatetimeFacts.gtb_nlt; unfold Datetime.lt; lia).
    now rewrite A.
  - rewrite (tobs_start_end_eval db earliest latest de dl Hmin Hmax Hde Hdl Hord
               start end_ s e Hs He).
    now rewrite E0, A, B.
Qed.

Lemma clamped_request_same_result_witness :
  tobs_start_end hawaii "2010-01-01" "2017-08-23" =
  tobs_start_end hawaii "2000-05-05" "2030-01-01".
Proof.
  apply (clamped_request_same_result hawaii
           "2000-05-05" "2030-01-01" "2010-01-01" "2017-08-23"
           (Datetime.mk_datetime 2000 5 5) (Datetime.mk_datetime 2030 1 1)
           (Datetime.mk_datetime 2010 1 1) (Datetime.mk_datetime 2017 8 23));
    reflexivity.
Defined.

Section Answered.
Import Datetime.

(** A measurement with a temperature inside the range, on zero-padded
    dates: the page is filled and its bounds enclose that temperature. *)
Lemma stats_page_iso_reading (db : table) (lo hi : string) (l h x : datetime)
      (m : Measurement) (t : Q) :
  iso_date lo = true -> iso_date hi = true -> iso_date (date m) = true ->
  strptime_str lo = Return l -> strptime_str hi = Return h ->
  strptime_str (date m) = Return x ->
  leb l x = true -> leb x h = true ->
  In m db -> Sql.tobs m = Some t ->
  exists mn mx av,
    stats_page db (Some lo) (Some hi)
      = Return (StatsPage (Some lo) (Some hi) (Some mn) (Some mx) av) /\
    (mn <= t)%Q /\ (t <= mx)%Q.
Proof.
  intros Ilo Ihi Im Hlo Hhi Hx L1 L2 Hm Ht.
  apply (stats_page_reading db (Some lo) (Some hi) m t); auto.
  simpl. rewrite (iso_text_le lo (date m) l x), (iso_text_le (date m) hi x h) by auto.
  now rewrite L1, L2.
Qed.

End Answered.

(** X9. On a table of zero-padded dates, a zero-padded start date with a
    measurement on or after it that has a temperature is answered by the
    single-date route with a statistics page from the start date to the
    latest date, whose minimum and maximum enclose that temperature. *)
Theorem tobs_start_answers
        (db : table) (start : string) (s x : Datetime.datetime)
        (m : Measurement) (t : Q) :
  iso_table db -> iso_date start = true ->
  Datetime.strptime_str start = Return s ->
  In m db -> Datetime.strptime_str (date m) = Return x ->
  Datetime.leb s x = true -> Sql.tobs m = Some t ->
  exists latest mn mx av,
    max_text (map date db) = Some latest /\
    tobs_start db start =
      Return (StatsPage (Some start) (Some latest) (Some mn) (Some mx) av) /\
    (mn <= t)%Q /\ (t <= mx)%Q.
Proof.
  intros Hiso Is Hs Hm Hx Hsx Ht.
  assert (Hne : db <> []) by (intros ->; contradiction).
  destruct (iso_span db Hiso Hne)
    as (earliest & latest & de & dl & Hmin & Hmax & Ime & Iml & Pe & Pl & Hall & _).
  destruct (Hall m Hm) as (x' & Hx' & _ & Hxl).
  assert (x' = x) by congruence. subst x'.
  assert (Ilatest : iso_date latest = true).
  { apply in_map_iff in Iml as (m' & <- & Hm'). now apply Hiso. }
  rewrite (tobs_start_parsed db start latest s dl Hmax Hs Pl).
  assert (E : Datetime.gtb s dl = false).
  { apply DatetimeFacts.gtb_nlt.
    apply DatetimeFacts.leb_nlt in Hsx. apply DatetimeFacts.leb_nlt in Hxl.
    unfold Datetime.lt in *. lia. }
  rewrite E.
  destruct (stats_page_iso_reading db start latest s dl x m t)
    as (mn & mx & av & P & B1 & B2); auto.
  exists latest, mn, mx, av. auto.
Qed.

Lemma tobs_start_answers_witness :
  exists latest mn mx av,
    max_text (map date hawaii) = Some latest /\
    tobs_start hawaii "2017-01-01" =
      Return (StatsPage (Some "2017-01-01"%string) (Some latest)
                        (Some mn) (Some mx) av) /\
    (mn <= 79)%Q /\ (79 <= mx)%Q.
Proof.
  apply (tobs_start_answers hawaii "2017-01-01"
           (Datetime.mk_datetime 2017 1 1) (Datetime.mk_datetime 2017 8 18)
           (row "USC00519281" "2017-08-18" (Some (6 # 100)%Q) (Some 79%Q))).
  - intros m Hm. simpl in Hm.
    repeat (destruct Hm as [<-|Hm]; [reflexivity|]). contradiction.
  - reflexivity.
  - reflexivity.
  - simpl. tauto.
  - reflexivity.
  - reflexivity.
  - reflexivity.
Defined.

(** X10. On a table of zero-padded dates, two zero-padded dates, given in
    either order, with a measurement between them that has a temperature
    are answered by the two-date route with a statistics page whose minimum
    and maximum enclose that temperature. *)
Theorem tobs_start_end_answers
        (db : table) (start end_ : string) (s e x : Datetime.datetime)
        (m : Measurement) (t : Q) :
  iso_table db -> iso_date start = true -> iso_date end_ = true ->
  Datetime.strptime_str start = Return s ->
  Datetime.strptime_str end_ = Return e ->
  In m db -> Datetime.strptime_str (date m) = Return x ->
  Sql.tobs m = Some t ->
  (Datetime.leb s x = true /\ Datetime.leb x e = true) \/
  (Datetime.leb e x = true /\ Datetime.leb x s = true) ->
  exists a b mn mx av,
    tobs_start_end db start end_ =
      Return (StatsPage (Some a) (Some b) (Some mn) (Some mx) av) /\
    (mn <= t)%Q /\ (t <= mx)%Q.
Proof.
  intros Hiso Is Ie Hs He Hm Hx Ht Hin.
  assert (Hne : db <> []) by (intros ->; contradiction).
  destruct (iso_span db Hiso Hne)
    as (earliest & latest & de & dl & Hmin & Hmax & Ime & Iml & Pe & Pl & Hall & Hspan).
  destruct (Hall m Hm) as (x' & Hx' & Hex & Hxl).
  assert (x' = x) by congruence. subst x'.
  pose proof Hspan as Hord.
  assert (Iearliest : iso_date earliest = true).
  { apply in_map_iff in Ime as (m' & <- & Hm'). now apply Hiso. }
  assert (Ilatest : iso_date latest = true).
  { apply in_map_iff in Iml as (m' & <- & Hm'). now apply Hiso. }
  assert (Im : iso_date (date m) = true) by now apply Hiso.
  assert (Ordered : forall lo hi l h,
            iso_date lo = true -> iso_date hi = true ->
            Datetime.strptime_str lo = Return l ->
            Datetime.strptime_str hi = Return h ->
            Datetime.leb l x = true -> Datetime.leb x h = true ->
            exists a b mn mx av,
              stats_page db (Some (if Datetime.ltb l de then earliest else lo))
                            (Some (if Datetime.gtb h dl then latest else hi))
              = Return (StatsPage (Some a) (Some b) (Some mn) (Some mx) av) /\
              (mn <= t)%Q /\ (t <= mx)%Q).
  { intros lo hi l h Ilo Ihi Hlo Hhi L1 L2.
    destruct (Datetime.ltb l de), (Datetime.gtb h dl).
    - destruct (stats_page_iso_reading db earliest latest de dl x m t)
        as (mn & mx & av & P & B); auto. eauto 8.
    - destruct (stats_page_iso_reading db earliest hi de h x m t)
        as (mn & mx & av & P & B); auto. eauto 8.
    - destruct (stats_page_iso_reading db lo latest l dl x m t)
        as (mn & mx & av & P & B); auto. eauto 8.
    - destruct (stats_page_iso_reading db lo hi l h x m t)
        as (mn & mx & av & P & B); auto. eauto 8. }
  rewrite (tobs_start_end_eval db earliest latest de dl Hmin Hmax Pe Pl Hord
             start end_ s e Hs He).
  destruct (Datetime.gtb s e) eqn:G.
  - apply (Ordered end_ start e s); auto.
    + destruct Hin as [[A B]|[A B]]; [|assumption].
      apply DatetimeFacts.leb_nlt. apply DatetimeFacts.gtb_lt in G.
      apply DatetimeFacts.leb_nlt in A. apply DatetimeFacts.leb_nlt in B.
      unfold Datetime.lt in *. lia.
    + destruct Hin as [[A B]|[A B]]; [|assumption].
      apply DatetimeFacts.leb_nlt. apply DatetimeFacts.gtb_lt in G.
      apply DatetimeFacts.leb_nlt in A. apply DatetimeFacts.leb_nlt in B.
      unfold Datetime.lt in *. lia.
  - apply (Ordered start end_ s e); auto.
    + destruct Hin as [[A B]|[A B]]; [assumption|].
      apply DatetimeFacts.leb_nlt. apply DatetimeFacts.gtb_nlt in G.
      apply DatetimeFacts.leb_nlt in A. apply DatetimeFacts.leb_nlt in B.
      unfold Datetime.lt in *. lia.
    + destruct Hin as [[A B]|[A B]]; [assumption|].
      apply DatetimeFacts.leb_nlt. apply DatetimeFacts.gtb_nlt in G.
      apply DatetimeFacts.leb_nlt in A. apply DatetimeFacts.leb_nlt in B.
      unfold Datetime.lt in *. lia.
Qed.

Lemma tobs_start_end_answers_witness :
  exists a b mn mx av,
    tobs_start_end hawaii "2017-12-31" "2017-01-01" =
      Return (StatsPage (Some a) (Some b) (Some mn) (Some mx) av) /\
    (mn <= 79)%Q /\ (79 <= mx)%Q.
Proof.
  apply (tobs_start_end_answers hawaii "2017-12-31" "2017-01-01"
           (Datetime.mk_datetime 2017 12 31) (Datetime.mk_datetime 2017 1 1)
           (Datetime.mk_datetime 2017 8 18)
           (row "USC00519281" "2017-08-18" (Some (6 # 100)%Q) (Some 79%Q))).
  - intros m Hm. simpl in Hm.
    repeat (destruct Hm as [<-|Hm]; [reflexivity|]). contradiction.
  - reflexivity.
  - reflexivity.
  - reflexivity.
  - reflexivity.
  - simpl. tauto.
  - reflexivity.
  - reflexivity.
  - right. split; reflexivity.
Defined.

(** ** The last-year handlers: when they fail and what they return *)

Section LastYear.
Import Datetime.

Lemma valid_iff (d : datetime) :
  valid d = true <->
  1 <= year d <= 9999 /\ 1 <= month d <= 12 /\
  1 <= day d <= days_in_month (year d) (month d).
Proof.
  unfold valid. rewrite !andb_true_iff, !Z.leb_le. tauto.
Qed.

Lemma days_in_month_bounds (y m : Z) : 28 <= days_in_month y m <= 31.
Proof.
  unfold days_in_month.
  destruct (m =? 2); [destruct (is_leap y); lia|].
  destruct (_ || _); lia.
Qed.

Lemma days_in_month_year (y y' m : Z) :
  m <> 2 -> days_in_month y m = days_in_month y' m.
Proof.
  intros H. unfold days_in_month.
  destruct (Z.eqb_spec m 2); [contradiction | reflexivity].
Qed.

Lemma days_in_february (y : Z) :
  days_in_month y 2 = if is_leap y then 29 else 28.
Proof. reflexivity. Qed.

Lemma one_year_before_raises (d : datetime) (e : exn) :
  one_year_before d = Raise e -> e = ValueError.
Proof.
  unfold one_year_before, new. destruct (valid _); congruence.
Qed.

Lemma one_year_before_lt (d r : datetime) :
  one_year_before d = Return r ->
  r = mk_datetime (year d - 1) (month d) (day d) /\ valid r = true /\ lt r d.
Proof.
  unfold one_year_before. intros H. apply DatetimeFacts.new_valid in H as [-> V].
  repeat split; [assumption|]. unfold lt. simpl. lia.
Qed.

Lemma max_text_some (col : list string) :
  col <> [] -> exists l, max_text col = Some l.
Proof.
  intros H. destruct (max_text col) as [l|] eqn:E; [eauto|].
  apply reduce_none in E. contradiction.
Qed.

Lemma busiest_returns (db : table) :
  db <> [] -> exists s, busiest db = Return s /\ In s (map station db).
Proof.
  intros Hne. unfold busiest.
  destruct (n_station db) as [|[s n] rest] eqn:E.
  - exfalso. destruct db as [|m db]; [congruence|].
    assert (H : In (station m, count_rows (station m) (m :: db)) (n_station (m :: db))).
    { apply n_station_in, group_by_station_in. split; [now left | reflexivity]. }
    rewrite E in H. contradiction.
  - exists s. split; [reflexivity|].
    assert (Hs : In (s, n) (group_by_station db)).
    { apply n_station_in. rewrite E. now left. }
    now apply group_by_station_in in Hs.
Qed.


End LastYear.

(** X11. The date one calendar year before a calendar date exists unless
    the date is in year 1 or is a February 29; when it exists it has the
    same month and day and is chronologically earlier. *)
Theorem one_year_before_defined (d : Datetime.datetime) :
  Datetime.valid d = true ->
  (one_year_before d = Raise ValueError <->
   Datetime.year d = 1 \/ (Datetime.month d = 2 /\ Datetime.day d = 29)) /\
  (forall r, one_year_before d = Return r ->
     Datetime.year r = Datetime.year d - 1 /\
     Datetime.month r = Datetime.month d /\ Datetime.day r = Datetime.day d /\
     Datetime.lt r d).
Proof.
  intros V. split.
  - apply valid_iff in V as (Hy & Hm & Hd).
    unfold one_year_before, Datetime.new.
    destruct (Datetime.valid (Datetime.mk_datetime (Datetime.year d - 1)
                (Datetime.month d) (Datetime.day d))) eqn:V'.
    + split; [discriminate|]. intros H. exfalso.
      apply valid_iff in V' as (Hy' & _ & Hd'). simpl in Hy', Hd'.
      destruct H as [H|[H1 H2]]; [lia|].
      rewrite H1, days_in_february in Hd, Hd'.
      destruct (Datetime.is_leap (Datetime.year d)) eqn:L; [|lia].
      rewrite (DatetimeFacts.leap_pred _ L) in Hd'. lia.
    + split; [|reflexivity]. intros _.
      destruct (Z.eq_dec (Datetime.year d) 1) as [E|E]; [now left | right].
      destruct (Z.eq_dec (Datetime.month d) 2) as [M|M].
      * split; [assumption|].
        destruct (Z.eq_dec (Datetime.day d) 29) as [D|D]; [assumption | exfalso].
        assert (T : Datetime.valid (Datetime.mk_datetime (Datetime.year d - 1)
                      (Datetime.month d) (Datetime.day d)) = true).
        { apply valid_iff. simpl.
          pose proof (days_in_month_bounds (Datetime.year d - 1) (Datetime.month d)).
          rewrite M, days_in_february in Hd.
          destruct (Datetime.is_leap (Datetime.year d)); lia. }
        congruence.
      * exfalso.
        assert (T : Datetime.valid (Datetime.mk_datetime (Datetime.year d - 1)
                      (Datetime.month d) (Datetime.day d)) = true).
        { apply valid_iff. simpl.
          rewrite (days_in_month_year (Datetime.year d - 1) (Datetime.year d)) by assumption.
          lia. }
        congruence.
  - intros r H. apply one_year_before_lt in H as (-> & _ & L). simpl. tauto.
Qed.

Lemma one_year_before_defined_witness :
  (one_year_before (Datetime.mk_datetime 2016 2 29) = Raise ValueError <->
   2016 = 1 \/ (2 = 2 /\ 29 = 29)) /\
  (forall r, one_year_before (Datetime.mk_datetime 2017 8 23) = Return r ->
     Datetime.year r = 2016 /\ Datetime.month r = 8 /\ Datetime.day r = 23 /\
     Datetime.lt r (Datetime.mk_datetime 2017 8 23)).
Proof.
  split.
  - apply (one_year_before_defined (Datetime.mk_datetime 2016 2 29)). reflexivity.
  - apply (one_year_before_defined (Datetime.mk_datetime 2017 8 23)). reflexivity.
Defined.

(** X12. The precipitation handler raises TypeError exactly on the empty
    table, and the only other exception it can raise is ValueError. *)
Theorem precip_exceptions (db : table) :
  (precip db = Raise TypeError <-> db = []) /\
  (forall e, precip db = Raise e -> e = TypeError \/ e = ValueError).
Proof.
  assert (R : forall e, precip db = Raise e ->
            (e = TypeError /\ db = []) \/ e = ValueError).
  { intros e. unfold precip.
    destruct (Datetime.strptime (max_text (map date db))) as [dl|x] eqn:H; cbn [bind].
    - destruct (one_year_before dl) as [d1|x] eqn:H1; cbn [bind]; [discriminate|].
      intros E. inversion E. subst. right. now apply one_year_before_raises in H1.
    - intros E. inversion E. subst.
      apply strptime_raises in H as [->|[-> H]]; [now right | left].
      split; [reflexivity|]. apply reduce_none in H. now destruct db. }
  split.
  - split.
    + intros H. destruct (R _ H) as [[_ E]|E]; [assumption | discriminate].
    + intros ->. reflexivity.
  - intros e H. destruct (R e H) as [[-> _]| ->]; auto.
Qed.

(** X13. The tobs handler raises IndexError exactly on the empty table, and
    the only other exception it can raise is ValueError. *)
Theorem tobs_exceptions (db : table) :
  (tobs db = Raise IndexError <-> db = []) /\
  (forall e, tobs db = Raise e -> e = IndexError \/ e = ValueError).
Proof.
  assert (R : forall e, tobs db = Raise e ->
            (e = IndexError /\ db = []) \/ e = ValueError).
  { intros e. destruct db as [|m0 db0] eqn:Edb.
    - simpl. intros E. inversion E. now left.
    - rewrite <- Edb. assert (Hne : db <> []) by (rewrite Edb; discriminate).
      destruct (busiest_returns db Hne) as (s & Hb & Hs).
      unfold tobs. rewrite Hb. cbn [bind].
      set (col := map date (filter (of_station s) db)).
      assert (Hcol : col <> []).
      { apply in_map_iff in Hs as (m & Em & Hm).
        assert (I : In (date m) col).
        { apply in_map, filter_In. split; [assumption|].
          unfold of_station. now apply String.eqb_eq. }
        intros C. rewrite C in I. contradiction. }
      destruct (max_text_some col Hcol) as [l Hl]. rewrite Hl.
      destruct (Datetime.strptime (Some l)) as [dl|x] eqn:H; cbn [bind].
      + destruct (one_year_before dl) as [d1|x] eqn:H1; cbn [bind]; [discriminate|].
        intros E. inversion E. subst. right. now apply one_year_before_raises in H1.
      + intros E. inversion E. subst.
        apply strptime_raises in H as [->|[_ C]]; [now right | discriminate]. }
  split.
  - split.
    + intros H. destruct (R _ H) as [[_ E]|E]; [assumption | discriminate].
    + intros ->. reflexivity.
  - intros e H. destruct (R e H) as [[-> _]| ->]; auto.
Qed.

Section Window.
Import Datetime.

(** The rows a last-year query keeps: after the day one year before the
    latest date of the rows it looks at, up to that latest date, the latest
    rows included. *)
Lemma last_year_window (rows : table) (latest : string) (dl d1 : datetime) :
  iso_table rows ->
  max_text (map date rows) = Some latest ->
  strptime_str latest = Return dl ->
  one_year_before dl = Return d1 ->
  filter (after d1) rows = filter (later_than d1) rows /\
  (forall m, In m rows -> later_than d1 m = true ->
     exists x, strptime_str (date m) = Return x /\ lt d1 x /\ leb x dl = true) /\
  (forall m, In m rows -> date m = latest -> later_than d1 m = true).
Proof.
  intros Hiso Hmax Hdl H1.
  apply one_year_before_lt in H1 as (E1 & V1 & L1).
  destruct (max_text_spec _ _ Hmax) as [Il Ll].
  assert (Ilatest : iso_date latest = true).
  { apply in_map_iff in Il as (m & <- & Hm). now apply Hiso. }
  split; [|split].
  - apply filter_ext_in. intros m Hm. apply TextOrder.after_later_than; auto.
  - intros m Hm Hl. unfold later_than in Hl.
    destruct (strptime_str (date m)) as [x|] eqn:Hx; [|discriminate].
    exists x. split; [reflexivity|]. split; [now apply DatetimeFacts.gtb_lt|].
    rewrite <- (iso_text_le (date m) latest x dl); auto.
    apply Ll. now apply in_map.
  - intros m Hm E. unfold later_than. rewrite E, Hdl.
    now apply DatetimeFacts.gtb_lt.
Qed.

End Window.

(** X14. For a table of zero-padded dates on which the precipitation
    handler returns, every date it returns is chronologically after the day
    one year before the latest date and not after the latest date, every
    measurement of the latest date is returned, and so the result is never
    empty. *)
Theorem precip_window
        (db : table) (d_latest d_1yr : Datetime.datetime) :
  iso_table db ->
  Datetime.strptime (max_text (map date db)) = Return d_latest ->
  one_year_before d_latest = Return d_1yr ->
  exists rows,
    precip db = Return rows /\
    (forall d p, In (d, p) rows ->
       exists x, Datetime.strptime_str d = Return x /\
                 Datetime.lt d_1yr x /\ Datetime.leb x d_latest = true) /\
    (forall m, In m db -> Some (date m) = max_text (map date db) ->
       In (date m, prcp m) rows) /\
    rows <> [].
Proof.
  intros Hiso Hl H1.
  destruct (max_text (map date db)) as [latest|] eqn:Hmax; [|discriminate].
  simpl in Hl.
  destruct (last_year_window db latest d_latest d_1yr Hiso Hmax Hl H1)
    as (F & W & Last).
  unfold precip. rewrite Hmax. simpl Datetime.strptime. rewrite Hl. cbn [bind].
  rewrite H1. cbn [bind]. rewrite F.
  set (sel := filter (later_than d_1yr) db).
  assert (P : Permutation (order_by by_date sel) sel) by apply order_by_perm.
  assert (Keep : forall m, In m db -> date m = latest ->
            In (date m, prcp m)
               (map (fun m => (date m, prcp m)) (order_by by_date sel))).
  { intros m Hm E. apply (in_map (fun m => (date m, prcp m))).
    apply (Permutation_in _ (Permutation_sym P)).
    apply filter_In. split; [assumption | now apply Last]. }
  eexists. split; [reflexivity|]. split; [|split].
  - intros d p Hin. apply in_map_iff in Hin as (m & E & Hm). inversion E. subst.
    apply (Permutation_in _ P), filter_In in Hm as [Hm Hlater].
    now apply W.
  - intros m Hm E. apply Keep; [assumption | congruence].
  - destruct (max_text_spec _ _ Hmax) as [Il _].
    apply in_map_iff in Il as (m & E & Hm).
    intros C. pose proof (Keep m Hm E) as K. rewrite C in K. contradiction.
Qed.

Lemma precip_window_witness :
  exists rows,
    precip hawaii = Return rows /\
    (forall d p, In (d, p) rows ->
       exists x, Datetime.strptime_str d = Return x /\
                 Datetime.lt (Datetime.mk_datetime 2016 8 23) x /\
                 Datetime.leb x (Datetime.mk_datetime 2017 8 23) = true) /\
    (forall m, In m hawaii -> Some (date m) = max_text (map date hawaii) ->
       In (date m, prcp m) rows) /\
    rows <> [].
Proof.
  apply (precip_window hawaii (Datetime.mk_datetime 2017 8 23)
           (Datetime.mk_datetime 2016 8 23)).
  - intros m Hm. simpl in Hm.
    repeat (destruct Hm as [<-|Hm]; [reflexivity|]). contradiction.
  - reflexivity.
  - reflexivity.
Defined.



(** ** More on [temp_stats] *)

(** X16. [temp_stats] always gives one row, and its three aggregates are
    NULL together: exactly when no measurement of the range has a
    temperature. *)
Theorem temp_stats_null_together (db : table) (start_date end_date : pystr) :
  exists mn av mx,
    temp_stats db start_date end_date = [(mn, av, mx)] /\
    (av = None <-> mn = None) /\ (av = None <-> mx = None) /\
    (av = None <->
     forall m, In m db -> between start_date end_date (date m) = true ->
               Sql.tobs m = None).
Proof.
  unfold temp_stats.
  set (col := map Sql.tobs (filter (fun m => between start_date end_date (date m)) db)).
  exists (func_min col), (func_avg col), (func_max col).
  split; [reflexivity|].
  rewrite func_avg_none, func_min_none, func_max_none.
  split; [tauto|]. split; [tauto|]. split.
  - intros E m Hm Hb. destruct (Sql.tobs m) as [t|] eqn:Ht; [|reflexivity].
    exfalso. assert (I : In t (non_null col)).
    { apply in_readings. exists m. auto. }
    rewrite E in I. contradiction.
  - intros H. destruct (non_null col) as [|t l] eqn:N; [reflexivity|].
    assert (I : In t (non_null col)) by (rewrite N; now left).
    apply in_readings in I as (m & Hm & Hb & Ht).
    rewrite (H m Hm Hb) in Ht. discriminate.
Qed.

(** X17. A range whose start is after its end in text order holds no
    measurement: [temp_stats] returns three NULLs. *)
Theorem temp_stats_reversed_range (db : table) (start_date end_date : string) :
  text_lt end_date start_date = true ->
  temp_stats db (Some start_date) (Some end_date) = [(None, None, None)].
Proof.
  intros H. apply temp_stats_no_reading.
  assert (E : filter (fun m => between (Some start_date) (Some end_date) (date m)) db = []).
  { induction db as [|m db' IH]; [reflexivity|]. simpl.
    destruct (text_le start_date (date m)) eqn:A; simpl; [|assumption].
    destruct (text_le (date m) end_date) eqn:B; simpl; [|assumption].
    exfalso.
    pose proof (TextOrder.text_le_trans _ _ _ A B) as C.
    unfold text_lt, String.ltb in H. unfold text_le, String.leb in C.
    rewrite String.compare_antisym in C.
    destruct (String.compare end_date start_date); simpl in *; discriminate. }
  now rewrite E.
Qed.

Lemma temp_stats_reversed_range_witness :
  temp_stats hawaii (Some "2017-08-23"%string) (Some "2017-01-01"%string)
  = [(None, None, None)].
Proof.
  apply (temp_stats_reversed_range hawaii "2017-08-23" "2017-01-01").
  reflexivity.
Defined.

(** X18. Widening the range can only lower the minimum and raise the
    maximum: if a range has statistics, every range that contains it (in
    text order) has statistics too, with a minimum not above and a maximum
    not below. *)
Theorem temp_stats_wider_range
        (db : table) (s e s' e' : string) (mn mx : Q) (av : option double) :
  text_le s' s = true -> text_le e e' = true ->
  temp_stats db (Some s) (Some e) = [(Some mn, av, Some mx)] ->
  exists mn' av' mx',
    temp_stats db (Some s') (Some e') = [(Some mn', Some av', Some mx')] /\
    (mn' <= mn)%Q /\ (mx <= mx')%Q.
Proof.
  intros Hs He H. unfold temp_stats in *.
  set (col := map Sql.tobs (filter (fun m => between (Some s) (Some e) (date m)) db)) in *.
  set (col' := map Sql.tobs (filter (fun m => between (Some s') (Some e') (date m)) db)).
  inversion H as [[Hmn Hav Hmx]]. clear H.
  assert (Sub : forall t, In t (non_null col) -> In t (non_null col')).
  { intros t I. apply in_readings in I as (m & Hm & Hb & Ht).
    apply in_readings. exists m. split; [assumption|]. split; [|assumption].
    simpl in *. apply andb_true_iff in Hb as [A B]. apply andb_true_iff. split.
    - now apply TextOrder.text_le_trans with s.
    - now apply TextOrder.text_le_trans with e. }
  assert (Imn : In mn (non_null col)).
  { apply (reduce_choice q_min); [|exact Hmn].
    intros a b. unfold q_min. destruct (Qle_bool a b); auto. }
  assert (Imx : In mx (non_null col)).
  { apply (reduce_choice q_max); [|exact Hmx].
    intros a b. unfold q_max. destruct (Qle_bool a b); auto. }
  assert (N : non_null col' <> []).
  { intros C. apply Sub in Imn. rewrite C in Imn. contradiction. }
  destruct (reduce_nonempty q_min _ N) as [mn' Hmn'].
  destruct (reduce_nonempty q_max _ N) as [mx' Hmx'].
  destruct (func_avg col') as [av'|] eqn:A;
    [|apply func_avg_none in A; contradiction].
  exists mn', av', mx'. unfold func_min, func_max. rewrite Hmn', Hmx'.
  split; [reflexivity|]. split.
  - apply (func_min_lower _ _ Hmn'). now apply Sub.
  - apply (func_max_upper _ _ Hmx'). now apply Sub.
Qed.

Lemma temp_stats_wider_range_witness :
  exists mn' av' mx',
    temp_stats hawaii (Some "2010-01-01"%string) (Some "2017-08-23"%string)
      = [(Some mn', Some av', Some mx')] /\
    (mn' <= 62)%Q /\ (81 <= mx')%Q.
Proof.
  apply (temp_stats_wider_range hawaii "2017-01-01" "2017-08-23"
           "2010-01-01" "2017-08-23" 62%Q 81%Q (Some (Fin 74)));
    reflexivity.
Defined.

(** ** The station counts *)

Section Counts.

Lemma list_sum_perm (l l' : list nat) :
  Permutation l l' -> list_sum l = list_sum l'.
Proof.
  intros P. induction P; simpl; lia.
Qed.

Lemma indicator_sum (x : string) (ks : list string) :
  NoDup ks ->
  list_sum (map (fun k => if String.eqb x k then 1%nat else 0%nat) ks)
  = if in_dec string_dec x ks then 1%nat else 0%nat.
Proof.
  induction 1 as [|k ks Hk Hnd IH]; simpl; [reflexivity|].
  rewrite IH. destruct (String.eqb_spec x k) as [->|N].
  - destruct (string_dec k k) as [E|C]; [|contradiction].
    destruct (in_dec string_dec k ks); [contradiction | reflexivity].
  - destruct (string_dec k x) as [C|N']; [congruence|].
    destruct (in_dec string_dec x ks); reflexivity.
Qed.

Lemma count_rows_cons (k : string) (m : Measurement) (db : table) :
  count_rows k (m :: db) =
  ((if String.eqb (station m) k then 1 else 0) + count_rows k db)%nat.
Proof.
  unfold count_rows. simpl. destruct (String.eqb (station m) k); reflexivity.
Qed.

(** Counting per station over a duplicate-free list of stations that
    covers the table counts every row once. *)
Lemma sum_counts (ks : list string) (db : table) :
  NoDup ks -> (forall m, In m db -> In (station m) ks) ->
  list_sum (map (fun k => count_rows k db) ks) = List.length db.
Proof.
  intros Hnd. induction db as [|m db IH]; intros Hall.
  - simpl. induction ks as [|k ks IHk]; simpl; [reflexivity|].
    inversion Hnd. subst. now rewrite IHk.
  - assert (E : list_sum (map (fun k => count_rows k (m :: db)) ks) =
                (list_sum (map (fun k => if String.eqb (station m) k
                                         then 1%nat else 0%nat) ks)
                 + list_sum (map (fun k => count_rows k db) ks))%nat).
    { clear. induction ks as [|k ks IHk]; [reflexivity|].
      change (list_sum (map (fun k => count_rows k (m :: db)) (k :: ks)))
        with (count_rows k (m :: db)
              + list_sum (map (fun k => count_rows k (m :: db)) ks))%nat.
      rewrite IHk, count_rows_cons. simpl. lia. }
    rewrite E, IH, indicator_sum by (auto; intros; apply Hall; now right).
    destruct (in_dec string_dec (station m) ks) as [_|C]; [reflexivity|].
    elim C. apply Hall. now left.
Qed.

Lemma group_keys_nodup (db : table) : NoDup (group_keys db).
Proof.
  unfold group_keys. apply NoDup_rev.
  apply (Permutation_NoDup (l := nodup string_dec (map station db))).
  - apply Permutation_sym, order_by_perm.
  - apply NoDup_nodup.
Qed.

Lemma group_by_station_keys (db : table) :
  map fst (group_by_station db) = group_keys db.
Proof.
  unfold group_by_station. rewrite map_map. simpl. apply map_id.
Qed.

End Counts.

(** X19. The first query of the tobs handler lists every station of the
    table exactly once, in non-increasing order of count, each with its
    number of rows; the counts add up to the number of rows of the table. *)
Theorem n_station_partition (db : table) :
  NoDup (map fst (n_station db)) /\
  (forall s, In s (map fst (n_station db)) <-> In s (map station db)) /\
  (forall s n, In (s, n) (n_station db) -> n = count_rows s db) /\
  StronglySorted (fun a b => (snd b <= snd a)%nat) (n_station db) /\
  list_sum (map snd (n_station db)) = List.length db.
Proof.
  assert (P : Permutation (n_station db) (group_by_station db))
    by apply order_by_perm.
  split; [|split; [|split; [|split]]].
  - apply (Permutation_NoDup (l := map fst (group_by_station db))).
    + apply Permutation_map, Permutation_sym, P.
    + rewrite group_by_station_keys. apply group_keys_nodup.
  - intros s. rewrite <- group_keys_in, <- group_by_station_keys. split.
    + apply Permutation_in, Permutation_map, P.
    + apply Permutation_in, Permutation_map, Permutation_sym, P.
  - intros s n H. apply n_station_in, group_by_station_in in H. tauto.
  - assert (S : Sorted (fun a b => by_count_desc a b = true) (n_station db))
      by (apply order_by_sorted; exact by_count_desc_total).
    apply Sorted_StronglySorted in S.
    + clear P. induction S as [|a l S IH F]; [constructor|].
      constructor; [assumption|].
      rewrite Forall_forall in *. intros b Hb. specialize (F b Hb).
      unfold by_count_desc in F. now apply Nat.leb_le in F.
    + intros a b c. unfold by_count_desc. rewrite !Nat.leb_le. lia.
  - rewrite (list_sum_perm _ _ (Permutation_map snd P)).
    unfold group_by_station. rewrite map_map. simpl.
    apply sum_counts; [apply group_keys_nodup|].
    intros m Hm. apply group_keys_in. now apply in_map.
Qed.

(** X20. On a table of zero-padded dates, the filter
    [Measurement.date > d_1yr] of the last-year queries keeps exactly the
    measurements of a later day: the day [d_1yr] itself is left out. *)
Theorem filter_after_is_chronological
        (db : table) (d_1yr : Datetime.datetime) :
  iso_table db -> Datetime.valid d_1yr = true ->
  filter (after d_1yr) db = filter (later_than d_1yr) db /\
  (forall m, In m db -> date m = Datetime.isoformat_date d_1yr -> after d_1yr m = false).
Proof.
  intros Hiso V. split.
  - apply filter_ext_in. intros m Hm. apply TextOrder.after_later_than; auto.
  - intros m Hm E. rewrite TextOrder.after_later_than by auto.
    unfold later_than. rewrite E, RoundTrip.strptime_isoformat by assumption.
    apply DatetimeFacts.gtb_nlt. unfold Datetime.lt. lia.
Qed.

Lemma filter_after_is_chronological_witness :
  filter (after (Datetime.mk_datetime 2016 8 23)) hawaii
  = filter (later_than (Datetime.mk_datetime 2016 8 23)) hawaii /\
  after (Datetime.mk_datetime 2016 8 23)
        (row "USC00519281" "2016-08-23" (Some (177 # 100)%Q) (Some 77%Q)) = false.
Proof.
  destruct (filter_after_is_chronological hawaii (Datetime.mk_datetime 2016 8 23))
    as [F S].
  - intros m Hm. simpl in Hm.
    repeat (destruct Hm as [<-|Hm]; [reflexivity|]). contradiction.
  - reflexivity.
  - split; [exact F|]. apply S; [simpl; tauto | reflexivity].
Defined.

(** ** Sessions: which handlers close what they open *)

Section Sessions.
Import Io.

Lemma remove_new (x : nat) (l : list nat) :
  ~ In x l -> remove Nat.eq_dec x (x :: l) = l.
Proof.
  intros H. simpl. destruct (Nat.eq_dec x x) as [_|C]; [|contradiction].
  now apply notin_remove.
Qed.

Lemma fresh_new (st : state) : fresh st -> ~ In (created st) (open_sessions st).
Proof.
  intros F C. apply F in C. lia.
Qed.

Lemma fresh_open (st : state) :
  fresh st -> fresh (snd (Session_engine st)).
Proof.
  intros F i [<-|H]; simpl; [lia|]. apply F in H. lia.
Qed.

(** A session opened and closed leaves the open sessions as they were. *)
Lemma open_then_close (st : state) :
  fresh st ->
  open_sessions (snd (session_close (snd (Session_engine st)))) = open_sessions st.
Proof.
  intros F. simpl. destruct (Nat.eq_dec (created st) (created st)) as [_|C];
    [|contradiction].
  apply notin_remove. now apply fresh_new.
Qed.

(** The second session of a date route is closed before the page is
    built, whether [round] then fails or not. *)
Lemma web_stats_page (db : table) (a b : pystr) (st : state) :
  fresh st ->
  exists st',
    Web.stats_page db a b st = (App.stats_page db a b, st') /\
    open_sessions st' = open_sessions st /\
    created st' = S (created st).
Proof.
  intros F. unfold Web.stats_page, App.stats_page, temp_stats, bind_io,
              Session_engine, session_close, lift, Io.ret.
  cbn [unpack1 bind fst snd created open_sessions session].
  rewrite (remove_new _ _ (fresh_new st F)).
  destruct (func_avg _); cbn [round1 bind]; eexists; split; try reflexivity;
    split; reflexivity.
Qed.

End Sessions.

Section SessionTheorems.
Import Io.

Lemma dt_gt_raises (a b : pystr) (x : exn) :
  dt_gt a b = Raise x -> x = ValueError \/ x = TypeError.
Proof.
  unfold dt_gt.
  destruct (Datetime.strptime a) as [u|y] eqn:Ha; cbn [bind].
  - destruct (Datetime.strptime b) as [v|y] eqn:Hb; cbn [bind]; [discriminate|].
    intros E. inversion E. subst. apply strptime_raises in Hb. tauto.
  - intros E. inversion E. subst. apply strptime_raises in Ha. tauto.
Qed.

Lemma dt_lt_raises (a b : pystr) (x : exn) :
  dt_lt a b = Raise x -> x = ValueError \/ x = TypeError.
Proof.
  unfold dt_lt.
  destruct (Datetime.strptime a) as [u|y] eqn:Ha; cbn [bind].
  - destruct (Datetime.strptime b) as [v|y] eqn:Hb; cbn [bind]; [discriminate|].
    intros E. inversion E. subst. apply strptime_raises in Hb. tauto.
  - intros E. inversion E. subst. apply strptime_raises in Ha. tauto.
Qed.

Lemma py_and_raises (a b : pystr) (c d : pystr) (x : exn) :
  py_and (dt_gt a b) (dt_lt c d) = Raise x -> x = ValueError \/ x = TypeError.
Proof.
  unfold py_and. destruct (dt_gt a b) as [[|]|y] eqn:E1; cbn [bind].
  - apply dt_lt_raises.
  - discriminate.
  - intros E. inversion E. subst. now apply dt_gt_raises in E1.
Qed.

(** The end of a [try] block once the dates are checked: the pure page
    and the sessions after it. *)
Lemma web_stats_page_tried (db : table) (a b : pystr) (st : state)
      (h1 h2 : io body) :
  fresh st ->
  exists st',
    try_except_io (Web.stats_page db a b)
      [(ValueError, h1); (DataDateError, h2)] st
    = (App.stats_page db a b, st') /\
    open_sessions st' = open_sessions st /\
    created st' = S (created st) /\
    is_message (App.stats_page db a b) = false.
Proof.
  intros F. destruct (web_stats_page db a b st F) as (st' & E & O & C).
  exists st'. unfold try_except_io. rewrite E.
  destruct (stats_page_cases db a b) as [R|(mn & mx & av & R)]; rewrite R;
    simpl; auto.
Qed.

End SessionTheorems.

(** X22. The index and stations handlers never raise, whatever the tables
    hold: [home] shows the dates that func.min and func.max return (None on
    an empty table), [station] returns the rows as they are, and each closes
    the one session it creates. *)
Theorem home_and_station_close_their_session
        (db : table) (stations : list Stations.Station) (st : Io.state) :
  fresh st ->
  (exists st',
     Web.home db st =
       (Return (Web.IndexPage (min_text (map date db)) (max_text (map date db))), st') /\
     Io.open_sessions st' = Io.open_sessions st /\
     Io.created st' = S (Io.created st)) /\
  (exists st',
     Web.station stations st = (Return stations, st') /\
     Io.open_sessions st' = Io.open_sessions st /\
     Io.created st' = S (Io.created st)).
Proof.
  intros F. split.
  - unfold Web.home, Io.bind_io, Io.Session_engine, Io.session_close, Io.ret.
    cbn [fst snd Io.created Io.open_sessions Io.session].
    rewrite (remove_new _ _ (fresh_new st F)).
    eexists. repeat split.
  - unfold Web.station, Io.bind_io, Io.Session_engine, Io.session_close, Io.ret.
    cbn [fst snd Io.created Io.open_sessions Io.session].
    rewrite (remove_new _ _ (fresh_new st F)).
    assert (E : map (fun item =>
                  Stations.mk_station (Stations.id item) (Stations.station item)
                    (Stations.name item) (Stations.latitude item)
                    (Stations.longitude item) (Stations.elevation item))
                  stations = stations).
    { rewrite <- (map_id stations) at 2. apply map_ext. now intros []. }
    rewrite E. eexists. repeat split.
Qed.

Lemma home_and_station_close_their_session_witness :
  (exists st',
     Web.home [] request_start = (Return (Web.IndexPage None None), st') /\
     Io.open_sessions st' = []) /\
  (exists st',
     Web.station [] request_start = (Return [], st') /\
     Io.open_sessions st' = []).
Proof.
  destruct (home_and_station_close_their_session [] [] request_start)
    as [(s1 & H1 & O1 & _) (s2 & H2 & O2 & _)].
  - intros i H. contradiction.
  - split; [exists s1 | exists s2]; split; assumption.
Defined.

(** X23. The precipitation handler with its session gives the result of
    [precip]; when it returns, the session it created is closed, and when
    it raises, that session is left open. *)
Theorem precip_session (db : table) (st : Io.state) :
  fresh st ->
  exists st',
    Web.precip db st = (precip db, st') /\
    Io.created st' = S (Io.created st) /\
    Io.open_sessions st' =
      match precip db with
      | Return _ => Io.open_sessions st
      | Raise _ => Io.created st :: Io.open_sessions st
      end.
Proof.
  intros F. unfold Web.precip, precip, Io.bind_io, Io.Session_engine,
              Io.session_close, Io.lift, Io.ret.
  cbn [fst snd].
  destruct (Datetime.strptime (max_text (map date db))) as [dl|x]; cbn [bind].
  - destruct (one_year_before dl) as [d1|x]; cbn [bind].
    + cbn [Io.created Io.open_sessions Io.session].
      rewrite (remove_new _ _ (fresh_new st F)). eexists. repeat split.
    + eexists. repeat split.
  - eexists. repeat split.
Qed.

Lemma precip_session_witness :
  (exists st', Web.precip hawaii request_start = (precip hawaii, st') /\
               Io.open_sessions st' = []) /\
  (exists st', Web.precip leap_table request_start = (Raise ValueError, st') /\
               Io.open_sessions st' = [0%nat]).
Proof.
  split.
  - destruct (precip_session hawaii request_start) as (s & H & _ & O).
    + intros i H. contradiction.
    + exists s. split; assumption.
  - destruct (precip_session leap_table request_start) as (s & H & _ & O).
    + intros i H. contradiction.
    + exists s. split; assumption.
Defined.

(** X24. The tobs handler with its session gives the result of [tobs];
    when it returns, the session it created is closed, and when it raises,
    that session is left open. *)
Theorem tobs_session (db : table) (st : Io.state) :
  fresh st ->
  exists st',
    Web.tobs db st = (tobs db, st') /\
    Io.created st' = S (Io.created st) /\
    Io.open_sessions st' =
      match tobs db with
      | Return _ => Io.open_sessions st
      | Raise _ => Io.created st :: Io.open_sessions st
      end.
Proof.
  intros F. unfold Web.tobs, tobs, Io.bind_io, Io.Session_engine,
              Io.session_close, Io.lift, Io.ret.
  cbn [fst snd].
  destruct (busiest db) as [sid|x]; cbn [bind].
  - destruct (Datetime.strptime _) as [dl|x]; cbn [bind].
    + destruct (one_year_before dl) as [d1|x]; cbn [bind].
      * cbn [Io.created Io.open_sessions Io.session].
        rewrite (remove_new _ _ (fresh_new st F)). eexists. repeat split.
      * eexists. repeat split.
    + eexists. repeat split.
  - eexists. repeat split.
Qed.

Lemma tobs_session_witness :
  (exists st', Web.tobs hawaii request_start = (tobs hawaii, st') /\
               Io.open_sessions st' = []) /\
  (exists st', Web.tobs [] request_start = (Raise IndexError, st') /\
               Io.open_sessions st' = [0%nat]).
Proof.
  split.
  - destruct (tobs_session hawaii request_start) as (s & H & _ & O).
    + intros i H. contradiction.
    + exists s. split; assumption.
  - destruct (tobs_session [] request_start) as (s & H & _ & O).
    + intros i H. contradiction.
    + exists s. split; assumption.
Defined.

(** X25. The single-date route with its sessions gives the result of
    [tobs_start].  When the answer is a message, the one session created is
    closed.  Otherwise (a statistics page, or an uncaught TypeError) the
    first session is left open: the handler binds a second session to the
    same variable and closes only that one. *)
Theorem tobs_start_sessions (db : table) (start : string) (st : Io.state) :
  fresh st ->
  exists st',
    Web.tobs_start db start st = (tobs_start db start, st') /\
    Io.open_sessions st' =
      (if is_message (tobs_start db start) then Io.open_sessions st
       else Io.created st :: Io.open_sessions st) /\
    (forall a b mn mx av,
       tobs_start db start = Return (StatsPage a b mn mx av) ->
       Io.created st' = S (S (Io.created st))).
Proof.
  intros F. unfold Web.tobs_start, tobs_start, tobs_start_try.
  set (d_latest := max_text (map date db)).
  unfold Io.bind_io at 1. cbn [Io.Session_engine fst snd].
  set (st1 := Io.mk_state _ _ _).
  assert (F1 : fresh st1) by apply (fresh_open st F).
  assert (N : ~ In (Io.created st) (Io.open_sessions st)) by now apply fresh_new.
  destruct (dt_gt (Some start) d_latest) as [[|]|x] eqn:G; cbn [bind].
  - unfold Io.try_except_io, Io.bind_io, Io.lift.
    cbn [Io.handler_for exn_eqb Io.session_close Io.ret fst snd try_except is_message].
    subst st1. cbn [Io.created Io.open_sessions Io.session].
    rewrite (remove_new _ _ N). eexists. repeat split. discriminate.
  - rewrite stats_page_uncaught.
    destruct (web_stats_page_tried db (Some start) d_latest st1
                (Io.bind_io Io.session_close (fun _ => Io.ret InvalidFormatPage))
                (Io.bind_io Io.session_close
                   (fun _ => Io.ret (LaterThanDataPage d_latest))) F1)
      as (st' & E & O & C & M).
    exists st'. split; [|split].
    + unfold Io.try_except_io in *. unfold Io.bind_io at 1. unfold Io.lift at 1.
      exact E.
    + rewrite M, O. reflexivity.
    + intros. rewrite C. reflexivity.
  - unfold Io.try_except_io, Io.bind_io, Io.lift.
    destruct (dt_gt_raises _ _ _ G) as [->| ->];
      cbn [Io.handler_for exn_eqb Io.session_close Io.ret fst snd try_except is_message];
      subst st1; cbn [Io.created Io.open_sessions Io.session].
    + rewrite (remove_new _ _ N). eexists. repeat split. discriminate.
    + eexists. repeat split. discriminate.
Qed.

Lemma tobs_start_sessions_witness :
  (exists st', Web.tobs_start hawaii "2017-01-01" request_start
                 = (tobs_start hawaii "2017-01-01", st') /\
               Io.open_sessions st' = [0%nat] /\ Io.created st' = 2%nat) /\
  (exists st', Web.tobs_start hawaii "2018-01-01" request_start
                 = (tobs_start hawaii "2018-01-01", st') /\
               Io.open_sessions st' = []).
Proof.
  split.
  - destruct (tobs_start_sessions hawaii "2017-01-01" request_start)
      as (s & H & O & C).
    + intros i H. contradiction.
    + exists s. split; [exact H|]. split; [exact O|].
      eapply C. reflexivity.
  - destruct (tobs_start_sessions hawaii "2018-01-01" request_start)
      as (s & H & O & _).
    + intros i H. contradiction.
    + exists s. split; assumption.
Defined.

Section TwoDateSessions.
Import Io.

Variable st : state.
Hypothesis F : fresh st.
Variable message : body.
Hypothesis Hmessage : is_message (Return message) = true.

Lemma tried_raise_value :
  date_route_sessions st
    (try_except_io (lift (Raise ValueError))
       [(ValueError, bind_io session_close (fun _ => ret InvalidFormatPage));
        (DataDateError, bind_io session_close (fun _ => ret message))]
       (snd (Session_engine st)))
    (try_except (Raise ValueError)
       [(ValueError, Return InvalidFormatPage); (DataDateError, Return message)]).
Proof.
  unfold date_route_sessions, try_except_io, bind_io, lift, session_close, ret.
  simpl. destruct (Nat.eq_dec (created st) (created st)) as [_|C]; [|contradiction].
  rewrite (notin_remove _ _ _ (fresh_new st F)).
  repeat split. discriminate.
Qed.

Lemma tried_raise_data_date :
  date_route_sessions st
    (try_except_io (lift (Raise DataDateError))
       [(ValueError, bind_io session_close (fun _ => ret InvalidFormatPage));
        (DataDateError, bind_io session_close (fun _ => ret message))]
       (snd (Session_engine st)))
    (try_except (Raise DataDateError)
       [(ValueError, Return InvalidFormatPage); (DataDateError, Return message)]).
Proof.
  unfold date_route_sessions, try_except_io, bind_io, lift, session_close, ret.
  cbn [handler_for exn_eqb try_except fst snd Session_engine
       created open_sessions session].
  rewrite (remove_new _ _ (fresh_new st F)), Hmessage.
  repeat split. intros a b mn mx av E. inversion E. subst. discriminate.
Qed.

Lemma tried_raise_type :
  date_route_sessions st
    (try_except_io (lift (Raise TypeError))
       [(ValueError, bind_io session_close (fun _ => ret InvalidFormatPage));
        (DataDateError, bind_io session_close (fun _ => ret message))]
       (snd (Session_engine st)))
    (try_except (Raise TypeError)
       [(ValueError, Return InvalidFormatPage); (DataDateError, Return message)]).
Proof.
  unfold date_route_sessions, try_except_io, lift. simpl.
  repeat split. discriminate.
Qed.

Lemma tried_stats_page (db : table) (a b : pystr) :
  date_route_sessions st
    (try_except_io (Web.stats_page db a b)
       [(ValueError, bind_io session_close (fun _ => ret InvalidFormatPage));
        (DataDateError, bind_io session_close (fun _ => ret message))]
       (snd (Session_engine st)))
    (try_except (App.stats_page db a b)
       [(ValueError, Return InvalidFormatPage); (DataDateError, Return message)]).
Proof.
  rewrite stats_page_uncaught.
  destruct (web_stats_page_tried db a b (snd (Session_engine st))
              (bind_io session_close (fun _ => ret InvalidFormatPage))
              (bind_io session_close (fun _ => ret message))
              (fresh_open st F)) as (st' & E & O & C & M).
  unfold date_route_sessions. rewrite E, M. cbn [fst snd].
  split; [reflexivity|]. split; [exact O|]. intros. exact C.
Qed.

(** One more checked step in front of a [try] body. *)
Lemma tried_bind {A : Type} (c : outcome A) (k : A -> io body)
      (k' : A -> outcome body) :
  (forall x, c = Raise x -> x = ValueError \/ x = TypeError) ->
  (forall a, c = Return a ->
     date_route_sessions st
       (try_except_io (k a)
          [(ValueError, bind_io session_close (fun _ => ret InvalidFormatPage));
           (DataDateError, bind_io session_close (fun _ => ret message))]
          (snd (Session_engine st)))
       (try_except (k' a)
          [(ValueError, Return InvalidFormatPage); (DataDateError, Return message)])) ->
  date_route_sessions st
    (try_except_io (bind_io (lift c) k)
       [(ValueError, bind_io session_close (fun _ => ret InvalidFormatPage));
        (DataDateError, bind_io session_close (fun _ => ret message))]
       (snd (Session_engine st)))
    (try_except (bind c k')
       [(ValueError, Return InvalidFormatPage); (DataDateError, Return message)]).
Proof.
  intros Hc Hk. destruct c as [a|x].
  - specialize (Hk a eq_refl). exact Hk.
  - destruct (Hc x eq_refl) as [->| ->].
    + exact tried_raise_value.
    + exact tried_raise_type.
Qed.

End TwoDateSessions.

(** X26. The two-date route with its sessions gives the result of
    [tobs_start_end].  When the answer is a message, the one session
    created is closed.  Otherwise (a statistics page, or an uncaught
    TypeError) the first session is left open, and a statistics page means
    that two sessions were created. *)
Theorem tobs_start_end_sessions
        (db : table) (start end_ : string) (st : Io.state) :
  fresh st ->
  exists st',
    Web.tobs_start_end db start end_ st = (tobs_start_end db start end_, st') /\
    Io.open_sessions st' =
      (if is_message (tobs_start_end db start end_) then Io.open_sessions st
       else Io.created st :: Io.open_sessions st) /\
    (forall a b mn mx av,
       tobs_start_end db start end_ = Return (StatsPage a b mn mx av) ->
       Io.created st' = S (S (Io.created st))).
Proof.
  intros F.
  assert (G : date_route_sessions st (Web.tobs_start_end db start end_ st)
                (tobs_start_end db start end_)).
  { unfold Web.tobs_start_end, tobs_start_end, tobs_start_end_try.
    set (d_e := min_text (map date db)). set (d_l := max_text (map date db)).
    unfold Io.bind_io at 1.
    change (Io.Session_engine st) with (Return tt, snd (Io.Session_engine st)).
    cbv iota.
    apply (tried_bind st F (OutsideRangePage d_e d_l));
      [apply dt_gt_raises | intros swap _].
    destruct (if swap then _ else _) as [lo hi].
    apply (tried_bind st F (OutsideRangePage d_e d_l));
      [apply py_and_raises | intros outside _].
    destruct outside.
    - apply (tried_raise_data_date st F). reflexivity.
    - apply (tried_bind st F (OutsideRangePage d_e d_l));
        [apply dt_lt_raises | intros early _].
      apply (tried_bind st F (OutsideRangePage d_e d_l));
        [apply dt_gt_raises | intros late _].
      apply (tried_stats_page st F). }
  destruct G as (E & O & C).
  exists (snd (Web.tobs_start_end db start end_ st)).
  split; [|split; assumption].
  rewrite <- E. now destruct (Web.tobs_start_end db start end_ st).
Qed.

Lemma tobs_start_end_sessions_witness :
  (exists st', Web.tobs_start_end hawaii "2017-01-01" "2017-12-31" request_start
                 = (tobs_start_end hawaii "2017-01-01" "2017-12-31", st') /\
               Io.open_sessions st' = [0%nat] /\ Io.created st' = 2%nat) /\
  (exists st', Web.tobs_start_end hawaii "2017-01-01" "never" request_start
                 = (tobs_start_end hawaii "2017-01-01" "never", st') /\
               Io.open_sessions st' = []).
Proof.
  split.
  - destruct (tobs_start_end_sessions hawaii "2017-01-01" "2017-12-31" request_start)
      as (s & H & O & C).
    + intros i H. contradiction.
    + exists s. split; [exact H|]. split; [exact O|].
      eapply C. reflexivity.
  - destruct (tobs_start_end_sessions hawaii "2017-01-01" "never" request_start)
      as (s & H & O & _).
    + intros i H. contradiction.
    + exists s. split; assumption.
Defined.
